(** * library-search: the e-book ingest pipeline

    A shallow embedding of the three Python programs of the repository

    - [ingest/epub_to_json.py]        (content extraction, metadata
                                       resolution, identity derivation),
    - [ingest/convert_json_to_ndjson.py] (chunk serialisation, bulk encoding),
    - [scripts/escli.py]              (embedding-merge mode of the encoder,
                                       bulk requests, creation of the
                                       indices),

    together with the properties of the specification that concern them,
    and with properties of the code around them: the reader of the bulk
    format, the two modes of the converter, the files the extractor writes.

    Modelling conventions.

    - A Python [str] is a [string]: a sequence of characters with code
      points below 256 (Latin-1).  The character classes and case mappings
      of Python (white space, digits, letters, word characters, lower and
      title case) are given for all of these code points.  Two operations
      leave this range and are marked where they occur: the title case of
      the two letters whose capital is not in Latin-1 ([title_closed]), and
      the escapes of [json.loads] for code points from 256 on ([narrow]).
    - A Python [dict] is an association list in insertion order, updated the
      way Python does it (assignment to an existing key keeps its position).
    - A Python [int] is a [Z]; a Python [float] is a binary64 number
      ([Float.float]), read from a decimal numeral with rounding to nearest
      even and printed with the shortest digits that read back, as
      [float.__repr__] does.
    - A Python exception is the [Raise] branch of [Py.result].
    - Library code the programs call (the SHA-1 of [hashlib], [json.dumps] and
      [json.loads], the pattern matcher of [re]) is modelled by executable
      definitions; the parsed form of an EPUB container ([ebooklib]) and of a
      markup document ([BeautifulSoup]) is the input of the model.  Limits of
      the interpreter (recursion depth, the length of the integers it
      converts to and from text) are not modelled. *)

From Stdlib Require Import String Ascii List ZArith NArith Lia Bool Arith.
From Stdlib Require Import DecimalString DecimalN DecimalFacts.
From Stdlib Require Import Permutation Sorted SpecFloat.
Import ListNotations.

Open Scope string_scope.
Open Scope list_scope.

(* ================================================================== *)
(** * Python values the programs compute with *)

Module Py.

(** Exceptions the modelled code can raise. *)
Inductive exn : Set :=
| TypeError
| AttributeError
| KeyError
| IndexError
| JSONDecodeError
| UnicodeDecodeError
| RuntimeError.

Inductive result (A : Type) : Type :=
| Ok (a : A)
| Raise (e : exn).
Arguments Ok {A} a.
Arguments Raise {A} e.

Definition bind {A B} (m : result A) (k : A -> result B) : result B :=
  match m with
  | Ok a => k a
  | Raise e => Raise e
  end.

(** [try: m except Exception: d] *)
Definition try_except {A} (m : result A) (d : A) : A :=
  match m with
  | Ok a => a
  | Raise _ => d
  end.

Definition is_ok {A} (m : result A) : bool :=
  match m with Ok _ => true | Raise _ => false end.

(** ** Characters *)

Definition code (c : ascii) : N := N_of_ascii c.

Definition in_range (lo hi : N) (c : ascii) : bool :=
  ((lo <=? code c) && (code c <=? hi))%N.

(** [str.isspace] on one character: TAB..CR, FS..US, space, NEL, NBSP. *)
Definition isspace (c : ascii) : bool :=
  in_range 9 13 c || in_range 28 32 c
  || (code c =? 133)%N || (code c =? 160)%N.

(** [str.isupper] and [str.islower] on one character: the letters of
    ASCII and of Latin-1, with the two ordinal indicators and the micro
    sign among the lower-case ones. *)
Definition isupper (c : ascii) : bool :=
  in_range 65 90 c || in_range 192 214 c || in_range 216 222 c.
Definition islower (c : ascii) : bool :=
  in_range 97 122 c || (code c =? 170)%N || (code c =? 181)%N
  || (code c =? 186)%N || in_range 223 246 c || in_range 248 255 c.

(** [str.isalpha]; below 256 every letter is cased. *)
Definition isalpha (c : ascii) : bool := isupper c || islower c.
Definition cased (c : ascii) : bool := isupper c || islower c.

Definition isdigit (c : ascii) : bool := in_range 48 57 c.

(** [str.isalnum]: letters, digits, the superscript digits and the three
    fractions. *)
Definition isalnum (c : ascii) : bool :=
  isalpha c || isdigit c || in_range 178 179 c || (code c =? 185)%N
  || in_range 188 190 c.

(** [c.lower()] *)
Definition tolower (c : ascii) : ascii :=
  if isupper c then ascii_of_N (code c + 32) else c.

(** The capital of the micro sign and the one of y with diaeresis are
    not in Latin-1. *)
Definition wide_capital (c : ascii) : bool :=
  (code c =? 181)%N || (code c =? 255)%N.

(** [c.title()]: the capital of a lower-case letter, two letters for the
    sharp s.  A letter whose capital is not in Latin-1 is left as it is:
    see [title_closed]. *)
Definition title_char (c : ascii) : string :=
  if in_range 97 122 c || in_range 224 246 c || in_range 248 254 c
  then String (ascii_of_N (code c - 32)) EmptyString
  else if (code c =? 223)%N then "Ss"
  else String c EmptyString.

(** The double quote character. *)
Definition dquote : ascii :=
  Ascii false true false false false true false false.

(** ** Strings *)

Definition is_empty (s : string) : bool :=
  match s with EmptyString => true | String _ _ => false end.

Fixpoint lstrip (s : string) : string :=
  match s with
  | EmptyString => EmptyString
  | String c r => if isspace c then lstrip r else s
  end.

Fixpoint rstrip (s : string) : string :=
  match s with
  | EmptyString => EmptyString
  | String c r =>
      let r' := rstrip r in
      if isspace c && is_empty r' then EmptyString else String c r'
  end.

(** [s.strip()] *)
Definition strip (s : string) : string := lstrip (rstrip s).

(** [sep.join(l)] *)
Definition join (sep : string) (l : list string) : string :=
  String.concat sep l.

(** [s[:n]] *)
Fixpoint take (n : nat) (s : string) : string :=
  match n, s with
  | S k, String c r => String c (take k r)
  | _, _ => EmptyString
  end.

(** [s[n:]] *)
Fixpoint drop (n : nat) (s : string) : string :=
  match n, s with
  | S k, String _ r => drop k r
  | _, _ => s
  end.

(** [s.startswith(p)] *)
Fixpoint startswith (p s : string) : bool :=
  match p with
  | EmptyString => true
  | String a p' =>
      match s with
      | EmptyString => false
      | String b s' => Ascii.eqb a b && startswith p' s'
      end
  end.

(** [sub in s] *)
Fixpoint contains (sub s : string) : bool :=
  startswith sub s
  || match s with
     | EmptyString => false
     | String _ r => contains sub r
     end.

(** [s.replace(a, b)] for one-character [a] and [b]. *)
Fixpoint replace_char (a b : ascii) (s : string) : string :=
  match s with
  | EmptyString => EmptyString
  | String c r =>
      String (if Ascii.eqb c a then b else c) (replace_char a b r)
  end.

(** [s.split(sep)] for a non-empty separator: [skip] counts the characters
    of a separator just matched that are still to be passed over. *)
Fixpoint split_from (sep cur s : string) (skip : nat) : list string :=
  match s with
  | EmptyString => [cur]
  | String c r =>
      match skip with
      | S k => split_from sep cur r k
      | O =>
          if startswith sep s
          then cur :: split_from sep EmptyString r (String.length sep - 1)
          else split_from sep (cur ++ String c EmptyString) r 0
      end
  end.

Definition split (sep s : string) : list string :=
  split_from sep EmptyString s 0.

(** [s.split()]: the maximal runs of characters that are not white space. *)
Fixpoint split_ws_from (cur s : string) : list string :=
  match s with
  | EmptyString => if is_empty cur then [] else [cur]
  | String c r =>
      if isspace c
      then (if is_empty cur then split_ws_from EmptyString r
            else cur :: split_ws_from EmptyString r)
      else split_ws_from (cur ++ String c EmptyString) r
  end.

Definition split_ws (s : string) : list string :=
  split_ws_from EmptyString s.

(** [s.title()]: a character that follows a cased one is lowered, one
    that does not is given its title case. *)
Fixpoint title_from (previous_is_cased : bool) (s : string) : string :=
  match s with
  | EmptyString => EmptyString
  | String c r =>
      ((if previous_is_cased then String (tolower c) EmptyString
        else title_char c)
         ++ title_from (cased c) r)%string
  end.

Definition title (s : string) : string := title_from false s.

(** The title case of [s] is a Latin-1 string: no letter whose capital
    is outside Latin-1 stands where [s.title()] raises it. *)
Fixpoint title_closed_from (previous_is_cased : bool) (s : string) : bool :=
  match s with
  | EmptyString => true
  | String c r =>
      (previous_is_cased || negb (wide_capital c))
      && title_closed_from (cased c) r
  end.

Definition title_closed (s : string) : bool := title_closed_from false s.

(** The characters of a string, as Python iterates over it. *)
Fixpoint chars (s : string) : list string :=
  match s with
  | EmptyString => []
  | String c r => String c EmptyString :: chars r
  end.

Definition hex_digit (n : N) : ascii :=
  if (n <? 10)%N then ascii_of_N (48 + n) else ascii_of_N (87 + n).

(** Two lower-case hexadecimal digits of a byte. *)
Definition hex2 (n : N) : string :=
  String (hex_digit (n / 16)) (String (hex_digit (n mod 16)) EmptyString).

(** [str(n)] for a natural number. *)
Definition str_of_N (n : N) : string :=
  NilEmpty.string_of_uint (N.to_uint n).

(** [str(z)] for an integer. *)
Definition str_of_Z (z : Z) : string :=
  match z with
  | Zneg p => String "-" (str_of_N (Npos p))
  | _ => str_of_N (Z.to_N z)
  end.

(** [f"{n:06d}"] for a natural number: decimal, left-padded with zeros to
    a width of at least six. *)
Definition format_06d (n : nat) : string :=
  let d := str_of_N (N.of_nat n) in
  String.concat EmptyString (repeat "0" (6 - String.length d)) ++ d.

End Py.

Export Py.

Declare Scope py_scope.
Delimit Scope py_scope with py.
Notation "x <- m ;; k" := (Py.bind m (fun x => k))
  (at level 61, m at next level, right associativity) : py_scope.
Notation "' p <- m ;; k" := (Py.bind m (fun x => match x with p => k end))
  (at level 61, p pattern, m at next level, right associativity) : py_scope.
Open Scope py_scope.


(* ================================================================== *)
(** * Python floats *)

Module Float.

Local Open Scope Z_scope.

(** A [float] is a binary64 number: 53 bits of precision, exponents below
    1024.  A finite number is [m * 2^e]; the numbers of the format are
    the ones [SpecFloat.valid_binary prec emax] accepts. *)
Definition prec : Z := 53.
Definition emax : Z := 1024.

Definition float : Set := spec_float.

Definition nan : float := S754_nan.
Definition infinity (negative : bool) : float := S754_infinity negative.

Definition eqb (x y : float) : bool :=
  match x, y with
  | S754_zero a, S754_zero b => Bool.eqb a b
  | S754_infinity a, S754_infinity b => Bool.eqb a b
  | S754_nan, S754_nan => true
  | S754_finite a m e, S754_finite b n f =>
      Bool.eqb a b && Pos.eqb m n && Z.eqb e f
  | _, _ => false
  end.

(** [bool(x)]: the two zeros are false. *)
Definition truthy (x : float) : bool :=
  match x with
  | S754_zero _ => false
  | _ => true
  end.

(** ** From a decimal numeral: [float(s)] *)

(** The number of decimal digits of [m]. *)
Definition digits10 (m : N) : Z := Z.of_nat (String.length (str_of_N m)).

(** [m * 10^e], with the sign given, rounded to the nearest number of the
    format, to the even one of two that are as near; infinite from
    [2^1024 - 2^970] on.  A number of at least [10^310] is infinite and
    one below [10^-330] rounds to zero whatever its digits: there the
    powers are not computed. *)
Definition of_decimal (negative : bool) (m : N) (e : Z) : float :=
  match m with
  | N0 => S754_zero negative
  | Npos p =>
      if 310 <? digits10 m + e then S754_infinity negative
      else if digits10 m + e <? -330 then S754_zero negative
      else if 0 <=? e then
        binary_round prec emax negative (Z.to_pos (Zpos p * 10 ^ e)) 0
      else
        let d := 10 ^ (- e) in
        let k := Z.max 0 (56 + Z.log2 d - Z.log2 (Zpos p)) in
        let (q, r) := Z.div_eucl (Z.shiftl (Zpos p) k) d in
        binary_round_aux prec emax negative q (- k)
          (if r =? 0 then loc_Exact
           else loc_Inexact (Z.compare (2 * r) d))
  end.

(** ** To a decimal numeral: [repr(x)] *)

(** [m * 2^e] written exactly as [d * 10^q]. *)
Definition exact_decimal (m : positive) (e : Z) : N * Z :=
  if 0 <=? e then (Z.to_N (Zpos m * 2 ^ e), 0)
  else (Z.to_N (Zpos m * 5 ^ (- e)), e).

Definition reads_as (m : positive) (e : Z) (d : N) (q : Z) : bool :=
  eqb (of_decimal false d q) (S754_finite false m e).

(** [lo] or [lo + 1], whichever is nearer to [lo + rem / p10]; the even
    one when they are as near. *)
Definition nearer (lo rem p10 : N) : N :=
  match (2 * rem ?= p10)%N with
  | Lt => lo
  | Gt => (lo + 1)%N
  | Eq => if N.even lo then lo else (lo + 1)%N
  end.

(** The numeral of [n] digits that reads back as [m * 2^e], if there is
    one: [d] itself when its [nd] digits are no more than [n]; else [d]
    cut to [n] digits, or that plus one, the nearer of the two when both
    read back. *)
Definition with_digits (m : positive) (e : Z) (d : N) (nd : nat) (q : Z)
  (n : nat) : option (N * Z) :=
  if (nd <=? n)%nat then Some (d, q)
  else
    let cut := N.of_nat (nd - n) in
    let p10 := (10 ^ cut)%N in
    let lo := (d / p10)%N in
    let rem := (d mod p10)%N in
    let q' := q + Z.of_N cut in
    match reads_as m e lo q', reads_as m e (lo + 1)%N q' with
    | true, true => Some (nearer lo rem p10, q')
    | true, false => Some (lo, q')
    | false, true => Some ((lo + 1)%N, q')
    | false, false => None
    end.

(** The shortest numeral that reads back, looked for from [n] digits on;
    seventeen digits are enough for a number of the format. *)
Fixpoint shortest_from (fuel : nat) (m : positive) (e : Z) (d : N)
  (nd : nat) (q : Z) (n : nat) : N * Z :=
  match fuel with
  | O => (d, q)
  | S f =>
      match with_digits m e d nd q n with
      | Some r => r
      | None => shortest_from f m e d nd q (S n)
      end
  end.

(** Zeros at the end of the digits go into the exponent. *)
Fixpoint strip_zeros (fuel : nat) (d : N) (q : Z) : N * Z :=
  match fuel with
  | O => (d, q)
  | S f =>
      if ((d mod 10 =? 0) && negb (d =? 0))%N
      then strip_zeros f (d / 10)%N (q + 1)
      else (d, q)
  end.

(** The digits of [repr] and the place of the decimal point: [m * 2^e]
    is [0.d1 d2 ... * 10^decpt], up to rounding. *)
Definition shortest (m : positive) (e : Z) : string * Z :=
  let (d, q) := exact_decimal m e in
  let (d, q) :=
    shortest_from 17 m e d (String.length (str_of_N d)) q 1 in
  let (d, q) := strip_zeros 17 d q in
  let digits := str_of_N d in
  (digits, Z.of_nat (String.length digits) + q).

Fixpoint zeros (n : nat) : string :=
  match n with
  | O => EmptyString
  | S k => String "0" (zeros k)
  end.

(** The exponent of the scientific notation: a sign and at least two
    digits. *)
Definition exponent (z : Z) : string :=
  let a := str_of_N (Z.abs_N z) in
  ((if (z <? 0)%Z then "-" else "+")
     ++ (if (String.length a <? 2)%nat then "0" else EmptyString) ++ a)%string.

(** The digits [c r] with the decimal point after [k] digits of [r], a
    zero after the point when it ends the numeral. *)
Definition point (k : nat) (r : string) : string :=
  if (k <? String.length r)%nat
  then (take k r ++ "." ++ drop k r)%string
  else (r ++ zeros (k - String.length r) ++ ".0")%string.

(** The notation of [repr]: scientific when the decimal point would
    stand more than four places before the digits or more than sixteen
    places into them. *)
Definition notation (digits : string) (decpt : Z) : string :=
  match digits with
  | EmptyString => "0.0"
  | String c r =>
      if (decpt <=? -4) || (16 <? decpt) then
        String c ((if is_empty r then EmptyString else String "." r)
                    ++ "e" ++ exponent (decpt - 1))
      else if decpt <=? 0 then
        ("0." ++ zeros (Z.to_nat (- decpt)) ++ digits)%string
      else String c (point (Z.to_nat (decpt - 1)) r)
  end.

Definition sign (negative : bool) : string :=
  if negative then "-" else EmptyString.

(** [repr(x)] of a number that is finite. *)
Definition repr_finite (negative : bool) (m : positive) (e : Z) : string :=
  let (digits, decpt) := shortest m e in
  (sign negative ++ notation digits decpt)%string.

(** [repr(x)], which is also [str(x)]. *)
Definition repr (x : float) : string :=
  match x with
  | S754_nan => "nan"
  | S754_infinity s => (sign s ++ "inf")%string
  | S754_zero s => (sign s ++ "0.0")%string
  | S754_finite s m e => repr_finite s m e
  end.

End Float.

(* ================================================================== *)
(** * JSON values, Python dictionaries, [json.dumps] and [json.loads] *)

Module Json.

#[local] Unset Elimination Schemes.
Inductive json : Type :=
| JNull
| JBool (b : bool)
| JInt (z : Z)
| JFloat (x : Float.float)
| JStr (s : string)
| JList (l : list json)
| JDict (d : list (string * json)).
#[local] Set Elimination Schemes.

Definition dict := list (string * json).

(** ** Dictionaries *)

(** [k in d] *)
Fixpoint dict_mem (k : string) (d : dict) : bool :=
  match d with
  | [] => false
  | (k', _) :: r => String.eqb k k' || dict_mem k r
  end.

(** [d.get(k)], with [None] for Python's [None] default left to the
    caller. *)
Fixpoint dict_get (k : string) (d : dict) : option json :=
  match d with
  | [] => None
  | (k', v) :: r => if String.eqb k k' then Some v else dict_get k r
  end.

(** [d[k] = v]: an existing key keeps its place, a new one goes last. *)
Fixpoint dict_set (k : string) (v : json) (d : dict) : dict :=
  match d with
  | [] => [(k, v)]
  | (k', v') :: r =>
      if String.eqb k k' then (k', v) :: r else (k', v') :: dict_set k v r
  end.

(** [d.setdefault(k, v)] *)
Definition dict_setdefault (k : string) (v : json) (d : dict) : dict :=
  if dict_mem k d then d else dict_set k v d.

(** [del d[k]] for a key that is present. *)
Fixpoint dict_del (k : string) (d : dict) : dict :=
  match d with
  | [] => []
  | (k', v') :: r => if String.eqb k k' then r else (k', v') :: dict_del k r
  end.

(** [dict(pairs)]: later pairs overwrite earlier ones. *)
Definition dict_of_pairs (l : list (string * json)) : dict :=
  fold_left (fun d kv => dict_set (fst kv) (snd kv) d) l [].

(** ** Python operations on JSON values *)

(** [bool(v)] *)
Definition truthy (v : json) : bool :=
  match v with
  | JNull => false
  | JBool b => b
  | JInt z => negb (z =? 0)%Z
  | JFloat x => Float.truthy x
  | JStr s => negb (is_empty s)
  | JList l => match l with [] => false | _ => true end
  | JDict d => match d with [] => false | _ => true end
  end.

(** [v.get(k, default)]: only a dictionary has the method. *)
Definition py_get (v : json) (k : string) (default : json) : result json :=
  match v with
  | JDict d => Ok (match dict_get k d with Some x => x | None => default end)
  | _ => Raise AttributeError
  end.

(** [v[k]] for a string [k]. *)
Definition py_getitem (v : json) (k : string) : result json :=
  match v with
  | JDict d =>
      match dict_get k d with Some x => Ok x | None => Raise KeyError end
  | JList _ | JStr _ => Raise TypeError
  | _ => Raise TypeError
  end.

Definition json_is_str (s : string) (v : json) : bool :=
  match v with JStr s' => String.eqb s s' | _ => false end.

(** [k in v] for a string [k]. *)
Definition py_contains (k : string) (v : json) : result bool :=
  match v with
  | JDict d => Ok (dict_mem k d)
  | JList l => Ok (existsb (json_is_str k) l)
  | JStr s => Ok (contains k s)
  | _ => Raise TypeError
  end.

(** [iter(v)]: the elements a [for] loop over [v] visits. *)
Definition py_iter (v : json) : result (list json) :=
  match v with
  | JList l => Ok l
  | JStr s => Ok (map JStr (chars s))
  | JDict d => Ok (map (fun kv => JStr (fst kv)) d)
  | _ => Raise TypeError
  end.

(** ** [repr] and [str] *)

Definition has_char (c : ascii) (s : string) : bool :=
  contains (String c EmptyString) s.

(** Is the character printed as it is by [repr]? *)
Definition printable (c : ascii) : bool :=
  in_range 32 126 c || (in_range 161 255 c && negb (code c =? 173)%N).

Definition repr_char (quote : ascii) (c : ascii) : string :=
  if Ascii.eqb c quote then String "\" (String c EmptyString)
  else if Ascii.eqb c "\" then "\\"
  else if (code c =? 10)%N then "\n"
  else if (code c =? 13)%N then "\r"
  else if (code c =? 9)%N then "\t"
  else if printable c then String c EmptyString
  else ("\x" ++ hex2 (code c))%string.

Fixpoint repr_chars (quote : ascii) (s : string) : string :=
  match s with
  | EmptyString => EmptyString
  | String c r => (repr_char quote c ++ repr_chars quote r)%string
  end.

(** [repr(s)] of a string: single quotes, unless the string has a single
    quote and no double quote. *)
Definition repr_str (s : string) : string :=
  let quote : ascii :=
    if has_char "'" s && negb (has_char dquote s) then dquote
    else "'"%char in
  String quote (repr_chars quote s ++ String quote EmptyString).

Fixpoint repr (v : json) : string :=
  match v with
  | JNull => "None"
  | JBool true => "True"
  | JBool false => "False"
  | JInt z => str_of_Z z
  | JFloat x => Float.repr x
  | JStr s => repr_str s
  | JList l => ("[" ++ join ", " (map repr l) ++ "]")%string
  | JDict d =>
      ("{" ++ join ", "
               (map (fun kv => (repr_str (fst kv) ++ ": " ++ repr (snd kv))%string) d)
          ++ "}")%string
  end.

(** [str(v)], which is also what an f-string prints for [{v}]. *)
Definition py_str (v : json) : string :=
  match v with
  | JStr s => s
  | _ => repr v
  end.

(** ** [json.dumps] *)

Definition u00 (c : ascii) : string := ("\u00" ++ hex2 (code c))%string.

(** The escape of one character inside a JSON string literal. *)
Definition escape_char (ensure_ascii : bool) (c : ascii) : string :=
  if Ascii.eqb c dquote then String "\" (String dquote EmptyString)
  else if Ascii.eqb c "\" then "\\"
  else if (code c =? 10)%N then "\n"
  else if (code c =? 13)%N then "\r"
  else if (code c =? 9)%N then "\t"
  else if (code c =? 8)%N then "\b"
  else if (code c =? 12)%N then "\f"
  else if (code c <? 32)%N then u00 c
  else if ensure_ascii && (126 <? code c)%N then u00 c
  else String c EmptyString.

Fixpoint escape (ensure_ascii : bool) (s : string) : string :=
  match s with
  | EmptyString => EmptyString
  | String c r =>
      (escape_char ensure_ascii c ++ escape ensure_ascii r)%string
  end.

Definition dumps_str (ensure_ascii : bool) (s : string) : string :=
  String dquote (escape ensure_ascii s ++ String dquote EmptyString).

(** A float in a JSON text: [float.__repr__], and the three names of
    JavaScript for the numbers that are not finite. *)
Definition dumps_float (x : Float.float) : string :=
  match x with
  | S754_nan => "NaN"
  | S754_infinity false => "Infinity"
  | S754_infinity true => "-Infinity"
  | _ => Float.repr x
  end.

(** [json.dumps(v, ensure_ascii=...)] with the default separators. *)
Fixpoint dumps (ensure_ascii : bool) (v : json) : string :=
  match v with
  | JNull => "null"
  | JBool true => "true"
  | JBool false => "false"
  | JInt z => str_of_Z z
  | JFloat x => dumps_float x
  | JStr s => dumps_str ensure_ascii s
  | JList l =>
      ("[" ++ join ", " (map (dumps ensure_ascii) l) ++ "]")%string
  | JDict d =>
      ("{" ++ join ", "
                (map (fun kv => (dumps_str ensure_ascii (fst kv) ++ ": "
                                 ++ dumps ensure_ascii (snd kv))%string) d)
           ++ "}")%string
  end.

(** ** [json.loads] *)

Definition is_json_ws (c : ascii) : bool :=
  (code c =? 32)%N || (code c =? 9)%N || (code c =? 10)%N
  || (code c =? 13)%N.

Fixpoint skip_ws (s : string) : string :=
  match s with
  | EmptyString => EmptyString
  | String c r => if is_json_ws c then skip_ws r else s
  end.

Definition hex_value (c : ascii) : option N :=
  if isdigit c then Some (code c - 48)%N
  else if in_range 97 102 c then Some (code c - 87)%N
  else if in_range 65 70 c then Some (code c - 55)%N
  else None.

Definition hex4 (a b c d : ascii) : option N :=
  match hex_value a, hex_value b, hex_value c, hex_value d with
  | Some x, Some y, Some z, Some w =>
      Some (((x * 16 + y) * 16 + z) * 16 + w)%N
  | _, _, _, _ => None
  end.

Definition unescape (e : ascii) : option ascii :=
  if Ascii.eqb e dquote then Some dquote
  else if Ascii.eqb e "\" then Some "\"%char
  else if Ascii.eqb e "/" then Some "/"%char
  else if Ascii.eqb e "b" then Some (ascii_of_N 8)
  else if Ascii.eqb e "f" then Some (ascii_of_N 12)
  else if Ascii.eqb e "n" then Some (ascii_of_N 10)
  else if Ascii.eqb e "r" then Some (ascii_of_N 13)
  else if Ascii.eqb e "t" then Some (ascii_of_N 9)
  else None.

Definition cons_char (c : ascii) (p : option (string * string))
  : option (string * string) :=
  match p with
  | Some (x, rest) => Some (String c x, rest)
  | None => None
  end.

(** The body of a string literal, after its opening quote: the decoded
    string and what follows the closing quote.  Control characters are
    refused, as [json.loads] does by default.  An escape for a code point
    from 256 on has no value in a [string]: the texts without one are the
    [narrow] ones. *)
Fixpoint parse_str (s : string) : option (string * string) :=
  match s with
  | EmptyString => None
  | String c r =>
      if Ascii.eqb c dquote then Some (EmptyString, r)
      else if Ascii.eqb c "\" then
        match r with
        | EmptyString => None
        | String e r1 =>
            match unescape e with
            | Some ch => cons_char ch (parse_str r1)
            | None =>
                if Ascii.eqb e "u" then
                  match r1 with
                  | String h1 (String h2 (String h3 (String h4 r2))) =>
                      match hex4 h1 h2 h3 h4 with
                      | Some n =>
                          if (n <? 256)%N
                          then cons_char (ascii_of_N n) (parse_str r2)
                          else None
                      | None => None
                      end
                  | _ => None
                  end
                else None
            end
        end
      else if (code c <? 32)%N then None
      else cons_char c (parse_str r)
  end.

(** The longest prefix of decimal digits. *)
Fixpoint read_digits (s : string) : Decimal.uint * string :=
  match s with
  | EmptyString => (Decimal.Nil, EmptyString)
  | String c r =>
      if isdigit c then
        let (d, rest) := read_digits r in
        match uint_of_char c (Some d) with
        | Some d' => (d', rest)
        | None => (Decimal.Nil, s)
        end
      else (Decimal.Nil, s)
  end.

Definition uint_eqb (a b : Decimal.uint) : bool :=
  if Decimal.uint_eq_dec a b then true else false.

(** The integer part of a number, [0|[1-9]\d*]: a digit sequence that
    starts with a zero gives the zero alone. *)
Definition scan_int (s : string) : option (Decimal.uint * string) :=
  let (d, rest) := read_digits s in
  match d with
  | Decimal.Nil => None
  | _ =>
      if uint_eqb (Decimal.unorm d) d then Some (d, rest)
      else Some (Decimal.D0 Decimal.Nil, drop 1 s)
  end.

(** The fraction, [(\.\d+)?]. *)
Definition scan_frac (s : string) : option Decimal.uint * string :=
  match s with
  | String c r =>
      if Ascii.eqb c "." then
        match read_digits r with
        | (Decimal.Nil, _) => (None, s)
        | (d, rest) => (Some d, rest)
        end
      else (None, s)
  | EmptyString => (None, s)
  end.

(** [[-+]?] *)
Definition scan_sign (s : string) : bool * string :=
  match s with
  | String c r =>
      if Ascii.eqb c "-" then (true, r)
      else if Ascii.eqb c "+" then (false, r)
      else (false, s)
  | EmptyString => (false, s)
  end.

(** The exponent, [([eE][-+]?\d+)?]. *)
Definition scan_exp (s : string) : option (bool * Decimal.uint) * string :=
  match s with
  | String c r =>
      if Ascii.eqb c "e" || Ascii.eqb c "E" then
        let (negative, r1) := scan_sign r in
        match read_digits r1 with
        | (Decimal.Nil, _) => (None, s)
        | (d, rest) => (Some (negative, d), rest)
        end
      else (None, s)
  | EmptyString => (None, s)
  end.

Definition signed (negative : bool) (n : N) : Z :=
  if negative then (- Z.of_N n)%Z else Z.of_N n.

(** [float(integer + frac + exp)] *)
Definition float_of (negative : bool) (i : Decimal.uint)
  (f : option Decimal.uint) (x : option (bool * Decimal.uint))
  : Float.float :=
  let fd := match f with Some d => d | None => Decimal.Nil end in
  let e :=
    match x with
    | Some (n, d) => signed n (N.of_uint d)
    | None => 0%Z
    end in
  Float.of_decimal negative (N.of_uint (Decimal.app i fd))
    (e - Z.of_nat (Decimal.nb_digits fd)).

(** A number: an optional minus sign, the integer part, an optional
    fraction, an optional exponent.  It is an [int] when it has neither
    fraction nor exponent, a [float] otherwise. *)
Definition parse_number (s : string) : option (json * string) :=
  let (negative, s1) :=
    match s with
    | String c r => if Ascii.eqb c "-" then (true, r) else (false, s)
    | EmptyString => (false, s)
    end in
  match scan_int s1 with
  | None => None
  | Some (i, s2) =>
      let (f, s3) := scan_frac s2 in
      let (x, s4) := scan_exp s3 in
      Some (match f, x with
            | None, None => JInt (signed negative (N.of_uint i))
            | _, _ => JFloat (float_of negative i f x)
            end,
            s4)
  end.

(** [NaN], [Infinity] and [-Infinity]. *)
Definition parse_constant (s : string) : option (json * string) :=
  if startswith "NaN" s then Some (JFloat Float.nan, drop 3 s)
  else if startswith "Infinity" s
       then Some (JFloat (Float.infinity false), drop 8 s)
  else if startswith "-Infinity" s
       then Some (JFloat (Float.infinity true), drop 9 s)
  else None.

(** What the scanner tries once the value is not a string, an array, an
    object or one of [null], [true], [false]. *)
Definition parse_literal (s : string) : option (json * string) :=
  match parse_number s with
  | Some r => Some r
  | None => parse_constant s
  end.

Definition first_is (c : ascii) (s : string) : bool :=
  match s with
  | String c' _ => Ascii.eqb c c'
  | EmptyString => false
  end.

(** The recursive descent of the decoder.  [parse_value] reads one value,
    [parse_elems] the elements of a non-empty array up to its closing
    bracket, [parse_members] the members of a non-empty object up to its
    closing brace. *)
Fixpoint parse_value (fuel : nat) (s : string) : option (json * string) :=
  match fuel with
  | O => None
  | S f =>
      if first_is dquote s then
        match parse_str (drop 1 s) with
        | Some (x, rest) => Some (JStr x, rest)
        | None => None
        end
      else if first_is "{" s then
        let s1 := skip_ws (drop 1 s) in
        if first_is "}" s1 then Some (JDict [], drop 1 s1)
        else
          match parse_members f s1 with
          | Some (l, rest) => Some (JDict (dict_of_pairs l), rest)
          | None => None
          end
      else if first_is "[" s then
        let s1 := skip_ws (drop 1 s) in
        if first_is "]" s1 then Some (JList [], drop 1 s1)
        else
          match parse_elems f s1 with
          | Some (l, rest) => Some (JList l, rest)
          | None => None
          end
      else if startswith "null" s then Some (JNull, drop 4 s)
      else if startswith "true" s then Some (JBool true, drop 4 s)
      else if startswith "false" s then Some (JBool false, drop 5 s)
      else parse_literal s
  end

with parse_elems (fuel : nat) (s : string) : option (list json * string) :=
  match fuel with
  | O => None
  | S f =>
      match parse_value f s with
      | Some (v, r) =>
          let r1 := skip_ws r in
          if first_is "," r1 then
            match parse_elems f (skip_ws (drop 1 r1)) with
            | Some (l, rest) => Some (v :: l, rest)
            | None => None
            end
          else if first_is "]" r1 then Some ([v], drop 1 r1)
          else None
      | None => None
      end
  end

with parse_members (fuel : nat) (s : string)
  : option (list (string * json) * string) :=
  match fuel with
  | O => None
  | S f =>
      if first_is dquote s then
        match parse_str (drop 1 s) with
        | Some (k, r) =>
            let r1 := skip_ws r in
            if first_is ":" r1 then
              match parse_value f (skip_ws (drop 1 r1)) with
              | Some (v, r2) =>
                  let r3 := skip_ws r2 in
                  if first_is "," r3 then
                    match parse_members f (skip_ws (drop 1 r3)) with
                    | Some (l, rest) => Some ((k, v) :: l, rest)
                    | None => None
                    end
                  else if first_is "}" r3 then Some ([(k, v)], drop 1 r3)
                  else None
              | None => None
              end
            else None
        | None => None
        end
      else None
  end.

(** [json.loads(s)]: one value, white space around it, nothing else. *)
Definition loads (s : string) : result json :=
  match parse_value (String.length s) (skip_ws s) with
  | Some (v, rest) =>
      if is_empty (skip_ws rest) then Ok v else Raise JSONDecodeError
  | None => Raise JSONDecodeError
  end.

(** No escape of the text stands for a code point from 256 on: every
    [\u] is followed by two zeros.  On such a text [loads] is
    [json.loads]. *)
Fixpoint narrow (s : string) : bool :=
  match s with
  | EmptyString => true
  | String c r =>
      (if Ascii.eqb c "\" && first_is "u" r
       then startswith "00" (drop 1 r)
       else true)
      && narrow r
  end.

(** The float is the one its text stands for, as is every number of the
    binary64 format. *)
Definition float_reads_back (x : Float.float) : bool :=
  match parse_literal (dumps_float x) with
  | Some (JFloat y, EmptyString) => Float.eqb x y
  | _ => false
  end.

(** A value as Python can hold it: the keys of every dictionary are
    distinct, and every float is a number of the format. *)
Fixpoint distinct (l : list string) : bool :=
  match l with
  | [] => true
  | k :: r => negb (existsb (String.eqb k) r) && distinct r
  end.

Fixpoint wf (v : json) : bool :=
  match v with
  | JFloat x => float_reads_back x
  | JList l => forallb wf l
  | JDict d => distinct (map fst d) && forallb (fun kv => wf (snd kv)) d
  | _ => true
  end.

End Json.

Export Json.

(* ================================================================== *)
(** * [hashlib.sha1] *)

Module Sha1.

Local Open Scope Z_scope.

Definition mask32 : Z := 0xFFFFFFFF.

(** A 32-bit word is a [Z] below [2^32]; addition wraps around. *)
Definition add32 (x y : Z) : Z := Z.land (x + y) mask32.

Definition rotl (n : Z) (x : Z) : Z :=
  Z.land (Z.lor (Z.shiftl x n) (Z.shiftr x (32 - n))) mask32.

Definition not32 (x : Z) : Z := Z.lxor x mask32.

Definition byte_val (b : Byte.byte) : Z := Z.of_N (Byte.to_N b).

Definition byte_of_Z (z : Z) : Byte.byte :=
  match Byte.of_N (Z.to_N (Z.land z 0xFF)) with
  | Some b => b
  | None => Byte.x00
  end.

(** The big-endian bytes of the low [8 * n] bits of [z]. *)
Fixpoint be_bytes (n : nat) (z : Z) : list Byte.byte :=
  match n with
  | O => []
  | S k => byte_of_Z (Z.shiftr z (8 * Z.of_nat k)) :: be_bytes k z
  end.

(** The message followed by [0x80], zeros up to 56 modulo 64, and the
    length in bits on eight bytes. *)
Definition pad (msg : list Byte.byte) : list Byte.byte :=
  let len := length msg in
  let zeros := ((64 - (len + 9) mod 64) mod 64)%nat in
  (msg ++ Byte.x80 :: repeat Byte.x00 zeros
       ++ be_bytes 8 (8 * Z.of_nat len))%list.

Fixpoint words_of (fuel : nat) (bs : list Byte.byte) : list Z :=
  match fuel, bs with
  | S f, a :: b :: c :: d :: r =>
      (Z.shiftl (byte_val a) 24 + Z.shiftl (byte_val b) 16
       + Z.shiftl (byte_val c) 8 + byte_val d) :: words_of f r
  | _, _ => []
  end.

(** The message schedule, latest word first: from the sixteen words of a
    block to all eighty. *)
Fixpoint schedule (n : nat) (rev_w : list Z) : list Z :=
  match n with
  | O => rev_w
  | S k =>
      let x := Z.lxor (Z.lxor (nth 2 rev_w 0) (nth 7 rev_w 0))
                      (Z.lxor (nth 13 rev_w 0) (nth 15 rev_w 0)) in
      schedule k (rotl 1 x :: rev_w)
  end.

Definition f_t (t : nat) (b c d : Z) : Z :=
  if (t <? 20)%nat then Z.lor (Z.land b c) (Z.land (not32 b) d)
  else if (t <? 40)%nat then Z.lxor (Z.lxor b c) d
  else if (t <? 60)%nat
       then Z.lor (Z.lor (Z.land b c) (Z.land b d)) (Z.land c d)
  else Z.lxor (Z.lxor b c) d.

Definition k_t (t : nat) : Z :=
  if (t <? 20)%nat then 0x5A827999
  else if (t <? 40)%nat then 0x6ED9EBA1
  else if (t <? 60)%nat then 0x8F1BBCDC
  else 0xCA62C1D6.

Record state : Set := State { ha : Z; hb : Z; hc : Z; hd : Z; he : Z }.

Definition round (st : state) (tw : nat * Z) : state :=
  let (t, w) := tw in
  let temp :=
    add32 (add32 (add32 (add32 (rotl 5 (ha st))
                               (f_t t (hb st) (hc st) (hd st)))
                        (he st))
                 (k_t t))
          w in
  State temp (ha st) (rotl 30 (hb st)) (hc st) (hd st).

Definition compress (st : state) (block : list Byte.byte) : state :=
  let w := rev (schedule 64 (rev (words_of 16 block))) in
  let r := fold_left round (combine (seq 0 80) w) st in
  State (add32 (ha st) (ha r)) (add32 (hb st) (hb r))
        (add32 (hc st) (hc r)) (add32 (hd st) (hd r))
        (add32 (he st) (he r)).

Fixpoint blocks (fuel : nat) (bs : list Byte.byte) : list (list Byte.byte) :=
  match fuel, bs with
  | S f, _ :: _ => firstn 64 bs :: blocks f (skipn 64 bs)
  | _, _ => []
  end.

Definition init : state :=
  State 0x67452301 0xEFCDAB89 0x98BADCFE 0x10325476 0xC3D2E1F0.

Definition digest (msg : list Byte.byte) : list Byte.byte :=
  let p := pad msg in
  let st := fold_left compress (blocks (length p) p) init in
  (be_bytes 4 (ha st) ++ be_bytes 4 (hb st) ++ be_bytes 4 (hc st)
    ++ be_bytes 4 (hd st) ++ be_bytes 4 (he st))%list.

Definition hex_of_bytes (bs : list Byte.byte) : string :=
  String.concat EmptyString (map (fun b => hex2 (Byte.to_N b)) bs).

(** [hashlib.sha1(msg).hexdigest()] *)
Definition hexdigest (msg : list Byte.byte) : string :=
  hex_of_bytes (digest msg).

(** [s.encode("utf-8")] for code points below 256. *)
Definition utf8_char (c : ascii) : list Byte.byte :=
  let n := Z.of_N (code c) in
  if n <? 128 then [byte_of_Z n]
  else [byte_of_Z (Z.lor 0xC0 (Z.shiftr n 6));
        byte_of_Z (Z.lor 0x80 (Z.land n 0x3F))].

Fixpoint utf8 (s : string) : list Byte.byte :=
  match s with
  | EmptyString => []
  | String c r => (utf8_char c ++ utf8 r)%list
  end.

End Sha1.

(* ================================================================== *)
(** * The patterns of [re] the programs use *)

Module Re.

(** The pieces the two patterns of [read_epub] are made of. *)
Inductive item : Type :=
| One (p : ascii -> bool)     (** one character of a class *)
| Plus (p : ascii -> bool)    (** [c+], greedy *)
| Star (p : ascii -> bool)    (** [c*], greedy *)
| Opt (p : ascii -> bool)     (** [c?], greedy *)
| WordBoundary                (** [\b] *)
| GroupOpen                   (** [(] of group 1 *)
| GroupClose.                 (** [)] of group 1 *)

Definition pattern := list item.

(** Group 1: not entered yet, being read, or read. *)
Inductive capture : Type :=
| NotYet
| Reading (acc : string)
| Captured (s : string).

Definition push (c : ascii) (cap : capture) : capture :=
  match cap with
  | Reading acc => Reading (acc ++ String c EmptyString)
  | _ => cap
  end.

Definition close (cap : capture) : capture :=
  match cap with
  | Reading acc => Captured acc
  | _ => cap
  end.

(** [\w] *)
Definition is_word (c : ascii) : bool := isalnum c || Ascii.eqb c "_".

Definition word_before (prev : option ascii) : bool :=
  match prev with Some c => is_word c | None => false end.

Definition word_after (s : string) : bool :=
  match s with String c _ => is_word c | EmptyString => false end.

(** What is left to match after a piece: the character before, the rest of
    the string, group 1 so far. *)
Definition continuation : Type :=
  option ascii -> string -> capture -> option capture.

(** [c*] followed by [k]: the longest run first, one character less on
    failure. *)
Fixpoint star (p : ascii -> bool) (k : continuation) (prev : option ascii)
  (s : string) (cap : capture) : option capture :=
  match s with
  | String c r =>
      if p c then
        match star p k (Some c) r (push c cap) with
        | Some res => Some res
        | None => k prev s cap
        end
      else k prev s cap
  | EmptyString => k prev s cap
  end.

(** A backtracking match of [pat] at the head of [s]; [prev] is the
    character before it. *)
Fixpoint match_here (pat : pattern) : continuation :=
  match pat with
  | [] => fun _ _ cap => Some cap
  | it :: rest =>
      let k := match_here rest in
      match it with
      | One p => fun prev s cap =>
          match s with
          | String c r => if p c then k (Some c) r (push c cap) else None
          | EmptyString => None
          end
      | Plus p => fun prev s cap =>
          match s with
          | String c r =>
              if p c then star p k (Some c) r (push c cap) else None
          | EmptyString => None
          end
      | Star p => star p k
      | Opt p => fun prev s cap =>
          match s with
          | String c r =>
              if p c then
                match k (Some c) r (push c cap) with
                | Some res => Some res
                | None => k prev s cap
                end
              else k prev s cap
          | EmptyString => k prev s cap
          end
      | WordBoundary => fun prev s cap =>
          if xorb (word_before prev) (word_after s) then k prev s cap
          else None
      | GroupOpen => fun prev s _ => k prev s (Reading EmptyString)
      | GroupClose => fun prev s cap => k prev s (close cap)
      end
  end.

Fixpoint search_from (pat : pattern) (prev : option ascii) (s : string)
  : option capture :=
  match match_here pat prev s NotYet with
  | Some cap => Some cap
  | None =>
      match s with
      | String c r => search_from pat (Some c) r
      | EmptyString => None
      end
  end.

(** [m = re.search(pat, s)] followed by [m.group(1)]: [None] when there
    is no match. *)
Definition search_group1 (pat : pattern) (s : string) : option string :=
  match search_from pat None s with
  | Some (Captured g) => Some g
  | Some _ => Some EmptyString
  | None => None
  end.

Definition chr (c : ascii) : ascii -> bool := Ascii.eqb c.

Definition either (a b : ascii) : ascii -> bool :=
  fun c => Ascii.eqb a c || Ascii.eqb b c.

Fixpoint lit (s : string) : pattern :=
  match s with
  | EmptyString => []
  | String c r => One (chr c) :: lit r
  end.

Definition newline : ascii := ascii_of_N 10.

(** ["\n"] *)
Definition newline_str : string := String newline EmptyString.

(** [[^\n,]] *)
Definition not_newline_or_comma (c : ascii) : bool :=
  negb (Ascii.eqb c newline) && negb (Ascii.eqb c ",").

(** [[^\n]] *)
Definition not_newline (c : ascii) : bool := negb (Ascii.eqb c newline).

(** [r"\b[Bb]y\s+([^\n,]+)"] *)
Definition by_author : pattern :=
  [WordBoundary; One (either "B" "b"); One (chr "y"); Plus isspace;
   GroupOpen; Plus not_newline_or_comma; GroupClose].

(** [r"[Pp]ublisher:?\s*([^\n]+)"] *)
Definition publisher_line : pattern :=
  One (either "P" "p") :: lit "ublisher"
    ++ [Opt (chr ":"); Star isspace; GroupOpen; Plus not_newline;
        GroupClose].

End Re.

(* ================================================================== *)
(** * The document tree [BeautifulSoup] hands to the extractor *)

Module Bs4.

#[local] Unset Elimination Schemes.
Inductive node : Type :=
| Text (s : string)
| Elem (name : string) (children : list node).
#[local] Set Elimination Schemes.

(** A tag: its name and its children. *)
Definition tag : Type := string * list node.

(** The elements below a list of nodes, in document order. *)
Fixpoint elements_of (n : node) : list tag :=
  match n with
  | Text _ => []
  | Elem name children =>
      (name, children) :: flat_map elements_of children
  end.

Definition descendants (nodes : list node) : list tag :=
  flat_map elements_of nodes.

Definition name_in (names : list string) (t : tag) : bool :=
  existsb (String.eqb (fst t)) names.

(** [soup.find_all(names)] *)
Definition find_all (names : list string) (nodes : list node) : list tag :=
  filter (name_in names) (descendants nodes).

(** [soup.find(names)]: the first element, in document order, whose name
    is one of [names]. *)
Definition find (names : list string) (nodes : list node) : option tag :=
  match find_all names nodes with
  | t :: _ => Some t
  | [] => None
  end.

(** The text nodes below a list of nodes, in document order. *)
Fixpoint strings_of (n : node) : list string :=
  match n with
  | Text s => [s]
  | Elem _ children => flat_map strings_of children
  end.

(** [tag.get_text(sep, strip=True)]: every text node stripped, the empty
    ones dropped, joined with [sep]. *)
Definition get_text (sep : string) (nodes : list node) : string :=
  join sep
    (filter (fun s => negb (is_empty s))
            (map strip (flat_map strings_of nodes))).

End Bs4.

(* ================================================================== *)
(** * [ingest/epub_to_json.py] *)

Module EpubToJson.

Import Bs4.

(** ** The parsed container, as [ebooklib] exposes it *)

Definition ITEM_DOCUMENT : N := 9.

(** One item of the container: [get_type()], [get_name()], and the tree
    [BeautifulSoup(item.get_content(), "lxml")] builds.  For a document
    read from a file, [get_content()] is not the file: [ebooklib] writes
    a head of its own, without the [title] of the file, and the children
    of the body of the file after it. *)
Record item : Type := Item {
  get_type : N;
  get_name : string;
  soup : list node
}.

(** A metadata entry is a tuple, in practice [(value, attributes)]; its
    components are held as JSON values ([JNull] for [None]). *)
Definition entry : Type := list json.

Record book : Type := Book {
  uid : option string;
  metadata : list (string * list (string * list entry));
  get_items : list item
}.

Fixpoint assoc {A} (k : string) (l : list (string * A)) : option A :=
  match l with
  | [] => None
  | (k', v) :: r => if String.eqb k k' then Some v else assoc k r
  end.

(** [book.get_metadata(ns, key)]: a [KeyError] for an unknown namespace,
    the empty list for an unknown key. *)
Definition get_metadata (b : book) (ns key : string) : result (list entry) :=
  match assoc ns (metadata b) with
  | None => Raise KeyError
  | Some m => Ok (match assoc key m with Some l => l | None => [] end)
  end.

(** ** [extract_texts_from_item] *)

Definition nonempty (s : string) : bool := negb (is_empty s).

Definition extract_texts_from_item (it : item) : string * list string :=
  let chapter : option string :=
    match find ["h1"; "h2"; "h3"; "title"] (soup it) with
    | Some h => Some (get_text " " (snd h))
    | None => None
    end in
  let texts :=
    filter nonempty
      (map (fun t : tag => get_text Re.newline_str (snd t))
           (find_all ["p"; "li"; "pre"] (soup it))) in
  let texts :=
    match texts with
    | [] =>
        let body :=
          match find ["body"] (soup it) with
          | Some b => get_text Re.newline_str (snd b)
          | None => get_text Re.newline_str (soup it)
          end in
        texts ++ filter nonempty
                   (map strip (split (Re.newline_str ++ Re.newline_str) body))
    | _ => texts
    end in
  (match chapter with
   | Some c => if nonempty c then c else get_name it
   | None => get_name it
   end,
   texts).

Definition essential_meta : list (string * string * string) :=
  [("DC", "title", "title");
   ("DC", "creator", "authors");
   ("DC", "publisher", "publisher");
   ("DC", "language", "language");
   ("DC", "description", "description");
   ("DC", "subject", "genres")].

(** ** [_meta_values] *)

Definition _meta_values (b : book) (ns key : string) : list string :=
  let pairs := try_except (get_metadata b ns key) [] in
  flat_map (fun p : entry =>
              match p with
              | JStr s :: _ => [strip s]
              | _ => []
              end) pairs.

(** ** [_pick_stable_id] *)

(** The file read in chunks of [size] bytes, each fed to the hash object;
    the hash object is the bytes it was fed so far. *)
Fixpoint read_and_update (fuel size : nat) (file h : list Byte.byte)
  : list Byte.byte :=
  match fuel with
  | O => h
  | S f =>
      match firstn size file with
      | [] => h
      | chunk => read_and_update f size (skipn size file) (h ++ chunk)
      end
  end.

Definition chunk_size : nat := 1024 * 1024.

(** [attrs.get("id") == uid_attr] *)
Definition id_is (attrs : dict) (uid_attr : string) : bool :=
  match dict_get "id" attrs with
  | Some (JStr s) => String.eqb s uid_attr
  | _ => false
  end.

(** The loop over the identifier entries: [inl v] when it returns [v],
    [inr first_val] when it runs to its end. *)
Fixpoint scan_identifiers (uid_attr : option string) (pairs : list entry)
  (first_val : option string) : string + option string :=
  match pairs with
  | [] => inr first_val
  | p :: rest =>
      match p with
      | [] => scan_identifiers uid_attr rest first_val
      | p0 :: tl =>
          let val := strip (py_str p0) in
          let attrs : dict :=
            match tl with
            | JDict d :: _ => d
            | _ => []
            end in
          let first_val :=
            match first_val with
            | None => if nonempty val then Some val else None
            | Some _ => first_val
            end in
          match uid_attr with
          | Some u =>
              if nonempty u && id_is attrs u && nonempty val then inl val
              else scan_identifiers uid_attr rest first_val
          | None => scan_identifiers uid_attr rest first_val
          end
      end
  end.

Definition _pick_stable_id (b : book) (file : list Byte.byte) : string :=
  let uid_attr := uid b in
  let pairs := try_except (get_metadata b "DC" "identifier") [] in
  match scan_identifiers uid_attr pairs None with
  | inl val => val
  | inr (Some first_val) => first_val
  | inr None =>
      Sha1.hexdigest (read_and_update (S (length file)) chunk_size file [])
  end.

(** ** [read_epub] *)

(** [d.get(k)] *)
Definition get_or_none (k : string) (d : dict) : json :=
  match dict_get k d with Some v => v | None => JNull end.

(** [d.get(k, [])] read as a list. *)
Definition get_list (k : string) (d : dict) : list json :=
  match dict_get k d with Some (JList l) => l | _ => [] end.

(** The strings of a list of strings. *)
Definition strs (l : list json) : list string :=
  flat_map (fun v => match v with JStr s => [s] | _ => [] end) l.

(** [ch.get("paragraphs", [])] of one chapter. *)
Definition paragraphs_of (ch : json) : list string :=
  match ch with
  | JDict d => strs (get_list "paragraphs" d)
  | _ => []
  end.

(** [data["chapters"][0].get("paragraphs", [])] *)
Definition first_paragraphs (data : dict) : list string :=
  match get_list "chapters" data with
  | ch :: _ => paragraphs_of ch
  | [] => []
  end.

(** [data["chapters"].append(ch)] *)
Definition append_chapter (ch : json) (data : dict) : dict :=
  dict_set "chapters" (JList (get_list "chapters" data ++ [ch])) data.

(** One turn of the loop over [essential_meta]. *)
Definition set_meta (b : book) (data : dict) (m : string * string * string)
  : dict :=
  let '(ns, k, field) := m in
  let vals := _meta_values b ns k in
  if String.eqb field "authors" then
    dict_set field (JList (map JStr vals)) data
  else if String.eqb field "genres" then
    dict_set field
      (JStr (match vals with [] => EmptyString | _ => join ", " vals end))
      data
  else
    match vals with
    | v0 :: _ => dict_set field (JStr v0) data
    | [] => data
    end.

(** One turn of the loop over the items of the container. *)
Definition add_item (data : dict) (it : item) : dict :=
  if (get_type it =? ITEM_DOCUMENT)%N then
    let (chapter, texts) := extract_texts_from_item it in
    match texts with
    | [] => data
    | _ =>
        append_chapter
          (JDict [("chapter", JStr chapter);
                  ("paragraphs", JList (map JStr texts))])
          data
    end
  else data.

Definition falsy (k : string) (data : dict) : bool :=
  negb (truthy (get_or_none k data)).

(** [data["author"]] from the list under [data["authors"]]. *)
Definition join_authors (data : dict) : dict :=
  match dict_get "authors" data with
  | Some (JList l) =>
      dict_set "author" (JStr (join ", " (filter nonempty (strs l)))) data
  | _ => dict_setdefault "author" (JStr EmptyString) data
  end.

(** [source_uid] and the short [book_id] derived from it. *)
Definition set_identity (b : book) (file : list Byte.byte) (data : dict)
  : dict :=
  let source_uid := _pick_stable_id b file in
  let data := dict_set "source_uid" (JStr source_uid) data in
  dict_set "book_id"
    (JStr (take 16 (Sha1.hexdigest (Sha1.utf8 source_uid)))) data.

Definition set_defaults (data : dict) : dict :=
  let data := dict_setdefault "publisher" (JStr EmptyString) data in
  let data := dict_setdefault "genres" (JStr EmptyString) data in
  dict_setdefault "linkToBook" (JStr EmptyString) data.

Definition set_title (stem : string) (b : book) (data : dict) : dict :=
  if falsy "title" data then
    match _meta_values b "DC" "title" with
    | t :: _ => dict_set "title" (JStr t) data
    | [] => dict_set "title" (JStr stem) data
    end
  else data.

Definition drop_authors (data : dict) : dict :=
  if dict_mem "authors" data then dict_del "authors" data else data.

Definition two_newlines : string :=
  (Re.newline_str ++ Re.newline_str)%string.

(** The description, from the first paragraphs of the first chapters. *)
Definition set_description (data : dict) : dict :=
  if falsy "description" data then
    let paras :=
      flat_map (fun ch => firstn 3 (paragraphs_of ch))
               (firstn 3 (get_list "chapters" data)) in
    let joined := strip (join two_newlines paras) in
    if nonempty joined
    then dict_set "description" (JStr (take 2000 joined)) data
    else data
  else data.

(** The author, from a line of the first chapter. *)
Definition author_from_text (data : dict) : dict :=
  if falsy "author" data && truthy (get_or_none "chapters" data) then
    let head := join Re.newline_str (firstn 10 (first_paragraphs data)) in
    match Re.search_group1 Re.by_author head with
    | Some g => dict_set "author" (JStr (strip g)) data
    | None => data
    end
  else data.

(** The publisher, from a line of the first chapter. *)
Definition publisher_from_text (data : dict) : dict :=
  if falsy "publisher" data && truthy (get_or_none "chapters" data) then
    let head := join Re.newline_str (firstn 20 (first_paragraphs data)) in
    match Re.search_group1 Re.publisher_line head with
    | Some g => dict_set "publisher" (JStr (strip g)) data
    | None => data
    end
  else data.

(** The author, from the name of the file. *)
Definition author_from_stem (stem : string) (data : dict) : dict :=
  if falsy "author" data then
    let author_slug :=
      strip (replace_char "-" " " (hd EmptyString (split "_" stem))) in
    if nonempty author_slug && (length (split_ws author_slug) <=? 4)%nat
    then dict_set "author" (JStr (title author_slug)) data
    else data
  else data.

(** The publisher, from a mark in the text. *)
Definition publisher_from_mark (data : dict) : dict :=
  if falsy "publisher" data && truthy (get_or_none "chapters" data) then
    let all_text :=
      join Re.newline_str
        (flat_map (fun ch => firstn 50 (paragraphs_of ch))
                  (firstn 5 (get_list "chapters" data))) in
    if contains "Standard Ebooks" all_text
    then dict_set "publisher" (JStr "Standard Ebooks") data
    else data
  else data.

(** [read_epub(epub_path)], for a container already opened: [stem] is
    [epub_path.stem], [file] the bytes of the file, [b] the book
    [epub.read_epub] returns.  Each step is one statement of the source,
    in its order. *)
Definition read_epub (stem : string) (file : list Byte.byte) (b : book)
  : dict :=
  let data : dict := [("book_id", JStr stem); ("chapters", JList [])] in
  let data := fold_left (set_meta b) essential_meta data in
  let data := join_authors data in
  let data := set_identity b file data in
  let data := set_defaults data in
  let data := set_title stem b data in
  let data := drop_authors data in
  let data := fold_left add_item (get_items b) data in
  let data := set_description data in
  let data := author_from_text data in
  let data := publisher_from_text data in
  let data := author_from_stem stem data in
  let data := publisher_from_mark data in
  data.

End EpubToJson.

(* ================================================================== *)
(** * [ingest/convert_json_to_ndjson.py] *)

Module ConvertJson.

(** The action line of an index request, with or without an [_id]. *)
Definition index_action (index : json) (id : option json) : json :=
  JDict [("index",
          JDict (("_index", index)
                   :: match id with
                      | Some i => [("_id", i)]
                      | None => []
                      end))].

(** The source document of one paragraph. *)
Definition chunk_doc (book_id chapter : json)
  (chapter_index paragraph_index seq : nat) (para : json) : json :=
  JDict [("book_id", book_id);
         ("chunk_id", JStr (py_str book_id ++ "-" ++ format_06d seq));
         ("chapter", chapter);
         ("chapter_index", JInt (Z.of_nat chapter_index));
         ("paragraph_index", JInt (Z.of_nat paragraph_index));
         ("text", para)].

(** The inner loop of [to_bulk_actions], over the paragraphs of one
    chapter: the counter and the lines after it. *)
Fixpoint paragraphs_loop (index_content : string) (book_id chapter : json)
  (chapter_index : nat) (paras : list json) (paragraph_index : nat)
  (seq : nat) (actions : list string) : nat * list string :=
  match paras with
  | [] => (seq, actions)
  | para :: rest =>
      let doc :=
        chunk_doc book_id chapter chapter_index paragraph_index seq para in
      paragraphs_loop index_content book_id chapter chapter_index rest
        (S paragraph_index) (S seq)
        (actions
           ++ [dumps true (index_action (JStr index_content) None);
               dumps false doc])
  end.

(** The outer loop, over the chapters. *)
Fixpoint chapters_loop (index_content : string) (book_id : json)
  (chapters : list json) (chapter_index : nat) (seq : nat)
  (actions : list string) : result (list string) :=
  match chapters with
  | [] => Ok actions
  | ch :: rest =>
      chapter <- py_get ch "chapter" JNull ;;
      paragraphs <- py_get ch "paragraphs" (JList []) ;;
      paras <- py_iter paragraphs ;;
      let (seq', actions') :=
        paragraphs_loop index_content book_id chapter chapter_index paras 0
          seq actions in
      chapters_loop index_content book_id rest (S chapter_index) seq'
        actions'
  end.

Definition book_doc_of (book_json : json) : result json :=
  book_id <- py_get book_json "book_id" JNull ;;
  source_uid <- py_get book_json "source_uid" (JStr EmptyString) ;;
  title <- py_get book_json "title" JNull ;;
  author <- py_get book_json "author" (JStr EmptyString) ;;
  publisher <- py_get book_json "publisher" (JStr EmptyString) ;;
  description <- py_get book_json "description" (JStr EmptyString) ;;
  genres <- py_get book_json "genres" (JStr EmptyString) ;;
  linkToBook <- py_get book_json "linkToBook" (JStr EmptyString) ;;
  language <- py_get book_json "language" JNull ;;
  author_or_none <- py_get book_json "author" JNull ;;
  Ok (JDict
        [("book_id", book_id);
         ("source_uid", source_uid);
         ("title", title);
         ("author", author);
         ("publisher", publisher);
         ("description", description);
         ("genres", genres);
         ("linkToBook", linkToBook);
         ("language", language);
         ("suggest",
          JDict [("input",
                  JList ((if truthy title then [title] else [])
                           ++ (if truthy author_or_none
                               then [author_or_none] else [])))])]).

Definition to_bulk_actions (book_json : json)
  (index_books index_content : string) : result (list string) :=
  let actions : list string := [] in
  book_doc <- book_doc_of book_json ;;
  doc_id <- py_getitem book_doc "book_id" ;;
  let actions :=
    actions ++ [dumps true (index_action (JStr index_books) (Some doc_id))] in
  let actions := actions ++ [dumps false book_doc] in
  let seq := 0 in
  chapters <- py_get book_json "chapters" (JList []) ;;
  chs <- py_iter chapters ;;
  book_id <- py_get book_json "book_id" JNull ;;
  chapters_loop index_content book_id chs 0 seq actions.

(** The two output streams and what was printed. *)
Inductive printed : Type :=
| PrintOK (name : string)
| PrintERROR (name : string) (e : exn).

Record streams : Type := Streams {
  books_lines : list string;
  content_lines : list string
}.

(** [for i in range(0, len(actions), 2): ...]: the lists grow in place,
    so what was appended before an exception stays. *)
Fixpoint route (index_books index_content : string) (actions : list string)
  (st : streams) : streams * option exn :=
  match actions with
  | [] => (st, None)
  | a :: rest =>
      match loads a with
      | Raise e => (st, Some e)
      | Ok meta =>
          match rest with
          | [] => (st, Some IndexError)
          | src :: rest' =>
              match (m <- py_getitem meta "index" ;; py_getitem m "_index")
              with
              | Raise e => (st, Some e)
              | Ok idx =>
                  if json_is_str index_books idx then
                    route index_books index_content rest'
                      (Streams (books_lines st ++ [a; src])
                               (content_lines st))
                  else
                    let meta_no_id :=
                      index_action (JStr index_content) None in
                    route index_books index_content rest'
                      (Streams (books_lines st)
                               (content_lines st
                                  ++ [dumps true meta_no_id; src]))
              end
          end
      end
  end.

(** [process_json_objects(json_iter)], threading the two lists and the
    printed lines. *)
Fixpoint process_from (index_books index_content : string)
  (json_iter : list (string * json)) (st : streams) (out : list printed)
  : streams * list printed :=
  match json_iter with
  | [] => (st, out)
  | (name, data) :: rest =>
      match to_bulk_actions data index_books index_content with
      | Raise e =>
          process_from index_books index_content rest st
            (out ++ [PrintERROR name e])
      | Ok actions =>
          match route index_books index_content actions st with
          | (st', None) =>
              process_from index_books index_content rest st'
                (out ++ [PrintOK name])
          | (st', Some e) =>
              process_from index_books index_content rest st'
                (out ++ [PrintERROR name e])
          end
      end
  end.

Definition process_json_objects (index_books index_content : string)
  (json_iter : list (string * json)) : streams * list printed :=
  process_from index_books index_content json_iter (Streams [] []) [].

End ConvertJson.

(* ================================================================== *)
(** * [scripts/escli.py]: the embedding-merge mode *)

Module Escli.

(** What the generator [_iter_ndjson_docs] does, seen from its consumer:
    it yields a pair and goes on, stops, or raises. *)
Inductive docs : Type :=
| Stop
| Yield (meta src : json) (next : docs)
| Throw (e : exn).

Fixpoint iter_lines (lines : list string) (expect_src : bool) (meta : json)
  : docs :=
  match lines with
  | [] => Stop
  | line :: rest =>
      let line := strip line in
      if is_empty line then iter_lines rest expect_src meta
      else
        match loads line with
        | Raise e => Throw e
        | Ok obj =>
            match py_contains "index" obj with
            | Raise e => Throw e
            | Ok true => iter_lines rest true obj
            | Ok false =>
                if negb expect_src then iter_lines rest expect_src meta
                else Yield meta obj (iter_lines rest false meta)
            end
        end
  end.

(** [_iter_ndjson_docs(path)], for the lines of the file at [path]. *)
Definition _iter_ndjson_docs (lines : list string) : docs :=
  iter_lines lines false JNull.

(** [d[k] = v] on a JSON value. *)
Definition py_setitem (d : json) (k : string) (v : json) : result json :=
  match d with
  | JDict l => Ok (JDict (dict_set k v l))
  | _ => Raise TypeError
  end.

Section Embed.

(** The embedding model, [text -> model.encode([text])[0].tolist()], and
    the search engine's verdict on a bulk request given the requests
    sent before it. *)
Variable encode : string -> json.
Variable accepts : list string -> string -> bool.

Variable source_field target_field : string.
Variable index_override : option string.

Definition encode_text (text : json) : result json :=
  match text with
  | JStr t => Ok (encode t)
  | _ => Raise TypeError
  end.

(** [index_override or meta["index"]["_index"]] *)
Definition index_of (meta : json) : result json :=
  match index_override with
  | Some o =>
      if negb (is_empty o) then Ok (JStr o)
      else m <- py_getitem meta "index" ;; py_getitem m "_index"
  | None => m <- py_getitem meta "index" ;; py_getitem m "_index"
  end.

(** The body of the loop up to the size test: the lines one pair adds
    to [to_update], or [None] where the body says [continue]. *)
Definition embed_pair (meta src : json) : result (option (list string)) :=
  idx <- index_of meta ;;
  m <- py_getitem meta "index" ;;
  has_id <- py_contains "_id" m ;;
  if negb has_id then
    text <- py_get src source_field (JStr EmptyString) ;;
    if negb (truthy text) then Ok None
    else
      vec <- encode_text text ;;
      src' <- py_setitem src target_field vec ;;
      Ok (Some [dumps true (JDict [("index", JDict [("_index", idx)])]);
                dumps false src'])
  else
    _id <- py_getitem m "_id" ;;
    text <- py_get src source_field (JStr EmptyString) ;;
    if negb (truthy text) then Ok None
    else
      vec <- encode_text text ;;
      Ok (Some [dumps true
                  (JDict [("update",
                           JDict [("_index", idx); ("_id", _id)])]);
                dumps true (JDict [("doc", JDict [(target_field, vec)])])])
  .

Record run : Type := Run {
  to_update : list string;
  total : nat;
  posted : list string;     (** the bodies sent to [_bulk], in order *)
  raised : option exn
}.

(** ["\n".join(to_update) + "\n"] *)
Definition body_of (lines : list string) : string :=
  (join Re.newline_str lines ++ Re.newline_str)%string.

(** [_bulk_post] followed by the update of [total] and [to_update]. *)
Definition flush (r : run) : run :=
  let body := body_of (to_update r) in
  if accepts (posted r) body
  then Run [] (total r + length (to_update r) / 2)
           (posted r ++ [body]) None
  else Run (to_update r) (total r) (posted r ++ [body])
           (Some RuntimeError).

Fixpoint embed_loop (ds : docs) (r : run) : run :=
  match ds with
  | Throw e => Run (to_update r) (total r) (posted r) (Some e)
  | Stop =>
      match to_update r with
      | [] => r
      | _ => flush r
      end
  | Yield meta src next =>
      match embed_pair meta src with
      | Raise e => Run (to_update r) (total r) (posted r) (Some e)
      | Ok None => embed_loop next r
      | Ok (Some lines) =>
          let r1 :=
            Run (to_update r ++ lines) (total r) (posted r) None in
          if (1000 <=? length (to_update r1))%nat then
            let r2 := flush r1 in
            match raised r2 with
            | Some _ => r2
            | None => embed_loop next r2
            end
          else embed_loop next r1
      end
  end.

(** [embed_from_ndjson(es, ndjson_path, source_field, target_field,
    model_name, index_override)], for the lines of the file. *)
Definition embed_from_ndjson (lines : list string) : run :=
  embed_loop (_iter_ndjson_docs lines) (Run [] 0 [] None).

End Embed.

End Escli.

(* ================================================================== *)
(** * Vocabulary of the properties *)

(** Structural induction on JSON values, through lists and dictionaries. *)
Section JsonInduction.

Variable P : json -> Prop.
Hypothesis Hnull : P JNull.
Hypothesis Hbool : forall b, P (JBool b).
Hypothesis Hint : forall z, P (JInt z).
Hypothesis Hfloat : forall x, P (JFloat x).
Hypothesis Hstr : forall s, P (JStr s).
Hypothesis Hlist : forall l, Forall P l -> P (JList l).
Hypothesis Hdict : forall d, Forall (fun kv => P (snd kv)) d -> P (JDict d).

Fixpoint json_induction (v : json) : P v :=
  match v with
  | JNull => Hnull
  | JBool b => Hbool b
  | JInt z => Hint z
  | JFloat x => Hfloat x
  | JStr s => Hstr s
  | JList l =>
      Hlist l
        ((fix go (l : list json) : Forall P l :=
            match l with
            | [] => Forall_nil _
            | x :: r => Forall_cons x (json_induction x) (go r)
            end) l)
  | JDict d =>
      Hdict d
        ((fix go (d : list (string * json))
            : Forall (fun kv => P (snd kv)) d :=
            match d with
            | [] => Forall_nil _
            | kv :: r => Forall_cons kv (json_induction (snd kv)) (go r)
            end) d)
  end.

End JsonInduction.

Module JsonView.

(** Fuel that suffices to read a printed value back. *)
Fixpoint jsize (v : json) : nat :=
  match v with
  | JList l => S (list_sum (map (fun x => S (jsize x)) l))
  | JDict d => S (list_sum (map (fun kv => S (jsize (snd kv))) d))
  | _ => 1
  end.

Definition elems_size (l : list json) : nat :=
  list_sum (map (fun x => S (jsize x)) l).

Definition members_size (d : dict) : nat :=
  list_sum (map (fun kv => S (jsize (snd kv))) d).

(** What may follow a value in the output of [dumps]. *)
Definition follows_value (rest : string) : bool :=
  match rest with
  | EmptyString => true
  | String c _ => Ascii.eqb c "," || Ascii.eqb c "]" || Ascii.eqb c "}"
  end.

(** What ends a number: nothing, or a character that is neither a digit
    nor one of the point, the exponent letters and the signs. *)
Definition ends_number (rest : string) : bool :=
  match rest with
  | EmptyString => true
  | String c _ =>
      negb (isdigit c || Ascii.eqb c "." || Ascii.eqb c "e"
            || Ascii.eqb c "E" || Ascii.eqb c "+" || Ascii.eqb c "-")
  end.

(** The characters a number or one of the three names can start with. *)
Definition literal_start (c : ascii) : bool :=
  isdigit c || Ascii.eqb c "-" || Ascii.eqb c "N" || Ascii.eqb c "I".

(** The characters a printed value can start with. *)
Definition value_start (c : ascii) : bool :=
  isdigit c || Ascii.eqb c "-" || Ascii.eqb c dquote || Ascii.eqb c "["
  || Ascii.eqb c "{" || Ascii.eqb c "n" || Ascii.eqb c "t"
  || Ascii.eqb c "f" || Ascii.eqb c "N" || Ascii.eqb c "I".

(** One member of a printed dictionary. *)
Definition member_str (ea : bool) (kv : string * json) : string :=
  (dumps_str ea (fst kv) ++ ": " ++ dumps ea (snd kv))%string.

(** [v] followed by [rest] is read back as [v], leaving [rest]. *)
Definition reads_back (ea : bool) (v : json) : Prop :=
  wf v = true ->
  forall fuel rest,
    jsize v <= fuel -> follows_value rest = true ->
    parse_value fuel (dumps ea v ++ rest) = Some (v, rest).

End JsonView.

Module BulkView.

Import ConvertJson.

(** What the inner statements of [to_bulk_actions] read from one chapter:
    its label and the paragraphs the loop visits. *)
Definition chapter_view (ch : json) : result (json * list json) :=
  chapter <- py_get ch "chapter" JNull ;;
  paragraphs <- py_get ch "paragraphs" (JList []) ;;
  paras <- py_iter paragraphs ;;
  Ok (chapter, paras).

Fixpoint chapter_views (chs : list json)
  : result (list (json * list json)) :=
  match chs with
  | [] => Ok []
  | ch :: rest =>
      v <- chapter_view ch ;;
      vs <- chapter_views rest ;;
      Ok (v :: vs)
  end.

(** The sections of a document and their paragraphs, as [to_bulk_actions]
    iterates over them; an exception where the iteration raises one. *)
Definition chapters_of (book_json : json)
  : result (list (json * list json)) :=
  chapters <- py_get book_json "chapters" (JList []) ;;
  chs <- py_iter chapters ;;
  chapter_views chs.

(** The labels and paragraphs of a chapter list are well formed. *)
Definition wf_views (vs : list (json * list json)) : bool :=
  forallb (fun c => wf (fst c) && forallb wf (snd c)) vs.

(** The total number of paragraphs. *)
Definition paragraph_count (chs : list (json * list json)) : nat :=
  list_sum (map (fun c => length (snd c)) chs).

(** The chunk documents of one chapter, from counter [seq] on. *)
Fixpoint paragraph_docs (book_id chapter : json) (chapter_index : nat)
  (paras : list json) (paragraph_index seq : nat) : list json :=
  match paras with
  | [] => []
  | para :: rest =>
      chunk_doc book_id chapter chapter_index paragraph_index seq para
        :: paragraph_docs book_id chapter chapter_index rest
             (S paragraph_index) (S seq)
  end.

(** The chunk documents of all chapters, in (section, paragraph) order. *)
Fixpoint chunk_docs (book_id : json) (chs : list (json * list json))
  (chapter_index seq : nat) : list json :=
  match chs with
  | [] => []
  | (chapter, paras) :: rest =>
      paragraph_docs book_id chapter chapter_index paras 0 seq
        ++ chunk_docs book_id rest (S chapter_index) (seq + length paras)
  end.

(** [d.get(k, default)] on a dictionary. *)
Definition get_default (k : string) (default : json) (d : dict) : json :=
  match dict_get k d with Some v => v | None => default end.

(** The [chunk_id] of a chunk document. *)
Definition chunk_id_of (doc : json) : json :=
  match doc with
  | JDict d => get_default "chunk_id" JNull d
  | _ => JNull
  end.

Definition chunk_id (bid : json) (seq : nat) : json :=
  JStr (py_str bid ++ "-" ++ format_06d seq).

(** The [text] of a chunk document. *)
Definition text_of (doc : json) : json :=
  match doc with
  | JDict d => get_default "text" JNull d
  | _ => JNull
  end.

(** The two lines of one chunk. *)
Definition chunk_pair (index_content : string) (doc : json) : list string :=
  [dumps true (index_action (JStr index_content) None); dumps false doc].

(** The book summary of a dictionary. *)
Definition summary (b : dict) : json :=
  let title := get_default "title" JNull b in
  let author := get_default "author" JNull b in
  JDict
    [("book_id", get_default "book_id" JNull b);
     ("source_uid", get_default "source_uid" (JStr EmptyString) b);
     ("title", title);
     ("author", get_default "author" (JStr EmptyString) b);
     ("publisher", get_default "publisher" (JStr EmptyString) b);
     ("description", get_default "description" (JStr EmptyString) b);
     ("genres", get_default "genres" (JStr EmptyString) b);
     ("linkToBook", get_default "linkToBook" (JStr EmptyString) b);
     ("language", get_default "language" JNull b);
     ("suggest",
      JDict [("input",
              JList ((if truthy title then [title] else [])
                       ++ (if truthy author then [author] else [])))])].

(** The two lines of the book. *)
Definition book_pair (index_books : string) (b : dict) : list string :=
  [dumps true
     (index_action (JStr index_books) (Some (get_default "book_id" JNull b)));
   dumps false (summary b)].

(** The line is an action line: an object with an ["index"] key, the test
    [_iter_ndjson_docs] applies. *)
Definition is_action_line (line : string) : bool :=
  match loads line with
  | Ok v =>
      match py_contains "index" v with
      | Ok b => b
      | Raise _ => false
      end
  | Raise _ => false
  end.

(** Action line, source line, action line, source line, ... *)
Fixpoint alternating (lines : list string) : bool :=
  match lines with
  | [] => true
  | m :: s :: rest =>
      is_action_line m && negb (is_action_line s) && alternating rest
  | [_] => false
  end.

(** The [_id] an action line carries, if it carries one. *)
Definition action_id (line : string) : result (option json) :=
  meta <- loads line ;;
  m <- py_getitem meta "index" ;;
  match m with
  | JDict d => Ok (dict_get "_id" d)
  | _ => Raise TypeError
  end.

(** The lines at even positions: the action lines of a stream. *)
Fixpoint action_lines (lines : list string) : list string :=
  match lines with
  | m :: _ :: rest => m :: action_lines rest
  | [m] => [m]
  | [] => []
  end.

(** The [book_id] of an input of the encoder. *)
Definition book_id_of (data : json) : json :=
  match data with
  | JDict b => get_default "book_id" JNull b
  | _ => JNull
  end.

(** All the lines [to_bulk_actions] returns for a dictionary whose
    chapters are [vs]: the book pair, then the chunk pairs. *)
Definition document_lines (index_books index_content : string) (b : dict)
  (vs : list (json * list json)) : list string :=
  book_pair index_books b
    ++ flat_map (chunk_pair index_content)
         (chunk_docs (get_default "book_id" JNull b) vs 0 0).

(** The inputs on which [to_bulk_actions] returns. *)
Definition encoded (index_books index_content : string)
  (json_iter : list (string * json)) : list (string * json) :=
  filter (fun nd =>
            is_ok (ConvertJson.to_bulk_actions (snd nd) index_books
                     index_content))
         json_iter.

(** The [chunk_id] values of the source lines of a stream, in order. *)
Definition chunk_ids_of (lines : list string) : list json :=
  flat_map (fun line =>
              match loads line with
              | Ok (JDict d) =>
                  match dict_get "chunk_id" d with
                  | Some v => [v]
                  | None => []
                  end
              | _ => []
              end) lines.

(** What one input of [process_json_objects] adds to the two streams:
    nothing when [to_bulk_actions] raises; everything to the first one
    when the two index names are the same. *)
Definition emitted (index_books index_content : string) (data : json)
  : list string * list string :=
  match ConvertJson.to_bulk_actions data index_books index_content with
  | Ok actions =>
      if String.eqb index_books index_content then (actions, [])
      else (firstn 2 actions, skipn 2 actions)
  | Raise _ => ([], [])
  end.

(** A small document: one chapter of two paragraphs, one of one. *)
Definition sample_document : dict :=
  [("book_id", JStr "8f7785b93990c569");
   ("chapters",
    JList [JDict [("chapter", JStr "Chapter 1");
                  ("paragraphs", JList [JStr "one"; JStr "two"])];
           JDict [("chapter", JStr "Chapter 2");
                  ("paragraphs", JList [JStr "three"])]]);
   ("title", JStr "T");
   ("author", JStr "A")].

Definition sample_chapters : list (json * list json) :=
  [(JStr "Chapter 1", [JStr "one"; JStr "two"]);
   (JStr "Chapter 2", [JStr "three"])].

End BulkView.

Module EpubView.

Import EpubToJson.

(** The chapter a document item contributes, if it has text. *)
Definition chapter_of_item (it : item) : list (string * list string) :=
  if (get_type it =? ITEM_DOCUMENT)%N then
    match snd (extract_texts_from_item it) with
    | [] => []
    | texts => [(fst (extract_texts_from_item it), texts)]
    end
  else [].

(** The chapters of a book: label and paragraphs, in the order of the
    items. *)
Definition chapters_of_items (items : list item)
  : list (string * list string) :=
  flat_map chapter_of_item items.

(** A chapter as [read_epub] stores it. *)
Definition chapter_json (ch : string * list string) : json :=
  JDict [("chapter", JStr (fst ch));
         ("paragraphs", JList (map JStr (snd ch)))].

(** The tags a chapter label is taken from. *)
Definition headings : list string := ["h1"; "h2"; "h3"; "title"].

(** The text of the heading the specification selects: the first [h1] if
    there is one, else the first [h2], else the first [h3], else the
    first [title]. *)
Definition heading_by_priority (nodes : list Bs4.node) : option string :=
  match
    flat_map (fun name =>
                match Bs4.find [name] nodes with
                | Some h => [Bs4.get_text " " (snd h)]
                | None => []
                end) headings
  with
  | t :: _ => Some t
  | [] => None
  end.

(** The label of the specification. *)
Definition spec_label (it : item) : string :=
  match heading_by_priority (soup it) with
  | Some t => if nonempty t then t else get_name it
  | None => get_name it
  end.

(** A chapter file as [ebooklib] hands it over, with the head it writes
    itself: the heading of the part, an [h2], comes before the [h1] of
    the chapter. *)
Definition part_chapter : item :=
  Item ITEM_DOCUMENT "ch1.xhtml"
    [Bs4.Elem "html"
       [Bs4.Elem "head" [];
        Bs4.Elem "body"
          [Bs4.Elem "h2" [Bs4.Text "Part One"];
           Bs4.Elem "h1" [Bs4.Text "Chapter 1"];
           Bs4.Elem "p" [Bs4.Text "It was a dark night."]]]].

(** The identifier values of a container, as the specification reads
    them: the entries whose value is a string, stripped, each with its
    attributes. *)
Definition identifier_values (b : book) : list (string * dict) :=
  flat_map (fun p : entry =>
              match p with
              | JStr s :: tl =>
                  [(strip s,
                    match tl with JDict d :: _ => d | _ => [] end)]
              | _ => []
              end)
           (try_except (get_metadata b "DC" "identifier") []).

(** The value is tagged with the preferred-identifier marker [marker]:
    the [unique-identifier] attribute of the package names the [id]
    attribute of its element.  The empty string stands for a package
    without marker. *)
Definition preferred (marker : string) (va : string * dict) : bool :=
  nonempty marker && id_is (snd va) marker && nonempty (fst va).

(** The [source_uid] of the specification, for a package whose marker is
    [marker]: the first value tagged with the marker; else the first
    value; else the SHA-1 of the bytes, in hexadecimal.  Empty values do
    not count. *)
Definition spec_source_uid (marker : string) (b : book)
  (file : list Byte.byte) : string :=
  match find (preferred marker) (identifier_values b) with
  | Some va => fst va
  | None =>
      match find (fun va => nonempty (fst va)) (identifier_values b) with
      | Some va => fst va
      | None => Sha1.hexdigest file
      end
  end.

(** A container with two identifiers, the second one marked as the
    preferred one ([unique-identifier="BookId"]), as [ebooklib] reads
    it: [book.uid] is the value of the marked identifier. *)
Definition book_with_two_identifiers : book :=
  Book (Some "urn:uuid:abc")
       [("DC",
         [("identifier",
           [[JStr "isbn:9780000000002"; JDict []];
            [JStr "urn:uuid:abc"; JDict [("id", JStr "BookId")]]])])]
       [].

(** Every identifier entry holds a string value. *)
Definition string_valued (p : entry) : bool :=
  match p with
  | JStr _ :: _ => true
  | _ => false
  end.

(** What the code compares the [id] attributes with: [book.uid].  The
    reader of [ebooklib] stores there the value of the identifier it
    takes as the preferred one, or a random UUID when it finds none; it
    does not store the marker. *)
Definition uid_as_marker (b : book) : string :=
  match uid b with
  | Some u => u
  | None => EmptyString
  end.

(** A container whose only identifier element has no text: [ebooklib]
    gives the entry the value [None], and [book.uid] is that value. *)
Definition book_with_empty_identifier : book :=
  Book None
       [("DC", [("identifier", [[JNull; JDict [("id", JStr "BookId")]]])])]
       [].

(** A chapter as the loops of [to_bulk_actions] see it. *)
Definition chapter_seen (ch : string * list string) : json * list json :=
  (JStr (fst ch), map JStr (snd ch)).

(** The record the first program writes for a file and the second one
    reads: what [read_epub] returns, with the link its caller adds.  The
    JSON file in between is taken to be read back as it was written. *)
Definition parsed_record (stem link : string) (file : list Byte.byte)
  (b : book) : dict :=
  dict_set "linkToBook" (JStr link) (read_epub stem file b).

(** The key holds a string. *)
Definition has_str (k : string) (d : dict) : Prop :=
  exists s, dict_get k d = Some (JStr s).

(** The key holds a string, or is absent. *)
Definition str_or_absent (k : string) (d : dict) : Prop :=
  match dict_get k d with
  | None => True
  | Some (JStr _) => True
  | Some _ => False
  end.

(** Apart from the keys [authors] and [chapters], a statement leaves a
    string a string, and an absent key absent or a string. *)
Definition writes_strings (f : dict -> dict) : Prop :=
  forall k d,
    String.eqb k "authors" = false -> String.eqb k "chapters" = false ->
    (has_str k d -> has_str k (f d))
    /\ (str_or_absent k d -> str_or_absent k (f d)).

(** What the loop over the structured metadata leaves under a key that
    takes the first value. *)
Definition first_value (b : book) (key : string) : option json :=
  match _meta_values b "DC" key with
  | v :: _ => Some (JStr v)
  | [] => None
  end.

(** The pattern of the specification for the author line: ["by <name>"],
    in any case. *)
Definition by_author_any_case : Re.pattern :=
  [Re.WordBoundary; Re.One (Re.either "B" "b"); Re.One (Re.either "Y" "y");
   Re.Plus isspace; Re.GroupOpen; Re.Plus Re.not_newline_or_comma;
   Re.GroupClose].

(** A book without metadata whose text starts with a line in capitals. *)
Definition shouting_book : book :=
  Book None []
       [Item ITEM_DOCUMENT "ch1.xhtml"
             [Bs4.Elem "p" [Bs4.Text "BY Jane Q. Author, a novel"]]].

(** A book without metadata whose text starts with the author line of
    the specification. *)
Definition novel : book :=
  Book None []
       [Item ITEM_DOCUMENT "ch1.xhtml"
             [Bs4.Elem "p" [Bs4.Text "By Jane Q. Author, a novel"];
              Bs4.Elem "p" [Bs4.Text "It was a dark night."]]].

(** A container with no metadata and no content. *)
Definition empty_book : book := Book None [] [].

(** The record before the statement that sets the title. *)
Definition before_title (stem : string) (file : list Byte.byte) (b : book)
  : dict :=
  set_defaults
    (set_identity b file
       (join_authors
          (fold_left (set_meta b) essential_meta
             [("book_id", JStr stem); ("chapters", JList [])]))).

(** The record after the loop over the items. *)
Definition with_chapters (stem : string) (file : list Byte.byte) (b : book)
  : dict :=
  fold_left add_item (get_items b)
    (drop_authors (set_title stem b (before_title stem file b))).

(** The paragraphs of the first chapter, joined: where the author and the
    publisher are looked for. *)
Definition head_text (n : nat) (chs : list (string * list string))
  : string :=
  join Re.newline_str
    (firstn n (match chs with ch :: _ => snd ch | [] => [] end)).

(** The part of the name of the file before the first underscore,
    hyphens turned into spaces, stripped. *)
Definition author_slug (stem : string) : string :=
  strip (replace_char "-" " " (hd EmptyString (split "_" stem))).

(** The author the name of the file gives: that part in title case, when
    it has one to four words; the empty string otherwise. *)
Definition author_of_stem (stem : string) : string :=
  if nonempty (author_slug stem)
     && (length (split_ws (author_slug stem)) <=? 4)%nat
  then title (author_slug stem)
  else EmptyString.

(** The author a line of the text gives: the first match of
    [\b[Bb]y\s+([^\n,]+)] in the first ten paragraphs of the first
    chapter, stripped; the empty string when there is no chapter or no
    match. *)
Definition author_of_text (chs : list (string * list string)) : string :=
  match chs with
  | [] => EmptyString
  | _ =>
      match Re.search_group1 Re.by_author (head_text 10 chs) with
      | Some g => strip g
      | None => EmptyString
      end
  end.

End EpubView.

Module Samples.

Import Bs4 EpubToJson.

(** [s] between double quotes. *)
Definition quoted (s : string) : string :=
  String dquote (s ++ String dquote EmptyString).

(** The source of the end-to-end scenario of the specification: one
    content file with a heading and three paragraphs, a title, a creator,
    one identifier and no preferred-identifier marker. *)
Definition scenario : book :=
  Book None
       [("DC",
         [("title", [[JStr "T"; JDict []]]);
          ("creator", [[JStr "A"; JDict []]]);
          ("identifier", [[JStr "urn:uuid:abc"; JDict []]])])]
       [Item ITEM_DOCUMENT "ch1.xhtml"
             [Elem "html"
                [Elem "body"
                   [Elem "h1" [Text "Chapter 1"];
                    Elem "p" [Text "First."];
                    Elem "p" [Text "Second."];
                    Elem "p" [Text "Third."]]]]].

End Samples.

Module ReView.

Import Re.

(** The character before the end of [s], [prev] being the one before its
    start. *)
Fixpoint last_char (prev : option ascii) (s : string) : option ascii :=
  match s with
  | EmptyString => prev
  | String c r => last_char (Some c) r
  end.

(** Group 1 after the characters of [s] went by. *)
Fixpoint push_all (s : string) (cap : capture) : capture :=
  match s with
  | EmptyString => cap
  | String c r => push_all r (push c cap)
  end.

Fixpoint all_chars (p : ascii -> bool) (s : string) : bool :=
  match s with
  | EmptyString => true
  | String c r => p c && all_chars p r
  end.

(** The string is empty or starts with a character outside the class. *)
Definition stops (p : ascii -> bool) (s : string) : bool :=
  match s with
  | EmptyString => true
  | String c _ => negb (p c)
  end.

End ReView.

Module EscliView.

(** A stand-in for the embedding model: a vector of two floats, a tenth
    of the length of the text and [-1.25e-05]. *)
Definition sample_encode (text : string) : json :=
  JList [JFloat (Float.of_decimal false (N.of_nat (String.length text)) (-1));
         JFloat (Float.of_decimal true 125 (-7))].

(** A search engine that accepts every request. *)
Definition always_accepts (_ : list string) (_ : string) : bool := true.

(** The action line of a chunk, and the one of a book. *)
Definition chunk_meta : dict :=
  [("index", JDict [("_index", JStr "book_content")])].

Definition book_meta : dict :=
  [("index", JDict [("_index", JStr "books");
                    ("_id", JStr "8f7785b93990c569")])].

(** A chunk without text, a chunk with text, a book summary. *)
Definition empty_chunk : dict :=
  [("chunk_id", JStr "8f7785b93990c569-000000"); ("text", JStr EmptyString)].

Definition filled_chunk : dict :=
  [("chunk_id", JStr "8f7785b93990c569-000001"); ("text", JStr "one")].

Definition book_summary : dict :=
  [("book_id", JStr "8f7785b93990c569");
   ("description", JStr "A novel.")].

End EscliView.


(* ================================================================== *)
(** * Text files *)

Module TextFile.

Definition carriage_return : ascii := ascii_of_N 13.

(** The lines [for line in f] visits, for the text of a file opened in
    text mode with the default [newline=None]: a line ends at a line
    feed, at a carriage return or at the two in a row, and is given with
    a line feed as its terminator; a last line without terminator is
    given as it is. *)
Fixpoint readlines (s : string) : list string :=
  match s with
  | EmptyString => []
  | String c rest =>
      if Ascii.eqb c Re.newline then Re.newline_str :: readlines rest
      else if Ascii.eqb c carriage_return then
        Re.newline_str
          :: match rest with
             | String c' rest' =>
                 if Ascii.eqb c' Re.newline then readlines rest'
                 else readlines rest
             | EmptyString => []
             end
      else
        match readlines rest with
        | [] => [String c EmptyString]
        | line :: lines => String c line :: lines
        end
  end.

(** ["\n".join(lines) + "\n"], the text both programs write for a list of
    lines. *)
Definition ndjson_text (lines : list string) : string :=
  (join Re.newline_str lines ++ Re.newline_str)%string.

End TextFile.

(* ================================================================== *)
(** * [scripts/escli.py]: requests to the search engine *)

Module EscliRequests.

Import TextFile.

(** What the code reads of a [requests.Response]: [r.status_code] and
    [r.json()]. *)
Record response : Type := Response {
  status_code : Z;
  json_of : result json
}.

(** [es_request(method, url, **kw)], given the response [r] of the
    session: an answer with a status of 400 or more is an error. *)
Definition es_request (r : response) : result response :=
  if (400 <=? status_code r)%Z then Raise RuntimeError else Ok r.

(** [k in item and item[k].get("error")], as a truth value. *)
Definition item_error (item : json) (k : string) : result bool :=
  present <- py_contains k item ;;
  if present then
    action <- py_getitem item k ;;
    error <- py_get action "error" JNull ;;
    Ok (truthy error)
  else Ok false.

(** [any(... for k in ("index", "update"))] *)
Definition any_item_error (item : json) : result bool :=
  e <- item_error item "index" ;;
  if e then Ok true else item_error item "update".

(** [for item in ...: if any(...): raise RuntimeError(...)] *)
Fixpoint check_items (items : list json) : result unit :=
  match items with
  | [] => Ok tt
  | item :: rest =>
      e <- any_item_error item ;;
      if e then Raise RuntimeError else check_items rest
  end.

(** [_bulk_post(es, data)], given the response of the search engine to
    the request. *)
Definition _bulk_post (r : response) : result unit :=
  r <- es_request r ;;
  resp <- json_of r ;;
  errors <- py_get resp "errors" JNull ;;
  if truthy errors then
    items <- py_get resp "items" (JList []) ;;
    items <- py_iter items ;;
    check_items items
  else Ok tt.

(** ** [bulk_file] *)

Section BulkFile.

(** The search engine: its response to a bulk request, given the bodies
    of the requests sent before. *)
Variable server : list string -> string -> response.

Variable chunk_bytes : nat.

Record bulk_run : Type := BulkRun {
  buf : list string;
  size : nat;
  sent : nat;
  requests : list string;   (** the bodies sent to [_bulk], in order *)
  failure : option exn
}.

(** [_bulk_post(es, "".join(buf))], then [sent += len(buf) // 2] and
    [buf, size = [], 0]. *)
Definition post_buf (r : bulk_run) : bulk_run :=
  let data := join EmptyString (buf r) in
  match _bulk_post (server (requests r) data) with
  | Ok _ =>
      BulkRun [] 0 (sent r + length (buf r) / 2) (requests r ++ [data])
              None
  | Raise e =>
      BulkRun (buf r) (size r) (sent r) (requests r ++ [data]) (Some e)
  end.

Fixpoint bulk_loop (lines : list string) (r : bulk_run) : bulk_run :=
  match lines with
  | [] =>
      match buf r with
      | [] => r
      | _ => post_buf r
      end
  | line :: rest =>
      if is_empty (strip line) then bulk_loop rest r
      else
        let r1 :=
          BulkRun (buf r ++ [line])
                  (size r + length (Sha1.utf8 line))
                  (sent r) (requests r) None in
        if (chunk_bytes <=? size r1)%nat then
          let r2 := post_buf r1 in
          match failure r2 with
          | Some _ => r2
          | None => bulk_loop rest r2
          end
        else bulk_loop rest r1
  end.

(** [bulk_file(es, ndjson_path, chunk_bytes)], for the text of the
    file. *)
Definition bulk_file (text : string) : bulk_run :=
  bulk_loop (readlines text) (BulkRun [] 0 0 [] None).

End BulkFile.

(** ** [index_exists] and [init_indices] *)

Inductive request : Type :=
| GET (url : string)
| DELETE (url : string)
| PUT (url : string) (body : json).

Section Indices.

(** The search engine: its response to a request, given the requests
    sent before; and the text of the mapping file of an index. *)
Variable answer : list request -> request -> response.
Variable mapping_text : string -> string.

Record session : Type := Session {
  trace : list request;        (** the requests sent, in order *)
  created : list string        (** the index names printed as created *)
}.

Definition url_of (es name : string) : string :=
  (es ++ "/" ++ name)%string.

(** [index_exists(es, name)]: the status is compared with 200, no
    exception for another one. *)
Definition index_exists (es name : string) (s : session)
  : session * bool :=
  let q := GET (url_of es name) in
  (Session (trace s ++ [q]) (created s),
   (status_code (answer (trace s) q) =? 200)%Z).

(** One turn of the loop of [init_indices]. *)
Definition init_index (es name : string) (s : session)
  : session * result unit :=
  let (s, there) := index_exists es name s in
  let (s, deleted) :=
    if there then
      let q := DELETE (url_of es name) in
      (Session (trace s ++ [q]) (created s),
       _ <- es_request (answer (trace s) q) ;; Ok tt)
    else (s, Ok tt) in
  match deleted with
  | Raise e => (s, Raise e)
  | Ok _ =>
      match loads (mapping_text name) with
      | Raise e => (s, Raise e)
      | Ok body =>
          let q := PUT (url_of es name) body in
          match es_request (answer (trace s) q) with
          | Raise e => (Session (trace s ++ [q]) (created s), Raise e)
          | Ok _ =>
              (Session (trace s ++ [q]) (created s ++ [name]), Ok tt)
          end
      end
  end.

Fixpoint init_loop (es : string) (names : list string) (s : session)
  : session * result unit :=
  match names with
  | [] => (s, Ok tt)
  | name :: rest =>
      match init_index es name s with
      | (s, Raise e) => (s, Raise e)
      | (s, Ok _) => init_loop es rest s
      end
  end.

(** [init_indices(es)] *)
Definition init_indices (es : string) : session * result unit :=
  init_loop es ["books"; "book_content"] (Session [] []).

End Indices.

End EscliRequests.

(* ================================================================== *)
(** * [json.dump] with an indentation *)

Module JsonIndent.

Fixpoint spaces (n : nat) : string :=
  match n with
  | O => EmptyString
  | S k => String " " (spaces k)
  end.

(** ['\n' + indent * level] for [indent=2]. *)
Definition newline_indent (level : nat) : string :=
  String Re.newline (spaces (2 * level)).

(** [_item_separator + newline_indent]; the item separator is [","] when
    an indentation is given. *)
Definition separator (level : nat) : string :=
  String "," (newline_indent level).

(** [json.dumps(v, ensure_ascii=..., indent=2)], at a nesting level: an
    empty list or dictionary is printed closed; the items of another one
    each go on a line of their own, one level deeper, and the closing
    bracket on a line at the level of the opening one. *)
Fixpoint dumps_indent (ensure_ascii : bool) (level : nat) (v : json)
  : string :=
  match v with
  | JList [] => "[]"
  | JList l =>
      ("[" ++ newline_indent (S level)
           ++ join (separator (S level))
                (map (dumps_indent ensure_ascii (S level)) l)
           ++ newline_indent level ++ "]")%string
  | JDict [] => "{}"
  | JDict d =>
      ("{" ++ newline_indent (S level)
           ++ join (separator (S level))
                (map (fun kv =>
                        (dumps_str ensure_ascii (fst kv) ++ ": "
                         ++ dumps_indent ensure_ascii (S level) (snd kv))
                        %string) d)
           ++ newline_indent level ++ "}")%string
  | _ => dumps ensure_ascii v
  end.

End JsonIndent.

(* ================================================================== *)
(** * [ingest/epub_to_json.py]: the local mode of [main] *)

Module EpubMain.

Import EpubToJson JsonIndent.

(** An input of the local mode: the path as given ([str(ep)]), its
    name and its stem, [str(ep.resolve())] (an exception where the path
    cannot be resolved), the bytes of the file and the container
    [epub.read_epub] makes of them (an exception where it cannot). *)
Record epub_file : Type := EpubFile {
  path : string;
  file_name : string;
  stem : string;
  resolved : result string;
  bytes : list Byte.byte;
  container : result book
}.

(** What is printed for an input. *)
Inductive shown : Type :=
| ShowOK (name : string)
| ShowERROR (path : string) (e : exn).

(** The record written for an input: what [read_epub] returns, with the
    link to the file. *)
Definition record_of (f : epub_file) (b : book) : dict :=
  let data := read_epub (stem f) (bytes f) b in
  dict_set "linkToBook"
    (JStr (match resolved f with
           | Ok p => ("file://" ++ p)%string
           | Raise _ => path f
           end))
    data.

(** [open(name, "w").write(text)] in a folder: the file is created, or
    its content replaced. *)
Fixpoint write_file (name text : string) (folder : list (string * string))
  : list (string * string) :=
  match folder with
  | [] => [(name, text)]
  | (n, t) :: rest =>
      if String.eqb n name then (n, text) :: rest
      else (n, t) :: write_file name text rest
  end.

Fixpoint read_file (name : string) (folder : list (string * string))
  : option string :=
  match folder with
  | [] => None
  | (n, t) :: rest =>
      if String.eqb n name then Some t else read_file name rest
  end.

(** The loop of the local mode over its inputs: the files of the output
    folder and the lines printed. *)
Fixpoint main_loop (inputs : list epub_file)
  (folder : list (string * string)) (out : list shown)
  : list (string * string) * list shown :=
  match inputs with
  | [] => (folder, out)
  | ep :: rest =>
      match container ep with
      | Raise e => main_loop rest folder (out ++ [ShowERROR (path ep) e])
      | Ok b =>
          let data := record_of ep b in
          main_loop rest
            (write_file (stem ep ++ ".json")
               (dumps_indent false 0 (JDict data)) folder)
            (out ++ [ShowOK (file_name ep)])
      end
  end.

Definition main_local (inputs : list epub_file)
  (folder : list (string * string))
  : list (string * string) * list shown :=
  main_loop inputs folder [].

End EpubMain.

(* ================================================================== *)
(** * [ingest/epub_to_json.py]: the ISBN among the identifiers *)

Module EpubIsbn.

(** [s.replace(a, "")] for a one-character [a]. *)
Fixpoint remove_char (a : ascii) (s : string) : string :=
  match s with
  | EmptyString => EmptyString
  | String c r =>
      if Ascii.eqb c a then remove_char a r else String c (remove_char a r)
  end.

(** [\d{n}] at the start of a string: what follows the [n] digits. *)
Fixpoint digits (n : nat) (s : string) : option string :=
  match n with
  | O => Some s
  | S k =>
      match s with
      | String c r => if isdigit c then digits k r else None
      | EmptyString => None
      end
  end.

(** [\d{n}] matches all of the string. *)
Definition all_of (n : nat) (s : string) : bool :=
  match digits n s with
  | Some rest => is_empty rest
  | None => false
  end.

(** [re.fullmatch(r"\d{10}|\d{13}", s)], as a truth value. *)
Definition fullmatch_isbn (s : string) : bool :=
  all_of 10 s || all_of 13 s.

(** [_pick_isbn(values)]; [None] when the loop ends. *)
Fixpoint _pick_isbn (values : list string) : option string :=
  match values with
  | [] => None
  | v :: rest =>
      let cleaned := remove_char "-" (remove_char " " v) in
      if fullmatch_isbn cleaned then Some cleaned else _pick_isbn rest
  end.

End EpubIsbn.

(* ================================================================== *)
(** * [ingest/convert_json_to_ndjson.py]: the two modes of [main] *)

Module ConvertMain.

Import TextFile ConvertJson.

(** [s.lower()] *)
Fixpoint lower (s : string) : string :=
  match s with
  | EmptyString => EmptyString
  | String c r => String (tolower c) (lower r)
  end.

(** [s.endswith(suffix)] *)
Fixpoint endswith (suffix s : string) : bool :=
  String.eqb suffix s
  || match s with
     | EmptyString => false
     | String _ r => endswith suffix r
     end.

(** A stored document: its name, and its content decoded as UTF-8 (an
    exception where the bytes are not UTF-8). *)
Record source : Type := Source {
  name : string;
  text : result string
}.

(** [json.loads(buf.decode("utf-8"))] *)
Definition load (f : source) : result json :=
  t <- text f ;; loads t.

(** ** Storage mode *)

(** [iter_json_from_s3()], for the objects the bucket lists: the pairs it
    yields, and the names it reports as not decoded. *)
Fixpoint iter_json_from_s3 (listing : list source)
  : list (string * json) * list (string * exn) :=
  match listing with
  | [] => ([], [])
  | obj :: rest =>
      let (items, errors) := iter_json_from_s3 rest in
      if negb (endswith ".json" (lower (name obj))) then (items, errors)
      else
        match load obj with
        | Raise e => (items, (name obj, e) :: errors)
        | Ok data => ((name obj, data) :: items, errors)
        end
  end.

(** The two objects [main] puts into the index bucket, [books.ndjson]
    and [book_content.ndjson]. *)
Definition main_s3 (index_books index_content : string)
  (listing : list source) : string * string :=
  let st :=
    fst (process_json_objects index_books index_content
           (fst (iter_json_from_s3 listing))) in
  (ndjson_text (books_lines st), ndjson_text (content_lines st)).

(** ** Local mode *)

(** [sorted(...)] on the files of one folder: by name, a file going
    before the first one whose name is greater. *)
Fixpoint insert (f : source) (l : list source) : list source :=
  match l with
  | [] => [f]
  | g :: r =>
      if String.ltb (name f) (name g) then f :: l else g :: insert f r
  end.

Definition sorted (l : list source) : list source :=
  fold_left (fun acc f => insert f acc) l [].

(** [iter_json_local()]: the pairs it yields, and the exception that
    ends it, if one does; nothing catches it. *)
Fixpoint iter_json_local (files : list source)
  : list (string * json) * option exn :=
  match files with
  | [] => ([], None)
  | f :: rest =>
      match load f with
      | Raise e => ([], Some e)
      | Ok data =>
          let (items, e) := iter_json_local rest in
          ((name f, data) :: items, e)
      end
  end.

(** The texts [main] writes to [out_books] and [out_content], for the
    files [input_dir.glob("*.json")] finds; an exception of the
    generator leaves [main] before anything is written. *)
Definition main_local (index_books index_content : string)
  (files : list source) : result (string * string) :=
  let (items, e) := iter_json_local (sorted files) in
  let st :=
    fst (process_json_objects index_books index_content items) in
  match e with
  | Some e => Raise e
  | None => Ok (ndjson_text (books_lines st), ndjson_text (content_lines st))
  end.

End ConvertMain.

(* ================================================================== *)
(** * Vocabulary of the properties of the indented text *)

Module JsonIndentView.

Import JsonView JsonIndent.

(** What may follow a value in the indented text: a comma, a line feed,
    a closing bracket, or nothing. *)
Definition follows_indented (rest : string) : bool :=
  match rest with
  | EmptyString => true
  | String c _ =>
      Ascii.eqb c "," || Ascii.eqb c "]" || Ascii.eqb c "}"
      || Ascii.eqb c Re.newline
  end.

(** One member of an indented dictionary. *)
Definition member_indent (ea : bool) (level : nat) (kv : string * json)
  : string :=
  (dumps_str ea (fst kv) ++ ": " ++ dumps_indent ea level (snd kv))%string.

(** The indented text of [v] followed by [rest] is read back as [v],
    leaving [rest]. *)
Definition reads_back_indent (ea : bool) (v : json) : Prop :=
  wf v = true ->
  forall level fuel rest,
    jsize v <= fuel -> follows_indented rest = true ->
    parse_value fuel (dumps_indent ea level v ++ rest) = Some (v, rest).

End JsonIndentView.

(* ================================================================== *)
(** * Vocabulary of the properties of the parsed record *)

Module RecordView.

Import EpubToJson EpubView EpubIsbn.

(** Every character is a decimal digit. *)
Fixpoint all_digits (s : string) : bool :=
  match s with
  | EmptyString => true
  | String c r => isdigit c && all_digits r
  end.

(** The value without its spaces and hyphens. *)
Definition cleaned (v : string) : string :=
  remove_char "-" (remove_char " " v).

(** Ten or thirteen digits. *)
Definition isbn_like (s : string) : bool :=
  all_digits s
  && ((String.length s =? 10)%nat || (String.length s =? 13)%nat).

(** Every character is a lower-case hexadecimal digit. *)
Fixpoint all_hex (s : string) : bool :=
  match s with
  | EmptyString => true
  | String c r => (isdigit c || in_range 97 102 c) && all_hex r
  end.

(** The description the text gives: the first three paragraphs of the
    first three chapters, joined by empty lines and stripped. *)
Definition description_of_text (chs : list (string * list string))
  : string :=
  strip (join two_newlines
           (flat_map (fun ch => firstn 3 (snd ch)) (firstn 3 chs))).

(** The publisher a line of the text gives: the first match of
    [[Pp]ublisher:?\s*([^\n]+)] in the first twenty paragraphs of the
    first chapter, stripped; the empty string when there is no chapter or
    no match. *)
Definition publisher_of_text (chs : list (string * list string))
  : string :=
  match chs with
  | [] => EmptyString
  | _ =>
      match Re.search_group1 Re.publisher_line (head_text 20 chs) with
      | Some g => strip g
      | None => EmptyString
      end
  end.

(** The publisher the mark of Standard Ebooks gives, looked for in the
    first fifty paragraphs of the first five chapters. *)
Definition publisher_of_mark (chs : list (string * list string))
  : string :=
  match chs with
  | [] => EmptyString
  | _ =>
      if contains "Standard Ebooks"
           (join Re.newline_str
              (flat_map (fun ch => firstn 50 (snd ch)) (firstn 5 chs)))
      then "Standard Ebooks"
      else EmptyString
  end.

(** The first value of the structured metadata under a key, as a string:
    empty when there is none. *)
Definition first_or_empty (b : book) (key : string) : string :=
  match _meta_values b "DC" key with
  | v :: _ => v
  | [] => EmptyString
  end.

End RecordView.

(* ================================================================== *)
(** * Vocabulary of the properties of the extractor's local mode *)

Module EpubMainView.

Import EpubToJson EpubMain.

(** Two inputs of one stem, in two folders. *)
Definition first_novel : epub_file :=
  EpubFile "a/novel.epub" "novel.epub" "novel" (Ok "/in/a/novel.epub") []
           (Ok EpubView.empty_book).

Definition second_novel : epub_file :=
  EpubFile "b/novel.epub" "novel.epub" "novel" (Ok "/in/b/novel.epub") []
           (Ok EpubView.novel).

(** The names of the elements whose text is a paragraph. *)
Definition paragraph_tags : list string := ["p"; "li"; "pre"].

(** A paragraph element inside a list item. *)
Definition nested_item : item :=
  Item ITEM_DOCUMENT "ch1.xhtml"
       [Bs4.Elem "li" [Bs4.Elem "p" [Bs4.Text "One point."]]].

End EpubMainView.

(* ================================================================== *)
(** * Vocabulary of the properties of the two modes *)

Module MainView.

Import ConvertMain.

(** The name ends in [.json], whatever the case of its letters. *)
Definition named_json (obj : source) : bool :=
  endswith ".json" (lower (name obj)).

(** An object the storage mode reads: named as a JSON document, and
    holding the text of a JSON value. *)
Definition usable (obj : source) : bool :=
  named_json obj && is_ok (load obj).

(** The text of the object, when it has one, is a [narrow] one: it has
    no escape for a code point from 256 on, and [loads] is [json.loads]
    on it. *)
Definition narrow_text (obj : source) : bool :=
  match text obj with
  | Ok t => narrow t
  | Raise _ => true
  end.

(** The order of [sorted] on the files of a folder. *)
Definition name_le (f g : source) : Prop :=
  String.leb (name f) (name g) = true.

(** The files of a folder, in the order the folder lists them: the first
    is cut short. *)
Definition sample_folder : list source :=
  [Source "b.json" (Ok "{"); Source "a.json" (Ok "{}")].

(** A document with a number that is not an integer. *)
Definition rated : string :=
  ("{" ++ Samples.quoted "book_id" ++ ": " ++ Samples.quoted "b1" ++ ", "
       ++ Samples.quoted "rating" ++ ": 4.5}")%string.

(** The objects of a bucket: a document cut short, notes that are no
    document, bytes that are not UTF-8, and a document. *)
Definition sample_listing : list source :=
  [Source "b.json" (Ok "{"); Source "notes.txt" (Ok "{}");
   Source "c.json" (Raise UnicodeDecodeError);
   Source "A.JSON" (Ok rated)].

(** The files of a folder, all of them documents. *)
Definition rated_folder : list source :=
  [Source "b.json" (Ok rated); Source "a.json" (Ok "{}")].

End MainView.

(* ================================================================== *)
(** * Vocabulary of the properties of the requests *)

Module RequestsView.

Import TextFile Escli EscliRequests.

(** The lines [bulk_file] and [_iter_ndjson_docs] do not skip. *)
Definition nonblank (lines : list string) : list string :=
  filter (fun line => negb (is_empty (strip line))) lines.

(** No character of the string ends a line of a text file. *)
Fixpoint no_break (s : string) : bool :=
  match s with
  | EmptyString => true
  | String c r =>
      negb (Ascii.eqb c Re.newline) && negb (Ascii.eqb c carriage_return)
      && no_break r
  end.

(** The number of bytes of the UTF-8 encoding. *)
Definition byte_length (s : string) : nat := length (Sha1.utf8 s).

(** The batches of a run of [bulk_file]: the lines of each request sent
    so far, with the counters as the loop keeps them. *)
Definition batched (batches : list (list string)) (r : bulk_run) : Prop :=
  requests r = map (join EmptyString) batches
  /\ Forall (fun b => b <> []) batches
  /\ sent r = list_sum (map (fun b => length b / 2) batches)
  /\ size r = byte_length (join EmptyString (buf r)).

(** The pairs a generator yields before it stops or raises. *)
Fixpoint yielded (ds : docs) : list (json * json) :=
  match ds with
  | Yield meta src next => (meta, src) :: yielded next
  | Stop | Throw _ => []
  end.

(** The generator that yields the pairs of a list and stops. *)
Fixpoint yields (pairs : list (json * json)) : docs :=
  match pairs with
  | [] => Stop
  | (meta, src) :: rest => Yield meta src (yields rest)
  end.

(** The two lines of a pair: the action line is written by [json.dumps]
    with its defaults, the source line with [ensure_ascii=False]. *)
Definition pair_lines (p : json * json) : list string :=
  [dumps true (fst p); dumps false (snd p)].

Definition is_dict (v : json) : bool :=
  match v with JDict _ => true | _ => false end.

(** An action object and a source object of the bulk format, as the
    reader tells them apart. *)
Definition bulk_pair (p : json * json) : bool :=
  match fst p, snd p with
  | JDict m, JDict s =>
      dict_mem "index" m && negb (dict_mem "index" s)
      && wf (fst p) && wf (snd p)
  | _, _ => false
  end.

(** The pairs of the content stream one input of the converter stands
    for: one per paragraph, an index action without [_id] and the chunk
    document; none for an input the encoder refuses. *)
Definition chunk_pairs_of (index_content : string) (data : json)
  : list (json * json) :=
  match data with
  | JDict b =>
      match BulkView.chapters_of data with
      | Ok vs =>
          map (fun doc =>
                 (ConvertJson.index_action (JStr index_content) None, doc))
              (BulkView.chunk_docs
                 (BulkView.get_default "book_id" JNull b) vs 0 0)
      | Raise _ => []
      end
  | _ => []
  end.

(** The pair of the books stream one input stands for. *)
Definition book_pairs_of (index_books : string) (data : json)
  : list (json * json) :=
  match data with
  | JDict b =>
      match BulkView.chapters_of data with
      | Ok _ =>
          [(ConvertJson.index_action (JStr index_books)
              (Some (BulkView.get_default "book_id" JNull b)),
            BulkView.summary b)]
      | Raise _ => []
      end
  | _ => []
  end.

(** What [process_json_objects] prints for an input: [OK] when the
    encoder returns, [ERROR] with its exception when it raises. *)
Definition report (index_books index_content : string)
  (nd : string * json) : ConvertJson.printed :=
  match ConvertJson.to_bulk_actions (snd nd) index_books index_content with
  | Ok _ => ConvertJson.PrintOK (fst nd)
  | Raise e => ConvertJson.PrintERROR (fst nd) e
  end.

(** The result of an action other than [index] and [update] in the
    response to a bulk request. *)
Definition other_action (item : json) : bool :=
  match item with
  | JDict d => negb (dict_mem "index" d) && negb (dict_mem "update" d)
  | _ => false
  end.

(** The [errors] flag of a response, as a truth value. *)
Definition errors_flag (resp : dict) : bool :=
  match dict_get "errors" resp with
  | Some e => truthy e
  | None => false
  end.

(** The response to a bulk request of one [delete] action that failed. *)
Definition failed_delete : response :=
  Response 200
    (Ok (JDict [("errors", JBool true);
                ("items",
                 JList [JDict [("delete",
                                JDict [("error", JStr "not_found")])]])])).

(** A search engine that holds every index and accepts every request. *)
Definition holds_all (_ : list request) (_ : request) : response :=
  Response 200 (Ok (JDict [("acknowledged", JBool true)])).

(** Mapping files: the one of [books] is cut short. *)
Definition cut_mapping (name : string) : string :=
  if String.eqb name "books" then "{" else "{}".

(** Two pairs of the bulk format: a book and one of its chunks. *)
Definition sample_pairs : list (json * json) :=
  [(JDict EscliView.book_meta, JDict EscliView.book_summary);
   (JDict EscliView.chunk_meta, JDict EscliView.filled_chunk)].

(** Two inputs of the converter: a document and a value that is not
    one. *)
Definition sample_inputs : list (string * json) :=
  [("a.json", JDict BulkView.sample_document); ("b.json", JNull)].

(** A text of three lines, the second one blank. *)
Definition sample_text : string :=
  ndjson_text ["{}"; "  "; "[]"].

(** A server that answers every bulk request with status 200 and a body
    without errors. *)
Definition obliging (_ : list string) (_ : string) : response :=
  Response 200 (Ok (JDict [("errors", JBool false)])).

End RequestsView.

(* ================================================================== *)
(** * Vocabulary of the properties of the embedding run *)

Module EmbedView.

Import Escli.

Section Produced.

Variable encode : string -> json.
Variables source_field target_field : string.
Variable index_override : option string.

(** The lines the pairs of a generator add to [to_update], in order:
    two for each pair that has a text. *)
Fixpoint produced (ds : docs) : list string :=
  match ds with
  | Yield meta src next =>
      match embed_pair encode source_field target_field index_override
              meta src with
      | Ok (Some lines) => lines ++ produced next
      | _ => produced next
      end
  | Stop | Throw _ => []
  end.

(** The index name of a pair: the one given on the command line, else
    the one under ["_index"] of the action. *)
Definition index_name (m : dict) : json :=
  match index_override with
  | Some o =>
      if is_empty o then BulkView.get_default "_index" JNull m else JStr o
  | None => BulkView.get_default "_index" JNull m
  end.

Definition index_known (m : dict) : bool :=
  match index_override with
  | Some o => negb (is_empty o) || dict_mem "_index" m
  | None => dict_mem "_index" m
  end.

(** An action/source pair as the specification has it: the action is
    an object whose ["index"] is an object that gives the index name,
    unless the command line does; the source is an object whose text,
    if it has one, is a string. *)
Definition merge_input (p : json * json) : bool :=
  match fst p, snd p with
  | JDict meta, JDict src =>
      match dict_get "index" meta with
      | Some (JDict m) =>
          index_known m
          && match dict_get source_field src with
             | None | Some (JStr _) => true
             | Some _ => false
             end
      | _ => false
      end
  | _, _ => false
  end.

(** The lines the specification has the embedding-merge mode emit for
    a pair: none when the text is absent or empty; without an [_id], an
    index action and the source with the vector under the target
    field; with an [_id], a partial update for that [_id] and a
    document that holds the vector alone. *)
Definition merged (p : json * json) : list string :=
  match fst p, snd p with
  | JDict meta, JDict src =>
      match dict_get "index" meta, dict_get source_field src with
      | Some (JDict m), Some (JStr (String c t)) =>
          let vector := encode (String c t) in
          match dict_get "_id" m with
          | None =>
              [dumps true
                 (JDict [("index", JDict [("_index", index_name m)])]);
               dumps false (JDict (dict_set target_field vector src))]
          | Some id =>
              [dumps true
                 (JDict [("update",
                          JDict [("_index", index_name m);
                                 ("_id", id)])]);
               dumps true
                 (JDict [("doc", JDict [(target_field, vector)])])]
          end
      | _, _ => []
      end
  | _, _ => []
  end.

End Produced.

(** The lines of a file of three pairs: a chunk, a chunk without text
    and a book summary, which has an [_id]. *)
Definition merge_pairs : list (json * json) :=
  [(JDict EscliView.chunk_meta, JDict EscliView.filled_chunk);
   (JDict EscliView.chunk_meta, JDict EscliView.empty_chunk);
   (JDict EscliView.book_meta, JDict EscliView.book_summary)].

Definition merge_lines : list string :=
  TextFile.readlines
    (TextFile.ndjson_text (flat_map RequestsView.pair_lines merge_pairs)).

(** The lines of three chunk pairs, the second one without text, and the
    run over them. *)
Definition sample_lines : list string :=
  TextFile.readlines
    (TextFile.ndjson_text
       (flat_map RequestsView.pair_lines
          [(JDict EscliView.chunk_meta, JDict EscliView.filled_chunk);
           (JDict EscliView.chunk_meta, JDict EscliView.empty_chunk);
           (JDict EscliView.chunk_meta, JDict EscliView.filled_chunk)])).

Definition sample_run : run :=
  embed_from_ndjson EscliView.sample_encode EscliView.always_accepts
    "text" "text_vector" None sample_lines.

End EmbedView.


(* ================================================================== *)
(** * Properties of the JSON codec *)

Section JsonCodec.

Import JsonView.


Lemma append_assoc (a b c : string) : ((a ++ b) ++ c = a ++ (b ++ c))%string.
Proof. induction a; simpl; congruence. Qed.

Lemma parse_str_escape_char ea c tail :
parse_str (escape_char ea c ++ tail) = cons_char c (parse_str tail).
Proof.
destruct ea; destruct c as [[] [] [] [] [] [] [] []]; reflexivity.
Qed.

Lemma parse_str_escape ea s rest :
parse_str (escape ea s ++ String dquote rest) = Some (s, rest).
Proof.
induction s as [|c s IH]; [reflexivity|].
simpl escape. rewrite append_assoc, parse_str_escape_char, IH. reflexivity.
Qed.


Lemma follows_value_ends_number rest :
follows_value rest = true -> ends_number rest = true.
Proof.
destruct rest as [|c r]; [reflexivity|]. simpl.
destruct c as [[] [] [] [] [] [] [] []]; simpl; try discriminate; reflexivity.
Qed.

Lemma ends_number_no_digit rest :
ends_number rest = true -> read_digits rest = (Decimal.Nil, rest).
Proof.
destruct rest as [|c r]; [reflexivity|]. cbn [ends_number read_digits].
destruct (isdigit c); [discriminate|reflexivity].
Qed.

Lemma read_digits_string_of_uint d rest :
read_digits rest = (Decimal.Nil, rest) ->
read_digits (NilEmpty.string_of_uint d ++ rest) = (d, rest).
Proof.
intros H. induction d; simpl; try assumption; rewrite IHd; reflexivity.
Qed.

Lemma to_uint_normal n : Decimal.unorm (N.to_uint n) = N.to_uint n.
Proof.
rewrite <- (DecimalN.Unsigned.to_of (N.to_uint n)).
now rewrite DecimalN.Unsigned.of_to.
Qed.

Lemma to_uint_nonnil n : N.to_uint n <> Decimal.Nil.
Proof.
rewrite <- to_uint_normal. apply unorm_nonnil.
Qed.

Lemma uint_eqb_refl d : uint_eqb d d = true.
Proof. unfold uint_eqb. destruct (Decimal.uint_eq_dec d d); congruence. Qed.

(** ** The scanner of numbers reads what is before the end of a number *)

Lemma read_digits_local s rest :
ends_number rest = true ->
read_digits (s ++ rest)
= (fst (read_digits s), (snd (read_digits s) ++ rest)%string).
Proof.
intros H. induction s as [|c s IH]; cbn [append read_digits].
- now rewrite ends_number_no_digit.
- destruct (isdigit c); [|reflexivity].
  rewrite IH. destruct (read_digits s) as (d, r). cbn [fst snd].
  destruct (uint_of_char c (Some d)); reflexivity.
Qed.

Lemma scan_int_local s rest i r :
ends_number rest = true -> scan_int s = Some (i, r) ->
scan_int (s ++ rest) = Some (i, (r ++ rest)%string).
Proof.
intros H. destruct s as [|c s]; [discriminate|].
unfold scan_int. rewrite (read_digits_local (String c s) rest H).
destruct (read_digits (String c s)) as (d, r0). cbn [fst snd].
destruct d; try discriminate;
  match goal with
  | |- context [uint_eqb ?a ?b] => destruct (uint_eqb a b)
  end; intros E; inversion E; subst; reflexivity.
Qed.

Lemma scan_frac_local s rest :
ends_number rest = true ->
scan_frac (s ++ rest)
= (fst (scan_frac s), (snd (scan_frac s) ++ rest)%string).
Proof.
intros H. destruct s as [|c s].
- cbn [append]. destruct rest as [|c r]; [reflexivity|].
  cbn [scan_frac fst snd append].
  destruct (Ascii.eqb c ".") eqn:E; [|reflexivity].
  apply Ascii.eqb_eq in E. subst. discriminate.
- cbn [append scan_frac]. destruct (Ascii.eqb c "."); [|reflexivity].
  rewrite (read_digits_local s rest H).
  destruct (read_digits s) as (d, r). cbn [fst snd].
  destruct d; reflexivity.
Qed.

Lemma scan_sign_local s rest :
ends_number rest = true ->
(s = EmptyString /\ scan_sign (s ++ rest) = (false, rest))
\/ scan_sign (s ++ rest)
   = (fst (scan_sign s), (snd (scan_sign s) ++ rest)%string).
Proof.
intros H. destruct s as [|c s].
- left. split; [reflexivity|]. cbn [append].
  destruct rest as [|c r]; [reflexivity|]. cbn [scan_sign].
  destruct (Ascii.eqb c "-") eqn:E1.
  { apply Ascii.eqb_eq in E1. subst. discriminate. }
  destruct (Ascii.eqb c "+") eqn:E2; [|reflexivity].
  apply Ascii.eqb_eq in E2. subst. discriminate.
- right. cbn [append scan_sign].
  destruct (Ascii.eqb c "-"); [reflexivity|].
  destruct (Ascii.eqb c "+"); reflexivity.
Qed.

Lemma scan_exp_local s rest :
ends_number rest = true ->
scan_exp (s ++ rest)
= (fst (scan_exp s), (snd (scan_exp s) ++ rest)%string).
Proof.
intros H. destruct s as [|c s].
- cbn [append]. destruct rest as [|c r]; [reflexivity|].
  cbn [scan_exp fst snd append].
  destruct (Ascii.eqb c "e") eqn:E1.
  { apply Ascii.eqb_eq in E1. subst. discriminate. }
  destruct (Ascii.eqb c "E") eqn:E2; [|reflexivity].
  apply Ascii.eqb_eq in E2. subst. discriminate.
- cbn [append scan_exp].
  destruct (Ascii.eqb c "e" || Ascii.eqb c "E"); [|reflexivity].
  destruct (scan_sign_local s rest H) as [(-> & E) | E]; rewrite E.
  + cbn [scan_sign]. rewrite (ends_number_no_digit rest H). reflexivity.
  + destruct (scan_sign s) as (n, r1). cbn [fst snd].
    rewrite (read_digits_local r1 rest H).
    destruct (read_digits r1) as (d, r). cbn [fst snd].
    destruct d; reflexivity.
Qed.

Lemma parse_number_local s rest v r :
ends_number rest = true -> parse_number s = Some (v, r) ->
parse_number (s ++ rest) = Some (v, (r ++ rest)%string).
Proof.
intros H. destruct s as [|c s]; [discriminate|].
unfold parse_number. cbn [append].
assert (L : forall negative s1,
           match scan_int s1 with
           | Some (i, s2) =>
               let (f, s3) := scan_frac s2 in
               let (x, s4) := scan_exp s3 in
               Some (match f, x with
                     | None, None => JInt (signed negative (N.of_uint i))
                     | _, _ => JFloat (float_of negative i f x)
                     end, s4)
           | None => None
           end = Some (v, r) ->
           match scan_int (s1 ++ rest) with
           | Some (i, s2) =>
               let (f, s3) := scan_frac s2 in
               let (x, s4) := scan_exp s3 in
               Some (match f, x with
                     | None, None => JInt (signed negative (N.of_uint i))
                     | _, _ => JFloat (float_of negative i f x)
                     end, s4)
           | None => None
           end = Some (v, (r ++ rest)%string)).
{ intros negative s1.
  destruct (scan_int s1) as [(i, s2)|] eqn:E; [|discriminate].
  rewrite (scan_int_local s1 rest i s2 H E).
  rewrite (scan_frac_local s2 rest H).
  destruct (scan_frac s2) as (f, s3). cbn [fst snd].
  rewrite (scan_exp_local s3 rest H).
  destruct (scan_exp s3) as (x, s4). cbn [fst snd].
  intros E'. inversion E'. reflexivity. }
destruct (Ascii.eqb c "-").
- apply L.
- apply (L false (String c s)).
Qed.

Lemma startswith_app p s rest :
startswith p s = true -> startswith p (s ++ rest) = true.
Proof.
revert s. induction p as [|a p IH]; intros s; [reflexivity|].
destruct s as [|b s]; [discriminate|]. cbn [startswith append].
intros E. apply andb_true_iff in E as [-> E]. now rewrite IH.
Qed.

Lemma drop_app p s rest :
startswith p s = true ->
drop (String.length p) (s ++ rest) = (drop (String.length p) s ++ rest)%string.
Proof.
revert s. induction p as [|a p IH]; intros s; [reflexivity|].
destruct s as [|b s]; [discriminate|]. cbn [startswith append String.length drop].
intros E. apply andb_true_iff in E as [_ E]. now apply IH.
Qed.

Lemma startswith_first a p s :
startswith (String a p) s = true ->
exists s', s = String a s' /\ startswith p s' = true.
Proof.
destruct s as [|b s]; [discriminate|]. cbn [startswith].
intros E. apply andb_true_iff in E as [E0 E].
apply Ascii.eqb_eq in E0. subst. eauto.
Qed.

Lemma parse_constant_local s rest v r :
parse_constant s = Some (v, r) ->
parse_number (s ++ rest) = None
/\ parse_constant (s ++ rest) = Some (v, (r ++ rest)%string).
Proof.
unfold parse_constant.
destruct (startswith "NaN" s) eqn:E1.
{ intros E'. inversion E'; subst.
  rewrite (startswith_app _ _ rest E1).
  change 3 with (String.length "NaN"). rewrite (drop_app _ _ rest E1).
  destruct (startswith_first _ _ _ E1) as (s' & -> & _).
  split; reflexivity. }
destruct (startswith "Infinity" s) eqn:E2.
{ intros E'. inversion E'; subst.
  change 8 with (String.length "Infinity").
  rewrite (drop_app _ _ rest E2).
  pose proof (startswith_app _ _ rest E2) as A2.
  destruct (startswith_first _ _ _ E2) as (s' & -> & _).
  split; [reflexivity|].
  change (startswith "NaN" (String "I" s' ++ rest)) with false.
  cbv iota. now rewrite A2. }
destruct (startswith "-Infinity" s) eqn:E3; [|discriminate].
intros E'. inversion E'; subst.
change 9 with (String.length "-Infinity").
rewrite (drop_app _ _ rest E3).
pose proof (startswith_app _ _ rest E3) as A3.
destruct (startswith_first _ _ _ E3) as (s' & -> & E4).
destruct (startswith_first _ _ _ E4) as (s'' & -> & _).
split; [reflexivity|].
change (startswith "NaN" (String "-" (String "I" s'') ++ rest)) with false.
change (startswith "Infinity" (String "-" (String "I" s'') ++ rest))
  with false.
cbv iota. now rewrite A3.
Qed.

Lemma parse_literal_local s rest v r :
ends_number rest = true -> parse_literal s = Some (v, r) ->
parse_literal (s ++ rest) = Some (v, (r ++ rest)%string).
Proof.
intros H. unfold parse_literal.
destruct (parse_number s) as [(v0, r0)|] eqn:E.
- intros E'. inversion E'; subst.
  now rewrite (parse_number_local s rest v r H E).
- intros E'. destruct (parse_constant_local s rest v r E') as (-> & ->).
  reflexivity.
Qed.

(** ** Integers *)

(** The first character of a decimal numeral is a digit. *)
Lemma str_of_N_head n :
exists c r, str_of_N n = String c r /\ isdigit c = true.
Proof.
unfold str_of_N. pose proof (to_uint_nonnil n) as H.
destruct (N.to_uint n); try congruence; simpl; eauto.
Qed.

Lemma scan_int_str_of_N n rest :
ends_number rest = true ->
scan_int (str_of_N n ++ rest) = Some (N.to_uint n, rest).
Proof.
intros H. unfold scan_int, str_of_N.
rewrite read_digits_string_of_uint by now apply ends_number_no_digit.
rewrite to_uint_normal, uint_eqb_refl.
destruct (N.to_uint n) eqn:E; try reflexivity.
now apply to_uint_nonnil in E.
Qed.

Lemma scan_frac_end rest :
ends_number rest = true -> scan_frac rest = (None, rest).
Proof.
intros H. pose proof (scan_frac_local EmptyString rest H) as L.
exact L.
Qed.

Lemma scan_exp_end rest :
ends_number rest = true -> scan_exp rest = (None, rest).
Proof.
intros H. pose proof (scan_exp_local EmptyString rest H) as L.
exact L.
Qed.

Lemma parse_number_str_of_Z z rest :
ends_number rest = true ->
parse_number (str_of_Z z ++ rest) = Some (JInt z, rest).
Proof.
intros H.
assert (P : forall n,
           parse_number (str_of_N n ++ rest)
           = Some (JInt (Z.of_N n), rest)).
{ intros n. destruct (str_of_N_head n) as (c & r & E & D).
  pose proof (scan_int_str_of_N n rest H) as SI.
  rewrite E in *. cbn [append] in *. unfold parse_number.
  replace (Ascii.eqb c "-") with false
    by (destruct c as [[] [] [] [] [] [] [] []]; simpl in D;
        try discriminate; reflexivity).
  rewrite SI, (scan_frac_end rest H), (scan_exp_end rest H).
  cbn [signed]. now rewrite DecimalN.Unsigned.of_to. }
destruct z as [|p|p]; unfold str_of_Z.
- apply (P 0%N).
- apply (P (Npos p)).
- cbn [append]. unfold parse_number.
  change (Ascii.eqb "-" "-") with true. cbv iota.
  rewrite (scan_int_str_of_N (Npos p) rest H), (scan_frac_end rest H),
    (scan_exp_end rest H).
  cbn [signed]. now rewrite DecimalN.Unsigned.of_to.
Qed.

Lemma str_of_Z_head z :
exists c r, str_of_Z z = String c r /\ literal_start c = true.
Proof.
unfold literal_start.
destruct z as [|p|p]; unfold str_of_Z.
- destruct (str_of_N_head (Z.to_N 0)) as (c & r & E & D); rewrite E.
  exists c, r; now rewrite D.
- destruct (str_of_N_head (Z.to_N (Zpos p))) as (c & r & E & D); rewrite E.
  exists c, r; now rewrite D.
- eauto.
Qed.

(** ** Floats *)

Lemma float_eqb_eq x y : Float.eqb x y = true -> x = y.
Proof.
destruct x as [a|a| |a m e], y as [b|b| |b n f]; cbn; try discriminate;
  try reflexivity.
- intros E. apply Bool.eqb_prop in E. now subst.
- intros E. apply Bool.eqb_prop in E. now subst.
- intros E. apply andb_true_iff in E as [E E3].
  apply andb_true_iff in E as [E1 E2].
  apply Bool.eqb_prop in E1. apply Pos.eqb_eq in E2. apply Z.eqb_eq in E3.
  now subst.
Qed.

Lemma notation_head digits decpt :
(exists c r, digits = String c r /\ isdigit c = true) ->
exists c r, Float.notation digits decpt = String c r /\ isdigit c = true.
Proof.
intros (c & r & -> & D). unfold Float.notation.
destruct ((decpt <=? -4)%Z || (16 <? decpt)%Z); [eauto|].
destruct (decpt <=? 0)%Z; [|eauto].
cbn [append]. eauto.
Qed.

Lemma repr_finite_head s m e :
exists c r, Float.repr_finite s m e = String c r /\ literal_start c = true.
Proof.
unfold Float.repr_finite, Float.shortest.
destruct (Float.exact_decimal m e) as (d0, q0).
destruct (Float.shortest_from _ _ _ _ _ _ _) as (d1, q1).
destruct (Float.strip_zeros _ _ _) as (d, q).
destruct (notation_head (str_of_N d)
            (Z.of_nat (String.length (str_of_N d)) + q)
            (str_of_N_head d)) as (c & r & -> & D).
unfold literal_start. destruct s; cbn [Float.sign append].
- eauto.
- exists c, r. now rewrite D.
Qed.

Lemma dumps_float_head x :
exists c r, dumps_float x = String c r /\ literal_start c = true.
Proof.
destruct x as [s|s| |s m e]; cbn [dumps_float Float.repr].
- destruct s; cbn; eauto.
- destruct s; eauto.
- eauto.
- apply repr_finite_head.
Qed.

Lemma literal_start_value_start c :
literal_start c = true -> value_start c = true.
Proof.
destruct c as [[] [] [] [] [] [] [] []]; simpl; intros H;
  try discriminate; reflexivity.
Qed.

Lemma dumps_head ea v :
exists c r, dumps ea v = String c r /\ value_start c = true.
Proof.
destruct v as [|[]|z|x|s|l|d]; simpl;
  try (eexists; eexists; split; [reflexivity|reflexivity]).
- destruct (str_of_Z_head z) as (c & r & -> & D).
  exists c, r. split; [reflexivity|]. now apply literal_start_value_start.
- destruct (dumps_float_head x) as (c & r & -> & D).
  exists c, r. split; [reflexivity|]. now apply literal_start_value_start.
Qed.

Lemma value_start_facts c :
value_start c = true ->
is_json_ws c = false /\ Ascii.eqb "]" c = false /\ Ascii.eqb "}" c = false
/\ Ascii.eqb "," c = false /\ Ascii.eqb ":" c = false.
Proof.
destruct c as [[] [] [] [] [] [] [] []]; simpl; intros H;
  try discriminate; repeat split.
Qed.

Lemma skip_ws_dumps ea v rest :
skip_ws (dumps ea v ++ rest) = (dumps ea v ++ rest)%string.
Proof.
destruct (dumps_head ea v) as (c & r & E & S). rewrite E. simpl.
now destruct (value_start_facts c S) as (-> & _).
Qed.

Lemma first_is_dumps ea v rest c :
c = "]"%char \/ c = "}"%char \/ c = ","%char ->
first_is c (dumps ea v ++ rest) = false.
Proof.
destruct (dumps_head ea v) as (c' & r & E & S). rewrite E. simpl.
destruct (value_start_facts c' S) as (_ & A & B & C & _).
intros [-> | [-> | ->]]; assumption.
Qed.

(** A string that starts like a number is read by [parse_literal]. *)
Lemma parse_value_literal f c r :
literal_start c = true ->
parse_value (S f) (String c r) = parse_literal (String c r).
Proof.
destruct c as [[] [] [] [] [] [] [] []]; simpl; intros H;
  try discriminate; reflexivity.
Qed.

Lemma parse_literal_str_of_Z z rest :
ends_number rest = true ->
parse_literal (str_of_Z z ++ rest) = Some (JInt z, rest).
Proof.
intros H. unfold parse_literal.
now rewrite (parse_number_str_of_Z z rest H).
Qed.

(** A float that is a number of the format is read back from its text. *)
Lemma parse_literal_float x rest :
float_reads_back x = true -> ends_number rest = true ->
parse_literal (dumps_float x ++ rest) = Some (JFloat x, rest).
Proof.
unfold float_reads_back. intros W H.
destruct (parse_literal (dumps_float x)) as [(v, r)|] eqn:E;
  [|discriminate].
destruct v; try discriminate. destruct r; [|discriminate].
apply float_eqb_eq in W. subst.
now rewrite (parse_literal_local _ rest _ _ H E).
Qed.

Lemma join_cons sep x y l :
join sep (x :: y :: l) = (x ++ sep ++ join sep (y :: l))%string.
Proof. reflexivity. Qed.

Lemma join_map_head {A} (f : A -> string) sep v l :
exists tail, join sep (map f (v :: l)) = (f v ++ tail)%string.
Proof.
destruct l; simpl.
- exists EmptyString. induction (f v); simpl; congruence.
- eauto.
Qed.

Lemma skip_ws_elems ea v l rest :
skip_ws (join ", " (map (dumps ea) (v :: l)) ++ rest)
= (join ", " (map (dumps ea) (v :: l)) ++ rest)%string.
Proof.
destruct (join_map_head (dumps ea) ", " v l) as (tail & ->).
rewrite append_assoc. apply skip_ws_dumps.
Qed.


Lemma after_comma x :
first_is "," (", " ++ x) = true
/\ skip_ws (drop 1 (", " ++ x)%string) = skip_ws x.
Proof. split; reflexivity. Qed.

Lemma after_colon x :
skip_ws (": " ++ x) = (": " ++ x)%string
/\ first_is ":" (": " ++ x) = true
/\ skip_ws (drop 1 (": " ++ x)%string) = skip_ws x.
Proof. repeat split; reflexivity. Qed.

Lemma parse_elems_dumps ea v l :
Forall (reads_back ea) (v :: l) ->
forallb wf (v :: l) = true ->
forall fuel rest,
  elems_size (v :: l) <= fuel ->
  parse_elems fuel (join ", " (map (dumps ea) (v :: l)) ++ String "]" rest)
  = Some (v :: l, rest).
Proof.
revert v. induction l as [|v' l IH]; intros v HF HW fuel rest Hfuel.
- inversion_clear HF as [|? ? Hv _]. simpl in HW.
  rewrite andb_true_r in HW. unfold elems_size in Hfuel; simpl in Hfuel.
  destruct fuel as [|f]; [lia|]. simpl.
  rewrite (Hv HW f (String "]" rest)) by (reflexivity || lia).
  reflexivity.
- inversion_clear HF as [|? ? Hv HF'].
  simpl in HW. apply andb_true_iff in HW as [HWv HW].
  unfold elems_size in Hfuel. simpl in Hfuel.
  destruct fuel as [|f]; [lia|].
  simpl map. rewrite join_cons, !append_assoc.
  cbn [parse_elems].
  rewrite (Hv HWv f) by (reflexivity || lia).
  change (skip_ws ((", " ++ ?x)%string)) with (", " ++ x)%string.
  destruct (after_comma (join ", " (dumps ea v' :: map (dumps ea) l)
                           ++ String "]" rest)) as [-> ->].
  change (dumps ea v' :: map (dumps ea) l) with (map (dumps ea) (v' :: l)).
  rewrite skip_ws_elems, IH; try assumption; try reflexivity.
  unfold elems_size; simpl; lia.
Qed.

Lemma skip_ws_members ea kv d rest :
skip_ws (join ", " (map (member_str ea) (kv :: d)) ++ rest)
= (join ", " (map (member_str ea) (kv :: d)) ++ rest)%string.
Proof.
destruct (join_map_head (member_str ea) ", " kv d) as (tail & ->).
reflexivity.
Qed.

Lemma first_is_members ea kv d rest :
first_is "}" (join ", " (map (member_str ea) (kv :: d)) ++ rest) = false.
Proof.
destruct (join_map_head (member_str ea) ", " kv d) as (tail & ->).
reflexivity.
Qed.

Lemma first_is_elems ea v l rest :
first_is "]" (join ", " (map (dumps ea) (v :: l)) ++ rest) = false.
Proof.
destruct (join_map_head (dumps ea) ", " v l) as (tail & ->).
rewrite append_assoc. apply first_is_dumps. auto.
Qed.


Lemma parse_members_step ea f k v tail :
reads_back ea v -> wf v = true -> jsize v <= f ->
follows_value tail = true ->
parse_members (S f) (member_str ea (k, v) ++ tail)
= if first_is "," (skip_ws tail) then
    match parse_members f (skip_ws (drop 1 (skip_ws tail))) with
    | Some (l, rest) => Some ((k, v) :: l, rest)
    | None => None
    end
  else if first_is "}" (skip_ws tail)
       then Some ([(k, v)], drop 1 (skip_ws tail))
       else None.
Proof.
intros Hv HW Hf Ht.
unfold member_str, dumps_str. simpl fst. simpl snd.
rewrite !append_assoc.
cbn [parse_members first_is append].
change (Ascii.eqb dquote dquote) with true. cbv iota.
change (drop 1 (String dquote ?x)) with x.
rewrite !append_assoc. cbn [append]. rewrite parse_str_escape.
match goal with
| |- context [skip_ws (String ":" (String " " ?x))] =>
    destruct (after_colon x) as (A & B & C);
    cbn [append] in A, B, C; rewrite A, B, C
end.
rewrite skip_ws_dumps, (Hv HW f tail) by assumption.
reflexivity.
Qed.

Lemma parse_members_dumps ea kv d :
Forall (fun kv => reads_back ea (snd kv)) (kv :: d) ->
forallb (fun kv => wf (snd kv)) (kv :: d) = true ->
forall fuel rest,
  members_size (kv :: d) <= fuel ->
  parse_members fuel
    (join ", " (map (member_str ea) (kv :: d)) ++ String "}" rest)
  = Some (kv :: d, rest).
Proof.
revert kv. induction d as [|kv' d IH]; intros [k v] HF HW fuel rest Hfuel.
- inversion_clear HF as [|? ? Hv _]. simpl in HW, Hv.
  rewrite andb_true_r in HW. unfold members_size in Hfuel; simpl in Hfuel.
  destruct fuel as [|f]; [lia|].
  simpl map. unfold join, String.concat.
  rewrite parse_members_step by (assumption || reflexivity || lia).
  reflexivity.
- inversion_clear HF as [|? ? Hv HF']. simpl in Hv.
  simpl in HW. apply andb_true_iff in HW as [HWv HW].
  unfold members_size in Hfuel. simpl in Hfuel.
  destruct fuel as [|f]; [lia|].
  simpl map. rewrite join_cons, !append_assoc.
  rewrite parse_members_step by (assumption || reflexivity || lia).
  change (skip_ws ((", " ++ ?x)%string)) with (", " ++ x)%string.
  match goal with
  | |- context [first_is "," (", " ++ ?x)] =>
      destruct (after_comma x) as [-> ->]
  end.
  change (member_str ea kv' :: map (member_str ea) d)
    with (map (member_str ea) (kv' :: d)).
  rewrite skip_ws_members, IH; try assumption; try reflexivity.
  unfold members_size; simpl; lia.
Qed.

(** Building a dictionary from pairs with distinct keys changes nothing. *)
Lemma dict_mem_app k d d' :
dict_mem k (d ++ d') = dict_mem k d || dict_mem k d'.
Proof.
induction d as [|[k' v'] d IH]; simpl; [reflexivity|].
now rewrite IH, orb_assoc.
Qed.

Lemma dict_set_fresh k v d :
dict_mem k d = false -> dict_set k v d = d ++ [(k, v)].
Proof.
induction d as [|[k' v'] d IH]; simpl; [reflexivity|].
intros H. apply orb_false_iff in H as [-> H]. now rewrite IH.
Qed.

Lemma dict_mem_existsb k d :
dict_mem k d = existsb (String.eqb k) (map fst d).
Proof.
induction d as [|[k' v'] d IH]; simpl; [reflexivity|]. now rewrite IH.
Qed.

Lemma fold_dict_set_distinct l acc :
distinct (map fst l) = true ->
(forall k, dict_mem k acc = true -> dict_mem k l = false) ->
fold_left (fun d kv => dict_set (fst kv) (snd kv) d) l acc = acc ++ l.
Proof.
revert acc. induction l as [|[k v] l IH]; intros acc HD HA; simpl.
- now rewrite List.app_nil_r.
- simpl in HD. apply andb_true_iff in HD as [Hk HD].
  apply negb_true_iff in Hk. rewrite <- dict_mem_existsb in Hk.
  assert (dict_mem k acc = false) as Hacc.
  { destruct (dict_mem k acc) eqn:E; [|reflexivity].
    apply HA in E. simpl in E. now rewrite String.eqb_refl in E. }
  rewrite dict_set_fresh by assumption.
  rewrite IH; [now rewrite <- List.app_assoc|assumption|].
  intros k0 H0. rewrite dict_mem_app in H0. apply orb_true_iff in H0 as [H0|H0].
  + apply HA in H0. simpl in H0. now apply orb_false_iff in H0.
  + simpl in H0. rewrite orb_false_r in H0. apply String.eqb_eq in H0.
    now subst.
Qed.

Lemma dict_of_pairs_distinct l :
distinct (map fst l) = true -> dict_of_pairs l = l.
Proof.
intros H. unfold dict_of_pairs.
now rewrite fold_dict_set_distinct.
Qed.

Theorem parse_value_dumps ea v : reads_back ea v.
Proof.
induction v using json_induction; intros HW fuel rest Hfuel Hrest;
  (destruct fuel as [|f]; [simpl in Hfuel; lia|]).
- reflexivity.
- destruct b; reflexivity.
- destruct (str_of_Z_head z) as (c & r & E & D).
  simpl dumps.
  pose proof (parse_literal_str_of_Z z rest
                (follows_value_ends_number rest Hrest)) as PI.
  rewrite E in *. cbn [append] in *.
  now rewrite parse_value_literal.
- destruct (dumps_float_head x) as (c & r & E & D).
  cbn [dumps wf] in *.
  pose proof (parse_literal_float x rest HW
                (follows_value_ends_number rest Hrest)) as PF.
  rewrite E in *. cbn [append] in *.
  now rewrite parse_value_literal.
- simpl dumps. unfold dumps_str.
  cbn [parse_value first_is append].
  change (Ascii.eqb dquote dquote) with true. cbv iota.
  change (drop 1 (String dquote ?x)) with x.
  rewrite append_assoc. cbn [append].
  now rewrite parse_str_escape.
- destruct l as [|v l]; [reflexivity|].
  simpl in HW, Hfuel.
  cbn [dumps]. 
  cbn [parse_value first_is append].
  change (Ascii.eqb dquote "[") with false.
  change (Ascii.eqb "{" "[") with false.
  change (Ascii.eqb "[" "[") with true. cbv iota.
  change (drop 1 (String "[" ?x)) with x.
  rewrite append_assoc. cbn [append].
  rewrite skip_ws_elems, first_is_elems, parse_elems_dumps;
    try assumption; try reflexivity.
  unfold elems_size. simpl. lia.
- destruct d as [|kv d]; [reflexivity|].
  simpl in Hfuel. cbn [wf] in HW. apply andb_true_iff in HW as [HD HW].
  cbn [dumps].
  cbn [parse_value first_is append].
  change (Ascii.eqb dquote "{") with false.
  change (Ascii.eqb "{" "{") with true. cbv iota.
  change (drop 1 (String "{" ?x)) with x.
  rewrite append_assoc. cbn [append].
  change (map _ (kv :: d)) with (map (member_str ea) (kv :: d)).
  rewrite skip_ws_members, first_is_members, parse_members_dumps;
    try assumption; try reflexivity.
  + now rewrite dict_of_pairs_distinct.
  + unfold members_size. simpl. lia.
Qed.


Lemma length_append (a b : string) :
String.length (a ++ b) = String.length a + String.length b.
Proof. induction a; simpl; congruence. Qed.

Lemma append_empty_r (a : string) : (a ++ EmptyString)%string = a.
Proof. induction a; simpl; congruence. Qed.

Lemma join_length_bound {A} (f : A -> string) (g : A -> nat) (l : list A) :
Forall (fun x => g x <= String.length (f x) + 1) l ->
list_sum (map g l) <= String.length (join ", " (map f l)) + 1.
Proof.
induction 1 as [|x l Hx Hl IH]; [simpl; lia|].
destruct l as [|y l].
- unfold join. cbn [map String.concat list_sum fold_right]. lia.
- cbn [map] in *. rewrite join_cons, !length_append.
  cbn [list_sum fold_right] in *. change (String.length ", ") with 2. lia.
Qed.

Lemma elems_size_length ea (l : list json) :
Forall (fun v => jsize v <= String.length (dumps ea v)) l ->
elems_size l <= String.length (join ", " (map (dumps ea) l)) + 1.
Proof.
intros H. apply join_length_bound.
eapply Forall_impl; [|exact H]. simpl; intros; lia.
Qed.

Lemma members_size_length ea (d : dict) :
Forall (fun kv => jsize (snd kv) <= String.length (dumps ea (snd kv))) d ->
members_size d <= String.length (join ", " (map (member_str ea) d)) + 1.
Proof.
intros H. apply join_length_bound.
eapply Forall_impl; [|exact H]. simpl; intros kv Hkv.
unfold member_str. rewrite !length_append. cbn [String.length]. lia.
Qed.

Lemma jsize_length ea v : jsize v <= String.length (dumps ea v).
Proof.
induction v using json_induction.
- simpl; lia.
- destruct b; simpl; lia.
- destruct (dumps_head ea (JInt z)) as (c & r & -> & _). simpl; lia.
- destruct (dumps_head ea (JFloat x)) as (c & r & -> & _). simpl; lia.
- simpl; lia.
- cbn [jsize dumps]. fold (elems_size l).
  pose proof (elems_size_length ea l H).
  rewrite !length_append. simpl String.length. lia.
- cbn [jsize dumps]. fold (members_size d).
  pose proof (members_size_length ea d H).
  change (map _ d) with (map (member_str ea) d).
  rewrite !length_append. simpl String.length. lia.
Qed.

(** [json.loads(json.dumps(v))] is [v]. *)
Theorem loads_dumps ea v : wf v = true -> loads (dumps ea v) = Ok v.
Proof.
intros HW. unfold loads.
rewrite <- (append_empty_r (dumps ea v)) at 2.
rewrite skip_ws_dumps.
rewrite (parse_value_dumps ea v HW); [reflexivity| |reflexivity].
apply jsize_length.
Qed.

End JsonCodec.


(* ================================================================== *)
(** * Properties of the chunk serialiser *)

Section ChunkSerializer.

Import ConvertJson BulkView.

Lemma paragraphs_loop_eq ic bid ch ci paras :
  forall pi seq actions,
    paragraphs_loop ic bid ch ci paras pi seq actions
    = (seq + length paras,
       actions
         ++ flat_map (chunk_pair ic) (paragraph_docs bid ch ci paras pi seq)).
Proof.
  induction paras as [|p paras IH]; intros pi seq actions; simpl.
  - now rewrite Nat.add_0_r, List.app_nil_r.
  - rewrite IH, <- List.app_assoc. f_equal. lia.
Qed.

Lemma chapters_loop_eq ic bid chs :
  forall ci seq actions,
    chapters_loop ic bid chs ci seq actions
    = match chapter_views chs with
      | Ok vs =>
          Ok (actions ++ flat_map (chunk_pair ic) (chunk_docs bid vs ci seq))
      | Raise e => Raise e
      end.
Proof.
  induction chs as [|ch chs IH]; intros ci seq actions; simpl.
  - now rewrite List.app_nil_r.
  - unfold chapter_view.
    destruct (py_get ch "chapter" JNull) as [chapter|e]; [|reflexivity].
    simpl.
    destruct (py_get ch "paragraphs" (JList [])) as [pv|e]; [|reflexivity].
    simpl.
    destruct (py_iter pv) as [paras|e]; [|reflexivity].
    simpl. rewrite paragraphs_loop_eq, IH.
    destruct (chapter_views chs) as [vs|e]; [|reflexivity].
    simpl. now rewrite flat_map_app, List.app_assoc.
Qed.

Lemma book_doc_of_dict b : book_doc_of (JDict b) = Ok (summary b).
Proof. reflexivity. Qed.

(** [to_bulk_actions] on a dictionary: the book pair, then one pair for
    each paragraph; an exception exactly where the iteration over the
    chapters raises one. *)
Lemma to_bulk_actions_eq b ib ic :
  to_bulk_actions (JDict b) ib ic
  = match chapters_of (JDict b) with
    | Ok vs =>
        Ok (book_pair ib b
              ++ flat_map (chunk_pair ic)
                   (chunk_docs (get_default "book_id" JNull b) vs 0 0))
    | Raise e => Raise e
    end.
Proof.
  unfold to_bulk_actions, chapters_of.
  rewrite book_doc_of_dict. simpl.
  destruct (py_iter _) as [chs|e]; [|reflexivity].
  simpl. now rewrite chapters_loop_eq.
Qed.

Lemma to_bulk_actions_not_dict v ib ic :
  (forall d, v <> JDict d) ->
  to_bulk_actions v ib ic = Raise AttributeError.
Proof.
  intros H. destruct v; try reflexivity. now destruct (H d).
Qed.

Lemma paragraph_docs_length bid ch ci paras :
  forall pi seq, length (paragraph_docs bid ch ci paras pi seq) = length paras.
Proof. induction paras; intros; simpl; [reflexivity|now rewrite IHparas]. Qed.

Lemma chunk_docs_length bid vs :
  forall ci seq, length (chunk_docs bid vs ci seq) = paragraph_count vs.
Proof.
  unfold paragraph_count.
  induction vs as [|[ch paras] vs IH]; intros; simpl; [reflexivity|].
  now rewrite length_app, paragraph_docs_length, IH.
Qed.

Lemma paragraph_docs_ids bid ch ci paras :
  forall pi s,
    map chunk_id_of (paragraph_docs bid ch ci paras pi s)
    = map (chunk_id bid) (seq s (length paras)).
Proof.
  induction paras; intros; simpl; [reflexivity|]. now rewrite IHparas.
Qed.

Lemma chunk_docs_ids bid vs :
  forall ci s,
    map chunk_id_of (chunk_docs bid vs ci s)
    = map (chunk_id bid) (seq s (paragraph_count vs)).
Proof.
  unfold paragraph_count.
  induction vs as [|[ch paras] vs IH]; intros; simpl; [reflexivity|].
  rewrite map_app, paragraph_docs_ids, IH, seq_app, map_app.
  reflexivity.
Qed.

Lemma paragraph_docs_texts bid ch ci paras :
  forall pi s, map text_of (paragraph_docs bid ch ci paras pi s) = paras.
Proof.
  induction paras; intros; simpl; [reflexivity|]. now rewrite IHparas.
Qed.

Lemma chunk_docs_texts bid vs :
  forall ci s,
    map text_of (chunk_docs bid vs ci s) = concat (map snd vs).
Proof.
  induction vs as [|[ch paras] vs IH]; intros; simpl; [reflexivity|].
  now rewrite map_app, paragraph_docs_texts, IH.
Qed.

Lemma concat_empty_cons x l :
  String.concat EmptyString (x :: l)
  = (x ++ String.concat EmptyString l)%string.
Proof.
  destruct l; simpl; [now rewrite append_empty_r|reflexivity].
Qed.

Lemma repeat_zero_length k :
  String.length (String.concat EmptyString (repeat "0" k)) = k.
Proof.
  induction k as [|k IH]; [reflexivity|].
  change (repeat "0" (S k)) with ("0" :: repeat "0" k).
  rewrite concat_empty_cons, length_append, IH. reflexivity.
Qed.

(** The width of the sequence number: at least six, more when the number
    needs more. *)
Lemma format_06d_length n :
  String.length (format_06d n)
  = Nat.max 6 (String.length (str_of_N (N.of_nat n))).
Proof.
  unfold format_06d. rewrite length_append, repeat_zero_length. lia.
Qed.

End ChunkSerializer.


(* ================================================================== *)
(** * Properties of the bulk encoder *)

Section BulkEncoder.

Import ConvertJson BulkView.

(** ** Well-formed values stay well-formed *)

Lemma wf_dict_get k d v :
  wf (JDict d) = true -> dict_get k d = Some v -> wf v = true.
Proof.
  cbn [wf]. intros H. apply andb_true_iff in H as [_ H].
  induction d as [|[k' v'] d IH]; simpl in *; [discriminate|].
  apply andb_true_iff in H as [Hv Hd].
  destruct (String.eqb k k'); [intros [= <-]; assumption|auto].
Qed.

Lemma wf_get_default k def d :
  wf (JDict d) = true -> wf def = true -> wf (get_default k def d) = true.
Proof.
  intros Hd Hdef. unfold get_default.
  destruct (dict_get k d) eqn:E; [eapply wf_dict_get; eauto|assumption].
Qed.

Lemma wf_py_get v k def x :
  wf v = true -> wf def = true -> py_get v k def = Ok x -> wf x = true.
Proof.
  destruct v; try discriminate. intros Hd Hdef [= <-].
  now apply wf_get_default.
Qed.

Lemma wf_py_iter v l :
  wf v = true -> py_iter v = Ok l -> forallb wf l = true.
Proof.
  destruct v; try discriminate; intros H [= <-].
  - generalize (chars s). intros l; induction l; simpl; auto.
  - exact H.
  - clear H. induction d; simpl; auto.
Qed.

Lemma wf_summary b : wf (JDict b) = true -> wf (summary b) = true.
Proof.
  intros H. unfold summary. cbn [wf map fst snd forallb distinct].
  rewrite !wf_get_default by (assumption || reflexivity).
  destruct (truthy (get_default "title" JNull b));
    destruct (truthy (get_default "author" JNull b)); cbn;
    rewrite ?wf_get_default by (assumption || reflexivity); reflexivity.
Qed.

Lemma wf_index_action idx id :
  wf idx = true ->
  match id with Some i => wf i = true | None => True end ->
  wf (index_action idx id) = true.
Proof.
  intros Hidx Hid. destruct id as [i|]; cbn; rewrite Hidx, ?Hid; reflexivity.
Qed.

Lemma wf_chunk_doc bid ch ci pi seq para :
  wf bid = true -> wf ch = true -> wf para = true ->
  wf (chunk_doc bid ch ci pi seq para) = true.
Proof. intros H1 H2 H3. cbn. now rewrite H1, H2, H3. Qed.

Lemma wf_chapter_views chs :
  forallb wf chs = true ->
  forall vs, chapter_views chs = Ok vs -> wf_views vs = true.
Proof.
  induction chs as [|ch chs IH]; simpl; intros H vs E.
  - now inversion E.
  - apply andb_true_iff in H as [Hch H].
    unfold chapter_view in E.
    destruct (py_get ch "chapter" JNull) as [c|] eqn:E1; [|discriminate].
    simpl in E.
    destruct (py_get ch "paragraphs" (JList [])) as [pv|] eqn:E2;
      [|discriminate].
    simpl in E. destruct (py_iter pv) as [paras|] eqn:E3; [|discriminate].
    simpl in E. destruct (chapter_views chs) as [vs'|]; [|discriminate].
    inversion E; subst. simpl.
    rewrite (IH H vs' eq_refl), andb_true_r.
    apply andb_true_iff; split.
    + now apply (wf_py_get ch "chapter" JNull).
    + apply (wf_py_iter pv); [|assumption].
      now apply (wf_py_get ch "paragraphs" (JList [])).
Qed.

Lemma wf_chapters_of b vs :
  wf (JDict b) = true -> chapters_of (JDict b) = Ok vs -> wf_views vs = true.
Proof.
  intros H E. unfold chapters_of in E. simpl in E.
  destruct (py_iter _) as [chs|] eqn:E1; [|discriminate].
  simpl in E. eapply wf_chapter_views; [|eauto].
  eapply wf_py_iter; [|exact E1]. now apply wf_get_default.
Qed.

Lemma wf_paragraph_docs bid ch ci paras :
  wf bid = true -> wf ch = true -> forallb wf paras = true ->
  forall pi seq, forallb wf (paragraph_docs bid ch ci paras pi seq) = true.
Proof.
  intros H1 H2. induction paras as [|p paras IH]; intros H pi seq;
    [reflexivity|].
  simpl in H. apply andb_true_iff in H as [Hp H].
  cbn [paragraph_docs forallb].
  now rewrite wf_chunk_doc, IH.
Qed.

Lemma wf_chunk_docs bid vs :
  wf bid = true -> wf_views vs = true ->
  forall ci seq, forallb wf (chunk_docs bid vs ci seq) = true.
Proof.
  intros H1. induction vs as [|[ch paras] vs IH]; intros H ci seq;
    [reflexivity|].
  simpl in H. apply andb_true_iff in H as [Hc H].
  apply andb_true_iff in Hc as [Hch Hp].
  cbn [chunk_docs]. rewrite forallb_app, wf_paragraph_docs, IH; auto.
Qed.

End BulkEncoder.


Section Routing.

Import ConvertJson BulkView.

Variables index_books index_content : string.

Lemma route_book_pair id src rest st :
  wf id = true ->
  route index_books index_content
    (dumps true (index_action (JStr index_books) (Some id)) :: src :: rest) st
  = route index_books index_content rest
      (Streams
         (books_lines st
            ++ [dumps true (index_action (JStr index_books) (Some id)); src])
         (content_lines st)).
Proof.
  intros H. cbn [route].
  rewrite loads_dumps by (apply wf_index_action; [reflexivity|assumption]).
  cbn. now rewrite String.eqb_refl.
Qed.

Lemma route_chunk_pair doc rest st :
  route index_books index_content
    (chunk_pair index_content doc ++ rest) st
  = route index_books index_content rest
      (if String.eqb index_books index_content
       then Streams (books_lines st ++ chunk_pair index_content doc)
                    (content_lines st)
       else Streams (books_lines st)
                    (content_lines st ++ chunk_pair index_content doc)).
Proof.
  unfold chunk_pair. cbn [app route].
  rewrite loads_dumps by reflexivity.
  cbn. now destruct (String.eqb index_books index_content).
Qed.

Lemma route_chunk_pairs docs :
  forall st,
    route index_books index_content
      (flat_map (chunk_pair index_content) docs) st
    = (if String.eqb index_books index_content
       then Streams
              (books_lines st ++ flat_map (chunk_pair index_content) docs)
              (content_lines st)
       else Streams
              (books_lines st)
              (content_lines st ++ flat_map (chunk_pair index_content) docs),
       None).
Proof.
  induction docs as [|doc docs IH]; intros st.
  - simpl. rewrite !List.app_nil_r.
    now destruct (String.eqb index_books index_content), st.
  - cbn [flat_map]. rewrite route_chunk_pair, IH.
    destruct (String.eqb index_books index_content); cbn;
      now rewrite <- !List.app_assoc.
Qed.

(** The lines of one document go to their streams, whole and in order. *)
Lemma route_to_bulk_actions b actions st :
  wf (JDict b) = true ->
  to_bulk_actions (JDict b) index_books index_content = Ok actions ->
  route index_books index_content actions st
  = (Streams
       (books_lines st
          ++ fst (emitted index_books index_content (JDict b)))
       (content_lines st
          ++ snd (emitted index_books index_content (JDict b))),
     None).
Proof.
  intros HW E. unfold emitted. rewrite E.
  rewrite to_bulk_actions_eq in E.
  destruct (chapters_of (JDict b)) as [vs|]; [|discriminate].
  assert (actions
          = book_pair index_books b
              ++ flat_map (chunk_pair index_content)
                   (chunk_docs (get_default "book_id" JNull b) vs 0 0))
    as -> by congruence.
  clear E. unfold book_pair. cbn [app].
  rewrite route_book_pair by (apply wf_get_default; auto).
  rewrite route_chunk_pairs. cbn [books_lines content_lines firstn skipn].
  destruct (String.eqb index_books index_content); cbn [fst snd];
    now rewrite <- ?List.app_assoc, ?List.app_nil_r.
Qed.

Lemma emitted_not_dict v :
  (forall d, v <> JDict d) ->
  emitted index_books index_content v = ([], []).
Proof.
  intros H. unfold emitted. now rewrite to_bulk_actions_not_dict.
Qed.

Lemma process_from_streams json_iter :
  forallb (fun nd => wf (snd nd)) json_iter = true ->
  forall st out,
    fst (process_from index_books index_content json_iter st out)
    = Streams
        (books_lines st
           ++ concat (map (fun nd =>
                             fst (emitted index_books index_content (snd nd)))
                          json_iter))
        (content_lines st
           ++ concat (map (fun nd =>
                             snd (emitted index_books index_content (snd nd)))
                          json_iter)).
Proof.
  induction json_iter as [|[name data] it IH]; intros HW st out.
  - simpl. rewrite !List.app_nil_r. now destruct st.
  - simpl in HW. apply andb_true_iff in HW as [Hd HW].
    cbn [process_from map concat snd].
    destruct (to_bulk_actions data index_books index_content)
      as [actions|e] eqn:E.
    + destruct data; try discriminate.
      rewrite (route_to_bulk_actions d actions st Hd E).
      rewrite IH by assumption. cbn [books_lines content_lines].
      now rewrite <- !List.app_assoc.
    + rewrite IH by assumption.
      assert (emitted index_books index_content data = ([], [])) as ->
          by (unfold emitted; now rewrite E).
      reflexivity.
Qed.

End Routing.


Section Framing.

Import ConvertJson BulkView.

Lemma is_action_line_index_action idx id :
  wf (index_action idx id) = true ->
  is_action_line (dumps true (index_action idx id)) = true.
Proof.
  intros H. unfold is_action_line. now rewrite loads_dumps.
Qed.

Lemma action_id_index_action idx id :
  wf (index_action idx id) = true ->
  action_id (dumps true (index_action idx id)) = Ok id.
Proof.
  intros H. unfold action_id. rewrite loads_dumps by assumption.
  now destruct id.
Qed.

Lemma is_action_line_summary b :
  wf (JDict b) = true -> is_action_line (dumps false (summary b)) = false.
Proof.
  intros H. unfold is_action_line.
  now rewrite loads_dumps by now apply wf_summary.
Qed.

Lemma is_action_line_chunk_doc bid ch ci pi seq para :
  wf (chunk_doc bid ch ci pi seq para) = true ->
  is_action_line (dumps false (chunk_doc bid ch ci pi seq para)) = false.
Proof.
  intros H. unfold is_action_line. now rewrite loads_dumps.
Qed.

(** Induction on a list, two elements at a time. *)
Lemma list_pair_ind {A} (P : list A -> Prop) :
  P [] -> (forall a, P [a]) -> (forall a b l, P l -> P (a :: b :: l)) ->
  forall l, P l.
Proof.
  intros H0 H1 H2.
  fix IH 1. intros [|a [|b l]]; [exact H0|exact (H1 a)|].
  apply H2, IH.
Qed.

Lemma alternating_app l1 l2 :
  alternating l1 = true -> alternating l2 = true ->
  alternating (l1 ++ l2) = true.
Proof.
  induction l1 as [| |m s l1 IH] using list_pair_ind; intros H1 H2.
  - exact H2.
  - discriminate.
  - cbn [alternating app] in *. apply andb_true_iff in H1 as [H1 H1'].
    now rewrite H1, IH.
Qed.

Lemma alternating_concat ls :
  Forall (fun l => alternating l = true) ls -> alternating (concat ls) = true.
Proof.
  induction 1; simpl; [reflexivity|]. now apply alternating_app.
Qed.

Lemma alternating_even l :
  alternating l = true -> Nat.even (length l) = true.
Proof.
  induction l as [| |m s l IH] using list_pair_ind; intros H.
  - reflexivity.
  - discriminate.
  - cbn [alternating] in H. apply andb_true_iff in H as [_ H].
    cbn [length Nat.even]. auto.
Qed.

Lemma alternating_book_pair ib b :
  wf (JDict b) = true -> alternating (book_pair ib b) = true.
Proof.
  intros H. unfold book_pair. cbn [alternating].
  rewrite is_action_line_index_action, is_action_line_summary; auto.
  apply wf_index_action; [reflexivity|now apply wf_get_default].
Qed.

Lemma alternating_paragraph_docs ic bid ch ci paras :
  forall pi seq,
    forallb wf (paragraph_docs bid ch ci paras pi seq) = true ->
    alternating
      (flat_map (chunk_pair ic) (paragraph_docs bid ch ci paras pi seq))
    = true.
Proof.
  induction paras as [|p paras IH]; intros pi seq H; [reflexivity|].
  cbn [paragraph_docs forallb] in H. apply andb_true_iff in H as [Hd H].
  cbn [paragraph_docs flat_map chunk_pair app alternating].
  rewrite is_action_line_index_action, is_action_line_chunk_doc, IH; auto.
Qed.

Lemma alternating_chunk_docs ic bid vs :
  forall ci seq,
    forallb wf (chunk_docs bid vs ci seq) = true ->
    alternating (flat_map (chunk_pair ic) (chunk_docs bid vs ci seq)) = true.
Proof.
  induction vs as [|[ch paras] vs IH]; intros ci seq H; [reflexivity|].
  cbn [chunk_docs] in *. rewrite forallb_app in H.
  apply andb_true_iff in H as [H1 H2].
  rewrite flat_map_app.
  apply alternating_app; [now apply alternating_paragraph_docs|now apply IH].
Qed.

Lemma alternating_document_lines ib ic b vs :
  wf (JDict b) = true -> chapters_of (JDict b) = Ok vs ->
  alternating (document_lines ib ic b vs) = true.
Proof.
  intros H E. unfold document_lines.
  apply alternating_app; [now apply alternating_book_pair|].
  apply alternating_chunk_docs, wf_chunk_docs.
  - now apply wf_get_default.
  - eapply wf_chapters_of; eauto.
Qed.

Lemma to_bulk_actions_document ib ic b vs :
  chapters_of (JDict b) = Ok vs ->
  to_bulk_actions (JDict b) ib ic = Ok (document_lines ib ic b vs).
Proof. intros E. now rewrite to_bulk_actions_eq, E. Qed.

Lemma to_bulk_actions_ok_inv data ib ic actions :
  to_bulk_actions data ib ic = Ok actions ->
  exists b vs, data = JDict b /\ chapters_of (JDict b) = Ok vs
               /\ actions = document_lines ib ic b vs.
Proof.
  intros E. destruct data; try discriminate.
  rewrite to_bulk_actions_eq in E.
  destruct (chapters_of (JDict d)) as [vs|] eqn:V; [|discriminate].
  exists d, vs. split; [reflexivity|split; [exact V|]].
  unfold document_lines. congruence.
Qed.

(** What one input adds to each stream alternates. *)
Lemma alternating_emitted ib ic data :
  wf data = true ->
  alternating (fst (emitted ib ic data)) = true
  /\ alternating (snd (emitted ib ic data)) = true.
Proof.
  intros H. unfold emitted.
  destruct (to_bulk_actions data ib ic) as [actions|] eqn:E; [|now split].
  apply to_bulk_actions_ok_inv in E as (b & vs & -> & V & ->).
  destruct (String.eqb ib ic); cbn [fst snd].
  - split; [now apply alternating_document_lines|reflexivity].
  - unfold document_lines, book_pair. cbn [app firstn skipn]. split.
    + now apply (alternating_book_pair ib b).
    + apply alternating_chunk_docs, wf_chunk_docs.
      * now apply wf_get_default.
      * eapply wf_chapters_of; eauto.
Qed.

End Framing.


(* ================================================================== *)
(** * Properties of dictionaries *)

Section Dictionaries.

Lemma dict_mem_get k (d : dict) :
  dict_mem k d = match dict_get k d with Some _ => true | None => false end.
Proof.
  induction d as [|[k' v] d IH]; [reflexivity|]. simpl.
  now destruct (k =? k').
Qed.

Lemma dict_get_set k k' v d :
  dict_get k (dict_set k' v d)
  = if String.eqb k k' then Some v else dict_get k d.
Proof.
  induction d as [|[k0 v0] d IH]; simpl.
  - reflexivity.
  - destruct (String.eqb k' k0) eqn:E; simpl.
    + apply String.eqb_eq in E. subst k0.
      now destruct (String.eqb k k').
    + rewrite IH. destruct (String.eqb k k0) eqn:E0; [|reflexivity].
      apply String.eqb_eq in E0. subst k0.
      now rewrite String.eqb_sym, E.
Qed.

Lemma dict_get_set_other k k' v d :
  String.eqb k k' = false -> dict_get k (dict_set k' v d) = dict_get k d.
Proof. intros E. now rewrite dict_get_set, E. Qed.

Lemma dict_get_setdefault k k' v d :
  dict_get k (dict_setdefault k' v d)
  = if String.eqb k k'
    then match dict_get k d with Some x => Some x | None => Some v end
    else dict_get k d.
Proof.
  unfold dict_setdefault. rewrite dict_mem_get.
  destruct (String.eqb k k') eqn:E.
  - apply String.eqb_eq in E. subst k'.
    destruct (dict_get k d) eqn:G; simpl; [assumption|].
    now rewrite dict_get_set, String.eqb_refl.
  - destruct (dict_get k' d); [reflexivity|]. now rewrite dict_get_set, E.
Qed.

Lemma dict_get_del_other k k' d :
  String.eqb k k' = false -> dict_get k (dict_del k' d) = dict_get k d.
Proof.
  intros E. induction d as [|[k0 v0] d IH]; simpl; [reflexivity|].
  destruct (String.eqb k' k0) eqn:E0; simpl.
  - apply String.eqb_eq in E0. subst k0. now rewrite E.
  - now rewrite IH.
Qed.

End Dictionaries.


(* ================================================================== *)
(** * Properties of [read_epub], statement by statement *)

Section ReadEpub.

Import EpubToJson EpubView.

(** Case analysis on the tests of a statement, then the dictionary
    equations. *)
Ltac by_cases :=
  cbv zeta;
  repeat match goal with
    | |- context [if ?c then _ else _] => destruct c
    | |- context [match ?x with _ => _ end] => destruct x
    end;
  rewrite ?dict_get_set, ?dict_get_setdefault;
  repeat match goal with
    | H : String.eqb _ _ = _ |- _ => rewrite H
    end;
  try reflexivity.

Lemma get_set_meta_other b d ns key field k :
  String.eqb k field = false ->
  dict_get k (set_meta b d (ns, key, field)) = dict_get k d.
Proof. intros E. unfold set_meta. by_cases. Qed.

Lemma get_meta_loop_other b d k :
  existsb (String.eqb k)
    ["title"; "authors"; "publisher"; "language"; "description"; "genres"]
  = false ->
  dict_get k (fold_left (set_meta b) essential_meta d) = dict_get k d.
Proof.
  intros E. cbn [existsb] in E.
  repeat (apply orb_false_iff in E as [? E]).
  cbn [fold_left essential_meta].
  now rewrite !get_set_meta_other.
Qed.

Lemma get_join_authors_other d k :
  String.eqb k "author" = false ->
  dict_get k (join_authors d) = dict_get k d.
Proof. intros E. unfold join_authors. by_cases. Qed.

Lemma get_set_identity_other b file d k :
  String.eqb k "source_uid" = false -> String.eqb k "book_id" = false ->
  dict_get k (set_identity b file d) = dict_get k d.
Proof. intros E1 E2. unfold set_identity. by_cases. Qed.

Lemma get_set_defaults_other d k :
  String.eqb k "publisher" = false -> String.eqb k "genres" = false ->
  String.eqb k "linkToBook" = false ->
  dict_get k (set_defaults d) = dict_get k d.
Proof. intros E1 E2 E3. unfold set_defaults. by_cases. Qed.

Lemma get_set_title_other stem b d k :
  String.eqb k "title" = false ->
  dict_get k (set_title stem b d) = dict_get k d.
Proof. intros E. unfold set_title. by_cases. Qed.

Lemma get_drop_authors_other d k :
  String.eqb k "authors" = false ->
  dict_get k (drop_authors d) = dict_get k d.
Proof.
  intros E. unfold drop_authors.
  destruct (dict_mem "authors" d); [now apply dict_get_del_other|reflexivity].
Qed.

Lemma get_add_item_other d it k :
  String.eqb k "chapters" = false ->
  dict_get k (add_item d it) = dict_get k d.
Proof. intros E. unfold add_item, append_chapter. by_cases. Qed.

Lemma get_add_items_other items k :
  String.eqb k "chapters" = false ->
  forall d, dict_get k (fold_left add_item items d) = dict_get k d.
Proof.
  intros E. induction items as [|it items IH]; intros d; [reflexivity|].
  simpl. now rewrite IH, get_add_item_other.
Qed.

Lemma get_set_description_other d k :
  String.eqb k "description" = false ->
  dict_get k (set_description d) = dict_get k d.
Proof. intros E. unfold set_description. by_cases. Qed.

Lemma get_author_from_text_other d k :
  String.eqb k "author" = false ->
  dict_get k (author_from_text d) = dict_get k d.
Proof. intros E. unfold author_from_text. by_cases. Qed.

Lemma get_publisher_from_text_other d k :
  String.eqb k "publisher" = false ->
  dict_get k (publisher_from_text d) = dict_get k d.
Proof. intros E. unfold publisher_from_text. by_cases. Qed.

Lemma get_author_from_stem_other stem d k :
  String.eqb k "author" = false ->
  dict_get k (author_from_stem stem d) = dict_get k d.
Proof. intros E. unfold author_from_stem. by_cases. Qed.

Lemma get_publisher_from_mark_other d k :
  String.eqb k "publisher" = false ->
  dict_get k (publisher_from_mark d) = dict_get k d.
Proof. intros E. unfold publisher_from_mark. by_cases. Qed.

End ReadEpub.


Section ReadEpubFields.

Import EpubToJson EpubView.

(** A key a statement does not write keeps its value: the statements of
    [read_epub] from the last one back. *)
Ltac peel :=
  repeat first
    [ rewrite get_publisher_from_mark_other by reflexivity
    | rewrite get_author_from_stem_other by reflexivity
    | rewrite get_publisher_from_text_other by reflexivity
    | rewrite get_author_from_text_other by reflexivity
    | rewrite get_set_description_other by reflexivity
    | rewrite get_add_items_other by reflexivity
    | rewrite get_drop_authors_other by reflexivity
    | rewrite get_set_title_other by reflexivity
    | rewrite get_set_defaults_other by reflexivity
    | rewrite get_set_identity_other by reflexivity
    | rewrite get_join_authors_other by reflexivity
    | rewrite get_meta_loop_other by reflexivity ].

Variable stem : string.
Variable file : list Byte.byte.
Variable b : book.

Lemma read_epub_source_uid :
  dict_get "source_uid" (read_epub stem file b)
  = Some (JStr (_pick_stable_id b file)).
Proof.
  unfold read_epub. cbv zeta. peel.
  unfold set_identity. cbv zeta. now rewrite !dict_get_set.
Qed.

Lemma read_epub_book_id :
  dict_get "book_id" (read_epub stem file b)
  = Some (JStr (take 16 (Sha1.hexdigest
                           (Sha1.utf8 (_pick_stable_id b file))))).
Proof.
  unfold read_epub. cbv zeta. peel.
  unfold set_identity. cbv zeta. now rewrite !dict_get_set.
Qed.

Lemma get_chapters_add_items items :
  forall d l,
    dict_get "chapters" d = Some (JList l) ->
    dict_get "chapters" (fold_left add_item items d)
    = Some (JList (l ++ map chapter_json (chapters_of_items items))).
Proof.
  induction items as [|it items IH]; intros d l H.
  - simpl. now rewrite List.app_nil_r.
  - cbn [fold_left chapters_of_items flat_map]. rewrite map_app.
    rewrite List.app_assoc. apply IH.
    unfold add_item, chapter_of_item.
    destruct (get_type it =? ITEM_DOCUMENT)%N;
      [|now rewrite List.app_nil_r].
    destruct (extract_texts_from_item it) as [chapter texts].
    cbn [fst snd]. destruct texts as [|t texts];
      [now rewrite List.app_nil_r|].
    unfold append_chapter, get_list. rewrite H, dict_get_set.
    reflexivity.
Qed.

(** The chapters of the record: one for each document item that has
    text, in the order of the items. *)
Lemma read_epub_chapters :
  dict_get "chapters" (read_epub stem file b)
  = Some (JList (map chapter_json (chapters_of_items (get_items b)))).
Proof.
  unfold read_epub. cbv zeta. peel.
  rewrite (get_chapters_add_items (get_items b) _ []); [reflexivity|].
  now peel.
Qed.

Lemma chapter_views_of_chapters chs :
  BulkView.chapter_views (map chapter_json chs)
  = Ok (map chapter_seen chs).
Proof.
  induction chs as [|ch chs IH]; [reflexivity|].
  cbn [map BulkView.chapter_views]. rewrite IH. reflexivity.
Qed.

Lemma parsed_record_chapters link :
  BulkView.chapters_of (JDict (parsed_record stem link file b))
  = Ok (map chapter_seen (chapters_of_items (get_items b))).
Proof.
  unfold BulkView.chapters_of, parsed_record. cbn [py_get bind].
  rewrite dict_get_set_other, read_epub_chapters by reflexivity.
  cbn [py_iter bind]. apply chapter_views_of_chapters.
Qed.

Lemma parsed_record_book_id link :
  BulkView.get_default "book_id" JNull (parsed_record stem link file b)
  = JStr (take 16 (Sha1.hexdigest (Sha1.utf8 (_pick_stable_id b file)))).
Proof.
  unfold BulkView.get_default, parsed_record.
  now rewrite dict_get_set_other, read_epub_book_id by reflexivity.
Qed.

End ReadEpubFields.


(* ================================================================== *)
(** * Properties of the identity deriver *)

Section IdentityDeriver.

Import EpubToJson EpubView.

(** Reading the file chunk by chunk feeds the hash the whole file. *)
Lemma read_and_update_all size :
  0 < size ->
  forall fuel file h,
    length file < fuel -> read_and_update fuel size file h = h ++ file.
Proof.
  intros Hs. induction fuel as [|fuel IH]; intros file h Hlen; [lia|].
  cbn [read_and_update].
  destruct (firstn size file) as [|x chunk] eqn:E.
  - destruct file; [now rewrite List.app_nil_r|].
    destruct size; [lia|discriminate].
  - rewrite IH.
    + rewrite <- List.app_assoc, <- E. now rewrite firstn_skipn.
    + destruct file as [|y file]; [destruct size; discriminate|].
      destruct size as [|size]; [lia|]. cbn [skipn].
      pose proof (length_skipn size file). simpl in Hlen. lia.
Qed.

Lemma chunk_size_positive : 0 < chunk_size.
Proof. unfold chunk_size. lia. Qed.

Lemma read_whole_file file :
  read_and_update (S (length file)) chunk_size file [] = file.
Proof.
  now rewrite read_and_update_all by (apply chunk_size_positive || lia).
Qed.

Lemma be_bytes_length n z : length (Sha1.be_bytes n z) = n.
Proof. induction n; simpl; congruence. Qed.

Lemma hex_of_bytes_length bs :
  String.length (Sha1.hex_of_bytes bs) = 2 * length bs.
Proof.
  unfold Sha1.hex_of_bytes. induction bs as [|x bs IH]; [reflexivity|].
  cbn [map]. rewrite concat_empty_cons, length_append, IH.
  cbn [length hex2 String.length]. lia.
Qed.

(** A SHA-1 digest prints as forty characters. *)
Lemma hexdigest_length msg : String.length (Sha1.hexdigest msg) = 40.
Proof.
  unfold Sha1.hexdigest, Sha1.digest. rewrite hex_of_bytes_length.
  now rewrite !length_app, !be_bytes_length.
Qed.

Lemma take_length n s :
  n <= String.length s -> String.length (take n s) = n.
Proof.
  revert s. induction n as [|n IH]; intros s H; [reflexivity|].
  destruct s as [|c s]; simpl in *; [lia|]. rewrite IH; lia.
Qed.

(** The short identifier has sixteen characters. *)
Lemma book_id_length source_uid :
  String.length (take 16 (Sha1.hexdigest (Sha1.utf8 source_uid))) = 16.
Proof. apply take_length. rewrite hexdigest_length. lia. Qed.

(** The loop over the entries, when every entry holds a string. *)
Lemma scan_identifiers_spec u pairs :
  forallb string_valued pairs = true ->
  forall first_val,
    let values :=
      flat_map (fun p : entry =>
                  match p with
                  | JStr s :: tl =>
                      [(strip s,
                        match tl with JDict d :: _ => d | _ => [] end)]
                  | _ => []
                  end) pairs in
    let tagged (va : string * dict) :=
      match u with
      | Some u => nonempty u && id_is (snd va) u && nonempty (fst va)
      | None => false
      end in
    scan_identifiers u pairs first_val
    = match find tagged values with
      | Some va => inl (fst va)
      | None =>
          inr (match first_val with
               | Some _ => first_val
               | None =>
                   option_map fst
                     (find (fun va => nonempty (fst va)) values)
               end)
      end.
Proof.
  induction pairs as [|p pairs IH]; intros H first_val.
  - now destruct first_val.
  - cbn [forallb] in H. apply andb_true_iff in H as [Hp H].
    destruct p as [|[| | | |s| |] tl]; try discriminate.
    cbn [scan_identifiers flat_map app find fst snd py_str].
    cbv zeta in IH.
    destruct u as [u|].
    + destruct (nonempty u && id_is _ u && nonempty (strip s)) eqn:T.
      * reflexivity.
      * rewrite IH by assumption.
        destruct (find _ _); [reflexivity|].
        destruct first_val; [reflexivity|].
        now destruct (nonempty (strip s)).
    + rewrite IH by assumption.
      destruct (find _ _); [reflexivity|].
      destruct first_val; [reflexivity|].
      now destruct (nonempty (strip s)).
Qed.

Lemma find_none_false {A} (l : list A) : find (fun _ => false) l = None.
Proof. induction l; [reflexivity|assumption]. Qed.

(** On a container whose identifier entries all hold strings,
    [_pick_stable_id] follows the three rules of the specification with
    [book.uid] in the place of the marker. *)
Lemma pick_stable_id_spec b file :
  forallb string_valued (try_except (get_metadata b "DC" "identifier") [])
  = true ->
  _pick_stable_id b file = spec_source_uid (uid_as_marker b) b file.
Proof.
  intros H. unfold _pick_stable_id, spec_source_uid.
  rewrite (scan_identifiers_spec (uid b) _ H None). cbv zeta.
  unfold identifier_values, preferred, uid_as_marker.
  destruct (uid b) as [u|].
  - destruct (find _ _) as [va|]; [reflexivity|].
    destruct (find (fun va => nonempty (fst va)) _) as [va|];
      cbn [option_map]; [reflexivity|].
    rewrite read_whole_file. reflexivity.
  - cbn [nonempty is_empty negb andb]. rewrite !find_none_false.
    destruct (find (fun va => nonempty (fst va)) _) as [va|];
      cbn [option_map]; [reflexivity|].
    rewrite read_whole_file. reflexivity.
Qed.

(** That is not the marker: for a package whose second identifier is the
    preferred one, [ebooklib] gives the value of that identifier as
    [book.uid], no [id] attribute equals it, and the code returns the
    first identifier where the specification has the preferred one. *)
Example preferred_identifier_is_not_looked_up file :
  _pick_stable_id book_with_two_identifiers file = "isbn:9780000000002"
  /\ spec_source_uid "BookId" book_with_two_identifiers file
     = "urn:uuid:abc".
Proof. split; reflexivity. Qed.

End IdentityDeriver.


(* ================================================================== *)
(** * Properties of the metadata resolver *)

Section MetadataResolver.

Import EpubToJson EpubView.

(** ** The statements write strings *)

Lemma ws_id : writes_strings (fun d => d).
Proof. intros k d _ _. now split. Qed.

Lemma ws_set k' s : writes_strings (dict_set k' (JStr s)).
Proof.
  intros k d _ _. unfold has_str, str_or_absent. rewrite dict_get_set.
  destruct (String.eqb k k'); split; eauto.
Qed.

Lemma ws_setdefault k' s : writes_strings (dict_setdefault k' (JStr s)).
Proof.
  intros k d _ _. unfold has_str, str_or_absent.
  rewrite dict_get_setdefault.
  destruct (String.eqb k k'); [|now split].
  destruct (dict_get k d) as [v|]; split; eauto.
Qed.

Lemma ws_unchanged f :
  (forall k d, String.eqb k "authors" = false ->
               String.eqb k "chapters" = false ->
               dict_get k (f d) = dict_get k d) ->
  writes_strings f.
Proof.
  intros H k d E1 E2. unfold has_str, str_or_absent.
  now rewrite H.
Qed.

Lemma ws_compose f g :
  writes_strings f -> writes_strings g -> writes_strings (fun d => g (f d)).
Proof.
  intros Hf Hg k d E1 E2.
  destruct (Hf k d E1 E2), (Hg k (f d) E1 E2). split; auto.
Qed.

(** A statement that, on each dictionary, does what one of two
    string-writing statements does. *)
Lemma ws_cases (f : dict -> dict) :
  (forall d, f d = d \/ exists k' s, f d = dict_set k' (JStr s) d) ->
  writes_strings f.
Proof.
  intros H k d E1 E2. destruct (H d) as [-> | (k' & s & ->)].
  - now split.
  - now apply ws_set.
Qed.

Ltac one_write :=
  apply ws_cases; intros d;
  repeat match goal with
    | |- context [if ?c then _ else _] => destruct c
    | |- context [match ?x with _ => _ end] => destruct x
    end;
  eauto.

Lemma ws_set_meta b m : writes_strings (fun d => set_meta b d m).
Proof.
  destruct m as [[ns key] field]. unfold set_meta.
  destruct (String.eqb field "authors") eqn:E.
  - apply String.eqb_eq in E. subst field. apply ws_unchanged.
    intros k d E1 _. now rewrite dict_get_set, E1.
  - one_write.
Qed.

Lemma ws_fold {A} (f : dict -> A -> dict) (l : list A) :
  (forall a, writes_strings (fun d => f d a)) ->
  writes_strings (fold_left f l).
Proof.
  intros H. induction l as [|a l IH]; [apply ws_id|].
  cbn [fold_left]. apply (ws_compose (fun d => f d a) (fold_left f l)); auto.
Qed.

Lemma ws_meta_loop b : writes_strings (fold_left (set_meta b) essential_meta).
Proof. apply ws_fold, ws_set_meta. Qed.

Lemma ws_join_authors : writes_strings join_authors.
Proof.
  intros k d E1 E2. unfold join_authors.
  destruct (dict_get "authors" d) as [[| | | | |l|]|];
    first [now apply ws_set | now apply ws_setdefault].
Qed.

Lemma ws_set_identity b file : writes_strings (set_identity b file).
Proof.
  unfold set_identity. cbv zeta.
  apply (ws_compose (dict_set "source_uid" _) (dict_set "book_id" _));
    apply ws_set.
Qed.

Lemma ws_set_defaults : writes_strings set_defaults.
Proof.
  unfold set_defaults. cbv zeta.
  apply (ws_compose
           (fun d => dict_setdefault "genres" (JStr EmptyString)
                       (dict_setdefault "publisher" (JStr EmptyString) d))
           (dict_setdefault "linkToBook" _)); [|apply ws_setdefault].
  apply (ws_compose (dict_setdefault "publisher" _)
                    (dict_setdefault "genres" _)); apply ws_setdefault.
Qed.

Lemma ws_set_title stem b : writes_strings (set_title stem b).
Proof. unfold set_title. one_write. Qed.

Lemma ws_drop_authors : writes_strings drop_authors.
Proof.
  apply ws_unchanged. intros k d E _. now apply get_drop_authors_other.
Qed.

Lemma ws_add_items items : writes_strings (fold_left add_item items).
Proof.
  apply ws_unchanged. intros k d _ E. now apply get_add_items_other.
Qed.

Lemma ws_set_description : writes_strings set_description.
Proof. unfold set_description. one_write. Qed.

Lemma ws_author_from_text : writes_strings author_from_text.
Proof. unfold author_from_text. one_write. Qed.

Lemma ws_publisher_from_text : writes_strings publisher_from_text.
Proof. unfold publisher_from_text. one_write. Qed.

Lemma ws_author_from_stem stem : writes_strings (author_from_stem stem).
Proof. unfold author_from_stem. one_write. Qed.

Lemma ws_publisher_from_mark : writes_strings publisher_from_mark.
Proof. unfold publisher_from_mark. one_write. Qed.

End MetadataResolver.


Section ResolvedFields.

Import EpubToJson EpubView.

Variable stem : string.
Variable file : list Byte.byte.
Variable b : book.

#[local] Abbreviation before_title := (EpubView.before_title stem file b).
#[local] Abbreviation with_chapters := (EpubView.with_chapters stem file b).

Lemma read_epub_stages :
  read_epub stem file b
  = publisher_from_mark
      (author_from_stem stem
         (publisher_from_text
            (author_from_text (set_description with_chapters)))).
Proof.
  unfold read_epub, EpubView.with_chapters, EpubView.before_title.
  cbv zeta. reflexivity.
Qed.

Lemma has_str_after_chapters k :
  String.eqb k "authors" = false -> String.eqb k "chapters" = false ->
  has_str k with_chapters -> has_str k (read_epub stem file b).
Proof.
  intros E1 E2 H. rewrite read_epub_stages.
  apply (ws_publisher_from_mark _ _ E1 E2),
    (ws_author_from_stem stem _ _ E1 E2),
    (ws_publisher_from_text _ _ E1 E2),
    (ws_author_from_text _ _ E1 E2),
    (ws_set_description _ _ E1 E2).
  exact H.
Qed.

Lemma has_str_after_title k :
  String.eqb k "authors" = false -> String.eqb k "chapters" = false ->
  has_str k (set_title stem b before_title) ->
  has_str k (read_epub stem file b).
Proof.
  intros E1 E2 H. apply has_str_after_chapters; try assumption.
  unfold EpubView.with_chapters.
  apply (ws_add_items (get_items b) _ _ E1 E2), (ws_drop_authors _ _ E1 E2).
  exact H.
Qed.

Lemma str_or_absent_after_loop k :
  String.eqb k "authors" = false -> String.eqb k "chapters" = false ->
  str_or_absent k
    (fold_left (set_meta b) essential_meta
       [("book_id", JStr stem); ("chapters", JList [])]).
Proof.
  intros E1 E2. apply (ws_meta_loop b _ _ E1 E2).
  unfold str_or_absent. cbn [dict_get]. rewrite E2.
  now destruct (String.eqb k "book_id").
Qed.

Lemma str_or_absent_before_title k :
  String.eqb k "authors" = false -> String.eqb k "chapters" = false ->
  str_or_absent k before_title.
Proof.
  intros E1 E2. unfold EpubView.before_title.
  apply (ws_set_defaults _ _ E1 E2), (ws_set_identity b file _ _ E1 E2),
    (ws_join_authors _ _ E1 E2).
  now apply str_or_absent_after_loop.
Qed.

Lemma get_authors_after_loop d :
  dict_get "authors" (fold_left (set_meta b) essential_meta d)
  = Some (JList (map JStr (_meta_values b "DC" "creator"))).
Proof.
  cbn [fold_left essential_meta].
  rewrite !get_set_meta_other by reflexivity.
  unfold set_meta at 1. cbn [String.eqb Ascii.eqb Bool.eqb].
  now rewrite dict_get_set.
Qed.

Lemma strs_map_JStr l : strs (map JStr l) = l.
Proof. induction l; simpl; congruence. Qed.

(** The author after the structured metadata: the creators that are not
    empty, joined. *)
Lemma get_author_before_title :
  dict_get "author" before_title
  = Some (JStr (join ", " (filter nonempty (_meta_values b "DC" "creator")))).
Proof.
  unfold EpubView.before_title.
  rewrite get_set_defaults_other, get_set_identity_other by reflexivity.
  unfold join_authors. rewrite get_authors_after_loop, dict_get_set.
  now rewrite strs_map_JStr.
Qed.

Lemma get_author_with_chapters :
  dict_get "author" (set_description with_chapters)
  = Some (JStr (join ", " (filter nonempty (_meta_values b "DC" "creator")))).
Proof.
  rewrite get_set_description_other by reflexivity. unfold EpubView.with_chapters.
  rewrite get_add_items_other, get_drop_authors_other,
    get_set_title_other by reflexivity.
  apply get_author_before_title.
Qed.

Lemma get_chapters_with_chapters :
  dict_get "chapters" (set_description with_chapters)
  = Some (JList (map chapter_json (chapters_of_items (get_items b)))).
Proof.
  rewrite get_set_description_other by reflexivity. unfold EpubView.with_chapters.
  rewrite (get_chapters_add_items (get_items b) _ []); [reflexivity|].
  unfold EpubView.before_title.
  rewrite get_drop_authors_other, get_set_title_other,
    get_set_defaults_other, get_set_identity_other,
    get_join_authors_other, get_meta_loop_other by reflexivity.
  reflexivity.
Qed.

(** ** The author *)

Lemma first_paragraphs_chapters d ch chs :
  dict_get "chapters" d = Some (JList (map chapter_json (ch :: chs))) ->
  first_paragraphs d = snd ch.
Proof.
  intros H. unfold first_paragraphs, get_list. rewrite H.
  cbn [map chapter_json paragraphs_of get_list dict_get String.eqb
       Ascii.eqb Bool.eqb].
  apply strs_map_JStr.
Qed.

Lemma author_from_text_get d a chs :
  dict_get "author" d = Some (JStr a) ->
  dict_get "chapters" d = Some (JList (map chapter_json chs)) ->
  dict_get "author" (author_from_text d)
  = Some (JStr (if nonempty a then a
                else author_of_text chs)).
Proof.
  intros Ha Hc. unfold author_from_text, falsy, get_or_none.
  rewrite Ha, Hc. cbn [truthy]. unfold nonempty. rewrite negb_involutive.
  destruct a as [|c a]; cbn [is_empty negb andb]; [|exact Ha].
  destruct chs as [|ch chs]; cbn [map]; [exact Ha|].
  rewrite (first_paragraphs_chapters d ch chs Hc).
  unfold author_of_text, head_text. cbn [snd].
  destruct (Re.search_group1 Re.by_author _);
    [now rewrite dict_get_set|exact Ha].
Qed.

Lemma author_from_stem_get d a :
  dict_get "author" d = Some (JStr a) ->
  dict_get "author" (author_from_stem stem d)
  = Some (JStr (if nonempty a then a else author_of_stem stem)).
Proof.
  intros Ha.
  unfold author_from_stem, falsy, get_or_none, author_of_stem, author_slug.
  rewrite Ha. cbn [truthy]. rewrite negb_involutive.
  destruct a as [|c a]; cbn [is_empty nonempty negb]; [|exact Ha].
  cbv zeta.
  match goal with
  | |- context [if ?c then _ else _] => destruct c
  end; [now rewrite dict_get_set|exact Ha].
Qed.

(** The resolution order of the author: the creators of the structured
    metadata; else a line of the first chapter; else the name of the
    file. *)
Lemma read_epub_author :
  dict_get "author" (read_epub stem file b)
  = Some (JStr
            (let creators :=
               join ", "
                 (filter nonempty (_meta_values b "DC" "creator")) in
             let from_text :=
               if nonempty creators then creators
               else author_of_text (chapters_of_items (get_items b)) in
             if nonempty from_text then from_text
             else author_of_stem stem)).
Proof.
  rewrite read_epub_stages.
  rewrite get_publisher_from_mark_other by reflexivity.
  apply author_from_stem_get.
  rewrite get_publisher_from_text_other by reflexivity.
  apply author_from_text_get.
  - apply get_author_with_chapters.
  - apply get_chapters_with_chapters.
Qed.

(** ** The other fields *)

#[local] Abbreviation first_value := (EpubView.first_value b).

Lemma set_meta_first d ns key field :
  String.eqb field "authors" = false ->
  String.eqb field "genres" = false ->
  dict_get field (set_meta b d (ns, key, field))
  = match _meta_values b ns key with
    | v :: _ => Some (JStr v)
    | [] => dict_get field d
    end.
Proof.
  intros E1 E2. unfold set_meta. rewrite E1, E2.
  destruct (_meta_values b ns key); [reflexivity|].
  now rewrite dict_get_set, String.eqb_refl.
Qed.

Lemma get_first_after_loop key field :
  In (key, field)
     [("title", "title"); ("publisher", "publisher");
      ("language", "language"); ("description", "description")] ->
  dict_get field
    (fold_left (set_meta b) essential_meta
       [("book_id", JStr stem); ("chapters", JList [])])
  = first_value key.
Proof.
  intros H. cbn [fold_left essential_meta]. unfold EpubView.first_value.
  cbn [In] in H.
  repeat (destruct H as [[= <- <-] | H]);
    [| | | |destruct H];
    rewrite ?get_set_meta_other by reflexivity;
    rewrite set_meta_first by reflexivity;
    rewrite ?get_set_meta_other by reflexivity;
    reflexivity.
Qed.

Lemma get_genres_after_loop d :
  dict_get "genres" (fold_left (set_meta b) essential_meta d)
  = Some (JStr (match _meta_values b "DC" "subject" with
                | [] => EmptyString
                | vals => join ", " vals
                end)).
Proof.
  cbn [fold_left essential_meta]. unfold set_meta at 1.
  cbn [String.eqb Ascii.eqb Bool.eqb]. rewrite dict_get_set.
  now destruct (_meta_values b "DC" "subject").
Qed.

Lemma read_epub_language :
  dict_get "language" (read_epub stem file b) = first_value "language".
Proof.
  rewrite read_epub_stages.
  rewrite get_publisher_from_mark_other, get_author_from_stem_other,
    get_publisher_from_text_other, get_author_from_text_other,
    get_set_description_other by reflexivity.
  unfold EpubView.with_chapters, EpubView.before_title.
  rewrite get_add_items_other, get_drop_authors_other, get_set_title_other,
    get_set_defaults_other, get_set_identity_other, get_join_authors_other
    by reflexivity.
  apply get_first_after_loop. cbn; auto.
Qed.

Lemma read_epub_genres :
  dict_get "genres" (read_epub stem file b)
  = Some (JStr (match _meta_values b "DC" "subject" with
                | [] => EmptyString
                | vals => join ", " vals
                end)).
Proof.
  rewrite read_epub_stages.
  rewrite get_publisher_from_mark_other, get_author_from_stem_other,
    get_publisher_from_text_other, get_author_from_text_other,
    get_set_description_other by reflexivity.
  unfold EpubView.with_chapters, EpubView.before_title.
  rewrite get_add_items_other, get_drop_authors_other, get_set_title_other
    by reflexivity.
  unfold set_defaults. cbv zeta.
  rewrite !dict_get_setdefault. cbn [String.eqb Ascii.eqb Bool.eqb].
  rewrite get_set_identity_other, get_join_authors_other by reflexivity.
  now rewrite get_genres_after_loop.
Qed.

Lemma get_title_before_title :
  dict_get "title" before_title = first_value "title".
Proof.
  unfold EpubView.before_title.
  rewrite get_set_defaults_other, get_set_identity_other,
    get_join_authors_other by reflexivity.
  apply get_first_after_loop. cbn; auto.
Qed.

(** The title: the first title of the structured metadata; the name of
    the file when there is none. *)
Lemma read_epub_title :
  dict_get "title" (read_epub stem file b)
  = Some (JStr (match _meta_values b "DC" "title" with
                | t :: _ => t
                | [] => stem
                end)).
Proof.
  rewrite read_epub_stages.
  rewrite get_publisher_from_mark_other, get_author_from_stem_other,
    get_publisher_from_text_other, get_author_from_text_other,
    get_set_description_other by reflexivity.
  unfold EpubView.with_chapters.
  rewrite get_add_items_other, get_drop_authors_other by reflexivity.
  unfold set_title, falsy, get_or_none.
  rewrite get_title_before_title. unfold EpubView.first_value.
  destruct (_meta_values b "DC" "title") as [|t ts] eqn:E.
  - cbn [truthy negb]. now rewrite dict_get_set.
  - cbn [truthy]. rewrite negb_involutive. destruct (is_empty t).
    + now rewrite dict_get_set.
    + rewrite get_title_before_title. unfold EpubView.first_value. now rewrite E.
Qed.

(** The publisher when the book has no chapter: the first publisher of
    the structured metadata, the empty string when there is none. *)
Lemma read_epub_publisher_no_chapter :
  chapters_of_items (get_items b) = [] ->
  dict_get "publisher" (read_epub stem file b)
  = Some (match first_value "publisher" with
          | Some v => v
          | None => JStr EmptyString
          end).
Proof.
  intros Hc. rewrite read_epub_stages.
  pose proof get_chapters_with_chapters as C. rewrite Hc in C.
  assert (forall d, dict_get "chapters" d = Some (JList []) ->
                    truthy (get_or_none "chapters" d) = false) as T.
  { intros d H. unfold get_or_none. now rewrite H. }
  unfold publisher_from_mark.
  rewrite T, andb_false_r
    by (rewrite get_author_from_stem_other, get_publisher_from_text_other,
         get_author_from_text_other by reflexivity; exact C).
  rewrite get_author_from_stem_other by reflexivity.
  unfold publisher_from_text.
  rewrite T, andb_false_r
    by (rewrite get_author_from_text_other by reflexivity; exact C).
  rewrite get_author_from_text_other, get_set_description_other
    by reflexivity.
  unfold EpubView.with_chapters, EpubView.before_title.
  rewrite get_add_items_other, get_drop_authors_other, get_set_title_other
    by reflexivity.
  unfold set_defaults. cbv zeta.
  rewrite !dict_get_setdefault. cbn [String.eqb Ascii.eqb Bool.eqb].
  rewrite get_set_identity_other, get_join_authors_other by reflexivity.
  rewrite (get_first_after_loop "publisher" "publisher") by (cbn; auto).
  now destruct (first_value "publisher").
Qed.

(** The description when the book has no chapter: the first description
    of the structured metadata, no key at all when there is none. *)
Lemma read_epub_description_no_chapter :
  chapters_of_items (get_items b) = [] ->
  dict_get "description" (read_epub stem file b) = first_value "description".
Proof.
  intros Hc. rewrite read_epub_stages.
  rewrite get_publisher_from_mark_other, get_author_from_stem_other,
    get_publisher_from_text_other, get_author_from_text_other
    by reflexivity.
  assert (dict_get "chapters" with_chapters = Some (JList [])) as C.
  { pose proof get_chapters_with_chapters as C. rewrite Hc in C.
    now rewrite get_set_description_other in C by reflexivity. }
  assert (dict_get "description" with_chapters = first_value "description")
    as G.
  { unfold EpubView.with_chapters, EpubView.before_title.
    rewrite get_add_items_other, get_drop_authors_other,
      get_set_title_other, get_set_defaults_other, get_set_identity_other,
      get_join_authors_other by reflexivity.
    apply get_first_after_loop. cbn; auto. }
  unfold set_description.
  destruct (falsy "description" with_chapters); [|exact G].
  unfold get_list. rewrite C. exact G.
Qed.

Lemma read_epub_link :
  dict_get "linkToBook" (read_epub stem file b) = Some (JStr EmptyString).
Proof.
  rewrite read_epub_stages.
  rewrite get_publisher_from_mark_other, get_author_from_stem_other,
    get_publisher_from_text_other, get_author_from_text_other,
    get_set_description_other by reflexivity.
  unfold EpubView.with_chapters, EpubView.before_title.
  rewrite get_add_items_other, get_drop_authors_other, get_set_title_other
    by reflexivity.
  unfold set_defaults. cbv zeta.
  rewrite !dict_get_setdefault. cbn [String.eqb Ascii.eqb Bool.eqb].
  rewrite get_set_identity_other, get_join_authors_other,
    get_meta_loop_other by reflexivity.
  reflexivity.
Qed.

(** The publisher is a string. *)
Lemma read_epub_publisher_str :
  has_str "publisher" (read_epub stem file b).
Proof.
  apply has_str_after_title; try reflexivity.
  apply (ws_set_title stem b "publisher" _ eq_refl eq_refl).
  unfold EpubView.before_title, set_defaults. cbv zeta.
  unfold has_str. rewrite !dict_get_setdefault.
  cbn [String.eqb Ascii.eqb Bool.eqb].
  pose proof (ws_set_identity b file "publisher"
                (join_authors
                   (fold_left (set_meta b) essential_meta
                      [("book_id", JStr stem); ("chapters", JList [])]))
                eq_refl eq_refl) as [_ W].
  pose proof (ws_join_authors "publisher"
                (fold_left (set_meta b) essential_meta
                   [("book_id", JStr stem); ("chapters", JList [])])
                eq_refl eq_refl) as [_ W'].
  specialize (W (W' (str_or_absent_after_loop "publisher" eq_refl eq_refl))).
  unfold str_or_absent in W.
  destruct (dict_get "publisher" _) as [[| | | |s| |]|]; try contradiction;
    eauto.
Qed.

(** Every field but the two lists is a string, or is absent. *)
Lemma read_epub_str_or_absent k :
  String.eqb k "authors" = false -> String.eqb k "chapters" = false ->
  str_or_absent k (read_epub stem file b).
Proof.
  intros E1 E2. rewrite read_epub_stages.
  apply (ws_publisher_from_mark _ _ E1 E2),
    (ws_author_from_stem stem _ _ E1 E2),
    (ws_publisher_from_text _ _ E1 E2),
    (ws_author_from_text _ _ E1 E2),
    (ws_set_description _ _ E1 E2).
  unfold EpubView.with_chapters.
  apply (ws_add_items (get_items b) _ _ E1 E2), (ws_drop_authors _ _ E1 E2),
    (ws_set_title stem b _ _ E1 E2).
  now apply str_or_absent_before_title.
Qed.

End ResolvedFields.


(* ================================================================== *)
(** * Properties of the author pattern *)

Section AuthorPattern.

Import Re ReView.

(** A greedy run takes every character of the class when what follows can
    be matched from there. *)
Lemma star_takes_run p k run :
  forall prev cap rest res,
    all_chars p run = true -> stops p rest = true ->
    k (last_char prev run) rest (push_all run cap) = Some res ->
    star p k prev (run ++ rest) cap = Some res.
Proof.
  induction run as [|c run IH]; intros prev cap rest res Hrun Hstop Hk.
  - cbn [append last_char push_all] in *.
    destruct rest as [|c r]; [exact Hk|].
    cbn [stops] in Hstop. apply negb_true_iff in Hstop.
    cbn [star]. now rewrite Hstop.
  - cbn [all_chars] in Hrun. apply andb_true_iff in Hrun as [Hc Hrun].
    cbn [append star]. rewrite Hc.
    now rewrite (IH (Some c) (push c cap) rest res).
Qed.

Lemma push_all_reading s acc :
  push_all s (Reading acc) = Reading (acc ++ s).
Proof.
  revert acc. induction s as [|c s IH]; intros acc; cbn [push_all push].
  - now rewrite append_empty_r.
  - rewrite IH, append_assoc. reflexivity.
Qed.

(** An author line at the start of the text: [By] or [by], white space,
    then a name that does not start with white space and runs to the
    first line break or comma.  The pattern captures the name. *)
Lemma by_author_captures_name b w ws n name t rest :
  b = "B"%char \/ b = "b"%char ->
  all_chars isspace (String w ws) = true ->
  isspace n = false ->
  all_chars not_newline_or_comma (String n name) = true ->
  not_newline_or_comma t = false ->
  search_group1 by_author
    (String b (String "y" (String w ws ++ String n name ++ String t rest)))
  = Some (String n name).
Proof.
  intros Hb Hws Hn Hname Ht.
  cbn [all_chars] in Hws, Hname.
  apply andb_true_iff in Hws as [Hw Hws].
  apply andb_true_iff in Hname as [Hn' Hname].
  unfold search_group1. cbn [search_from].
  assert (match_here by_author None
            (String b
               (String "y" (String w ws ++ String n name ++ String t rest)))
            NotYet
          = Some (Captured (String n name))) as ->; [|reflexivity].
  unfold by_author.
  cbn [match_here word_before word_after xorb].
  assert (is_word b = true) as -> by (destruct Hb as [-> | ->]; reflexivity).
  assert (either "B" "b" b = true) as ->
      by (destruct Hb as [-> | ->]; reflexivity).
  change (chr "y" "y") with true. cbv iota. cbn [push append].
  rewrite Hw.
  apply star_takes_run; [assumption|cbn [append stops]; now rewrite Hn|].
  cbn beta. rewrite Hn'.
  apply star_takes_run;
    [assumption|cbn [stops]; now rewrite Ht|].
  rewrite push_all_reading. reflexivity.
Qed.

Lemma strip_keeps_head n name :
  isspace n = false ->
  EpubToJson.nonempty (strip (String n name)) = true.
Proof.
  intros Hn. unfold strip. cbn [rstrip]. rewrite Hn. cbn [andb lstrip].
  now rewrite Hn.
Qed.

End AuthorPattern.


(* ================================================================== *)
(** * Properties of the embedding run *)

Section EmbeddingRun.

Import Escli EmbedView RequestsView.

Variable encode : string -> json.
Variable accepts : list string -> string -> bool.
Variables source_field target_field : string.
Variable index_override : option string.

#[local] Abbreviation embed_pair :=
  (Escli.embed_pair encode source_field target_field index_override).
#[local] Abbreviation embed_loop :=
  (Escli.embed_loop encode accepts source_field target_field index_override).
#[local] Abbreviation flush := (Escli.flush accepts).
#[local] Abbreviation produced :=
  (EmbedView.produced encode source_field target_field index_override).
#[local] Abbreviation merge_input :=
  (EmbedView.merge_input source_field index_override).
#[local] Abbreviation merged :=
  (EmbedView.merged encode source_field target_field index_override).

(** A pair adds two lines or none. *)
Lemma embed_pair_two_lines meta src lines :
  embed_pair meta src = Ok (Some lines) -> length lines = 2.
Proof.
  unfold Escli.embed_pair. intros E.
  destruct (index_of index_override meta) as [idx|]; [|discriminate].
  cbn [bind] in E.
  destruct (py_getitem meta "index") as [m|]; [|discriminate].
  cbn [bind] in E.
  destruct (py_contains "_id" m) as [has|]; [|discriminate].
  cbn [bind] in E. destruct has; cbn [negb] in E.
  - destruct (py_getitem m "_id"); [|discriminate]. cbn [bind] in E.
    destruct (py_get src source_field _) as [text|]; [|discriminate].
    cbn [bind] in E. destruct (negb (truthy text)); [discriminate|].
    destruct (encode_text encode text); [|discriminate].
    cbn [bind] in E. now injection E as <-.
  - destruct (py_get src source_field _) as [text|]; [|discriminate].
    cbn [bind] in E. destruct (negb (truthy text)); [discriminate|].
    destruct (encode_text encode text); [|discriminate].
    cbn [bind] in E.
    destruct (py_setitem src target_field _); [|discriminate].
    cbn [bind] in E. now injection E as <-.
Qed.

Lemma half_of_even n : Nat.even n = true -> 2 * (n / 2) = n.
Proof.
  intros H. apply Nat.even_spec in H. destruct H as (k & ->).
  rewrite (Nat.mul_comm 2 k), Nat.div_mul by discriminate. lia.
Qed.

Lemma even_plus_two n : Nat.even (n + 2) = Nat.even n.
Proof. rewrite Nat.even_add. now destruct (Nat.even n). Qed.

Lemma flush_accepted r :
  raised (flush r) = None ->
  flush r = Run [] (total r + length (to_update r) / 2)
                (posted r ++ [body_of (to_update r)]) None.
Proof.
  unfold Escli.flush. now destruct (accepts _ _).
Qed.

Lemma embed_loop_batches ds :
  forall r batches,
    raised r = None ->
    posted r = map body_of batches ->
    2 * total r = length (concat batches) ->
    Nat.even (length (to_update r)) = true ->
    length (to_update r) < 1000 ->
    raised (embed_loop ds r) = None ->
    exists more,
      posted (embed_loop ds r) = map body_of (batches ++ more)
      /\ concat more = to_update r ++ produced ds
      /\ Forall (fun b => length b = 1000) (removelast more)
      /\ Forall (fun b => 0 < length b <= 1000) more
      /\ 2 * total (embed_loop ds r) = length (concat (batches ++ more))
      /\ to_update (embed_loop ds r) = [].
Proof.
  induction ds as [| meta src next IH | e]; intros r batches Hr Hp Ht He Hl Hf.
  - cbn [Escli.embed_loop EmbedView.produced] in *.
    destruct (to_update r) as [|x u] eqn:Eu.
    + exists []. rewrite !List.app_nil_r. rewrite Eu.
      repeat split; try assumption; constructor.
    + rewrite <- Eu in *. rewrite (flush_accepted r Hf).
      cbn [posted total to_update].
      exists [to_update r]. rewrite Hp, map_app, List.app_nil_r.
      cbn [map concat removelast]. rewrite List.app_nil_r.
      rewrite concat_app. cbn [concat]. rewrite List.app_nil_r.
      rewrite (List.length_app (concat batches)).
      repeat split; try constructor; try constructor.
      * rewrite Eu. cbn [length]. lia.
      * lia.
      * pose proof (half_of_even _ He). lia.
  - cbn [Escli.embed_loop EmbedView.produced] in *.
    destruct (embed_pair meta src) as [[lines|]|] eqn:Ep.
    + pose proof (embed_pair_two_lines _ _ _ Ep) as L2.
      cbn [to_update] in Hf |- *.
      assert (Hlen : length (to_update r ++ lines)
                     = length (to_update r) + 2)
        by (rewrite List.length_app; lia).
      destruct (1000 <=? length (to_update r ++ lines))%nat eqn:Ec.
      * apply Nat.leb_le in Ec.
        set (r1 := Run (to_update r ++ lines) (total r) (posted r) None)
          in *.
        destruct (raised (flush r1)) eqn:Ef; [congruence|].
        rewrite (flush_accepted r1 Ef) in Hf |- *.
        cbn [to_update total posted] in Hf |- *.
        assert (E1000 : length (to_update r ++ lines) = 1000).
        { assert (length (to_update r) <> 999).
          { intros E9. rewrite E9 in He. discriminate. }
          lia. }
        destruct (IH (Run [] (total r + length (to_update r ++ lines) / 2)
                          (posted r ++ [body_of (to_update r ++ lines)])
                          None)
                     (batches ++ [to_update r ++ lines]))
          as (more & M1 & M2 & M3 & M4 & M5 & M6);
          cbn [raised posted total to_update]; try reflexivity;
          try assumption.
        -- now rewrite Hp, map_app.
        -- rewrite concat_app. cbn [concat]. rewrite List.app_nil_r.
           rewrite (List.length_app (concat batches)).
           assert (He1 : Nat.even (length (to_update r ++ lines)) = true)
             by (rewrite Hlen, even_plus_two; exact He).
           pose proof (half_of_even _ He1). lia.
        -- cbn [length]. lia.
        -- cbn [to_update app] in M2.
           exists ((to_update r ++ lines) :: more).
           rewrite <- List.app_assoc in M1, M5. cbn [app] in M1, M5.
           split; [exact M1|]. split.
           { cbn [concat]. rewrite M2. now rewrite List.app_assoc. }
           split.
           { cbn [removelast]. destruct more; [constructor|].
             constructor; assumption. }
           split; [constructor; [lia|assumption]|].
           split; assumption.
      * apply Nat.leb_gt in Ec.
        destruct (IH (Run (to_update r ++ lines) (total r) (posted r) None)
                     batches)
          as (more & M1 & M2 & M3 & M4 & M5 & M6);
          cbn [raised posted total to_update]; try reflexivity;
          try assumption.
        -- now rewrite Hlen, even_plus_two.
        -- cbn [to_update] in M2. exists more.
           split; [exact M1|]. split.
           { rewrite M2. now rewrite List.app_assoc. }
           repeat split; assumption.
    + now apply IH.
    + cbn [raised] in Hf. discriminate.
  - cbn [Escli.embed_loop raised] in Hf. discriminate.
Qed.

(** ** One pair of the bulk format *)

Lemma index_of_known meta m :
  dict_get "index" meta = Some (JDict m) ->
  index_known index_override m = true ->
  index_of index_override (JDict meta)
  = Ok (index_name index_override m).
Proof.
  intros Hm Hk. unfold index_of, index_known, index_name in *.
  assert (G : dict_mem "_index" m = true ->
              (m0 <- py_getitem (JDict meta) "index" ;;
               py_getitem m0 "_index")
              = Ok (BulkView.get_default "_index" JNull m)).
  { intros H. cbn [py_getitem]. rewrite Hm. cbn [bind py_getitem].
    unfold BulkView.get_default. rewrite dict_mem_get in H.
    now destruct (dict_get "_index" m). }
  destruct index_override as [o|]; [|now apply G].
  destruct (is_empty o); cbn [negb orb] in *; [now apply G|reflexivity].
Qed.

(** On a pair of the bulk format the body of the loop adds the lines of
    the specification, and says [continue] when there are none. *)
Lemma embed_pair_merged p :
  merge_input p = true ->
  embed_pair (fst p) (snd p)
  = Ok (match merged p with
        | [] => None
        | lines => Some lines
        end).
Proof.
  destruct p as (meta, src). unfold EmbedView.merge_input, EmbedView.merged.
  cbn [fst snd].
  destruct meta as [| | | | | |meta]; try discriminate.
  destruct src as [| | | | | |src]; try discriminate.
  destruct (dict_get "index" meta) as [[| | | | | |m]|] eqn:Hm;
    try discriminate.
  intros H. apply andb_prop in H. destruct H as (Hk & Ht).
  unfold Escli.embed_pair.
  rewrite (index_of_known meta m Hm Hk). cbn [bind py_getitem].
  rewrite Hm. cbn [bind py_contains]. rewrite dict_mem_get.
  destruct (dict_get "_id" m) as [id|] eqn:Hid; cbn [negb bind py_getitem py_get];
    rewrite ?Hid; cbn [bind];
    destruct (dict_get source_field src) as [[| | | |[|c t]| |]|];
    try discriminate; reflexivity.
Qed.

Lemma produced_merged pairs :
  forallb merge_input pairs = true ->
  produced (yields pairs) = flat_map merged pairs.
Proof.
  induction pairs as [|[meta src] pairs IH]; [reflexivity|].
  cbn [forallb]. intros H. apply andb_prop in H. destruct H as (Hp & H).
  cbn [yields EmbedView.produced flat_map].
  pose proof (embed_pair_merged (meta, src) Hp) as E.
  cbn [fst snd] in E. rewrite E, (IH H).
  now destruct (merged (meta, src)).
Qed.

(** With a search engine that accepts every request, the run over pairs
    of the bulk format ends without an exception. *)
Lemma embed_loop_returns pairs :
  (forall sent body, accepts sent body = true) ->
  forallb merge_input pairs = true ->
  forall r, raised r = None ->
            raised (embed_loop (yields pairs) r) = None.
Proof.
  intros Ha.
  assert (F : forall r, raised (flush r) = None).
  { intros r. unfold Escli.flush. now rewrite Ha. }
  induction pairs as [|[meta src] pairs IH]; intros H r Hr.
  - cbn [yields Escli.embed_loop]. destruct (to_update r); [assumption|].
    apply F.
  - cbn [forallb] in H. apply andb_prop in H. destruct H as (Hp & H).
    cbn [yields Escli.embed_loop].
    pose proof (embed_pair_merged (meta, src) Hp) as E.
    cbn [fst snd] in E. rewrite E.
    destruct (merged (meta, src)) as [|x lines]; [now apply IH|].
    destruct (1000 <=? _)%nat.
    + rewrite F. apply IH; [assumption|apply F].
    + now apply IH.
Qed.

End EmbeddingRun.


(* ================================================================== *)
(** * The chunk serialiser and the bulk encoder: the claims *)

Section EncoderClaims.

Import ConvertJson BulkView.

(** C2.  For a document whose chapters are [vs], [to_bulk_actions] returns
    the two book lines followed by one pair of lines for each paragraph:
    there are exactly N chunk documents, N the sum of the paragraph counts
    of the chapters in order; their [chunk_id] values are
    ["{book_id}-{seq:06d}"] for [seq = 0, 1, ..., N-1] in that order, the
    sequence number printed on six digits at least; their texts are the
    paragraphs in (section, paragraph) order, none moved and none
    dropped. *)
Theorem C2_chunk_count_and_ids (b : dict) (ib ic : string)
  (vs : list (json * list json)) :
  chapters_of (JDict b) = Ok vs ->
  let N := paragraph_count vs in
  let book_id := get_default "book_id" JNull b in
  exists docs,
    to_bulk_actions (JDict b) ib ic
    = Ok (book_pair ib b ++ flat_map (chunk_pair ic) docs)
    /\ length docs = N
    /\ map chunk_id_of docs
       = map (fun seq => JStr (py_str book_id ++ "-" ++ format_06d seq))
             (seq 0 N)
    /\ map text_of docs = concat (map snd vs)
    /\ forall n,
         String.length (format_06d n)
         = Nat.max 6 (String.length (str_of_N (N.of_nat n))).
Proof.
  intros E N book_id.
  exists (chunk_docs book_id vs 0 0). repeat split.
  - now rewrite to_bulk_actions_eq, E.
  - apply chunk_docs_length.
  - apply chunk_docs_ids.
  - apply chunk_docs_texts.
  - apply format_06d_length.
Qed.

Lemma C2_witness :
  chapters_of (JDict sample_document) = Ok sample_chapters
  /\ exists docs,
       to_bulk_actions (JDict sample_document) "books" "book_content"
       = Ok (book_pair "books" sample_document
               ++ flat_map (chunk_pair "book_content") docs)
       /\ length docs = 3
       /\ map chunk_id_of docs
          = [JStr "8f7785b93990c569-000000"; JStr "8f7785b93990c569-000001";
             JStr "8f7785b93990c569-000002"].
Proof.
  split; [reflexivity|].
  destruct (C2_chunk_count_and_ids sample_document "books" "book_content"
              sample_chapters eq_refl) as (docs & H1 & H2 & H3 & _).
  exists docs. repeat split; assumption.
Defined.

Lemma action_lines_app l1 l2 :
  Nat.even (length l1) = true ->
  action_lines (l1 ++ l2) = action_lines l1 ++ action_lines l2.
Proof.
  induction l1 as [| |m s l1 IH] using list_pair_ind; intros H.
  - reflexivity.
  - discriminate.
  - cbn [app action_lines]. now rewrite IH.
Qed.

Lemma action_lines_chunk_pairs ic docs :
  action_lines (flat_map (chunk_pair ic) docs)
  = map (fun _ => dumps true (index_action (JStr ic) None)) docs.
Proof.
  induction docs as [|d docs IH]; [reflexivity|].
  cbn [flat_map chunk_pair app action_lines map]. now rewrite IH.
Qed.

Lemma chunk_pairs_even ic docs :
  Nat.even (length (flat_map (chunk_pair ic) docs)) = true.
Proof. induction docs; [reflexivity|assumption]. Qed.

Lemma no_id_action ic :
  action_id (dumps true (index_action (JStr ic) None)) = Ok None.
Proof. now apply action_id_index_action. Qed.

(** The content stream of one input: chunk pairs only. *)
Lemma emitted_content ib ic data :
  exists docs, snd (emitted ib ic data) = flat_map (chunk_pair ic) docs.
Proof.
  unfold emitted.
  destruct (to_bulk_actions data ib ic) as [actions|] eqn:E;
    [|now exists []].
  apply to_bulk_actions_ok_inv in E as (b & vs & -> & V & ->).
  destruct (String.eqb ib ic); [now exists []|].
  now eexists.
Qed.

(** The books stream of one input, the index names being different: the
    book pair, or nothing when the input is refused. *)
Lemma emitted_books ib ic data :
  String.eqb ib ic = false ->
  fst (emitted ib ic data)
  = if is_ok (to_bulk_actions data ib ic)
    then [dumps true (index_action (JStr ib) (Some (book_id_of data)));
          dumps false (match data with
                       | JDict b => summary b
                       | _ => JNull
                       end)]
    else [].
Proof.
  intros N. unfold emitted.
  destruct (to_bulk_actions data ib ic) as [actions|] eqn:E;
    [|reflexivity].
  apply to_bulk_actions_ok_inv in E as (b & vs & -> & V & ->).
  now rewrite N.
Qed.

Lemma content_action_lines ib ic (json_iter : list (string * json)) :
  Forall (fun m => action_id m = Ok None)
    (action_lines
       (concat (map (fun nd => snd (emitted ib ic (snd nd))) json_iter))).
Proof.
  induction json_iter as [|[name data] it IH]; [constructor|].
  cbn [map concat snd].
  destruct (emitted_content ib ic data) as (docs & ->).
  rewrite action_lines_app by apply chunk_pairs_even.
  apply Forall_app; split; [|exact IH].
  rewrite action_lines_chunk_pairs, Forall_map.
  apply Forall_forall. intros ? _. apply no_id_action.
Qed.

Lemma books_action_lines ib ic (json_iter : list (string * json)) :
  forallb (fun nd => wf (snd nd)) json_iter = true ->
  String.eqb ib ic = false ->
  map action_id
    (action_lines
       (concat (map (fun nd => fst (emitted ib ic (snd nd))) json_iter)))
  = map (fun nd => Ok (Some (book_id_of (snd nd)))) (encoded ib ic json_iter).
Proof.
  intros HW N.
  induction json_iter as [|[name data] it IH]; [reflexivity|].
  simpl in HW. apply andb_true_iff in HW as [Hd HW].
  cbn [map concat snd encoded filter].
  rewrite emitted_books by assumption.
  destruct (is_ok (to_bulk_actions data ib ic)) eqn:E.
  - cbn [app action_lines map snd]. rewrite IH by assumption.
    f_equal. apply action_id_index_action, wf_index_action; [reflexivity|].
    destruct data; try reflexivity. now apply wf_get_default.
  - cbn [app]. now apply IH.
Qed.

(** C6.  For a dictionary the encoder accepts, the first line is an index
    action whose [_id] is the [book_id] of the summary on the second
    line; every chunk pair starts with an index action that has no [_id]
    key.  In the streams of [process_json_objects], the action lines of
    the content stream carry no [_id], and (the two index names being
    different) the action lines of the books stream carry the [book_id]
    of the inputs, in order: the same input twice gives the same [_id]
    twice. *)
Theorem C6_book_id_and_no_chunk_id (ib ic : string)
  (json_iter : list (string * json)) :
  forallb (fun nd => wf (snd nd)) json_iter = true ->
  let st := fst (process_json_objects ib ic json_iter) in
  (forall b vs,
      wf (JDict b) = true -> chapters_of (JDict b) = Ok vs ->
      exists action docs,
        to_bulk_actions (JDict b) ib ic
        = Ok (action :: dumps false (summary b)
                :: flat_map (chunk_pair ic) docs)
        /\ action
           = dumps true
               (index_action (JStr ib)
                  (Some (get_default "book_id" JNull b)))
        /\ action_id action = Ok (Some (get_default "book_id" JNull b))
        /\ py_getitem (summary b) "book_id"
           = Ok (get_default "book_id" JNull b)
        /\ Forall (fun doc =>
                     action_id (hd EmptyString (chunk_pair ic doc))
                     = Ok None) docs)
  /\ Forall (fun m => action_id m = Ok None) (action_lines (content_lines st))
  /\ (String.eqb ib ic = false ->
      map action_id (action_lines (books_lines st))
      = map (fun nd => Ok (Some (book_id_of (snd nd))))
            (encoded ib ic json_iter)).
Proof.
  intros HW st. subst st. unfold process_json_objects.
  rewrite process_from_streams by assumption.
  cbn [books_lines content_lines app]. repeat split.
  - intros b vs Hb V.
    exists (dumps true (index_action (JStr ib)
                          (Some (get_default "book_id" JNull b)))),
      (chunk_docs (get_default "book_id" JNull b) vs 0 0).
    repeat split.
    + now rewrite to_bulk_actions_eq, V.
    + apply action_id_index_action, wf_index_action; [reflexivity|].
      now apply wf_get_default.
    + apply Forall_forall. intros doc _. apply no_id_action.
  - apply content_action_lines.
  - intros N. now apply books_action_lines.
Qed.

Lemma C6_witness :
  forallb (fun nd => wf (snd nd))
    [("a.json", JDict sample_document); ("b.json", JDict sample_document)]
  = true
  /\ map action_id
       (action_lines
          (books_lines
             (fst (process_json_objects "books" "book_content"
                     [("a.json", JDict sample_document);
                      ("b.json", JDict sample_document)]))))
     = [Ok (Some (JStr "8f7785b93990c569"));
        Ok (Some (JStr "8f7785b93990c569"))].
Proof.
  split; [reflexivity|].
  exact (proj2 (proj2 (C6_book_id_and_no_chunk_id "books" "book_content"
                         [("a.json", JDict sample_document);
                          ("b.json", JDict sample_document)] eq_refl))
           eq_refl).
Defined.

(** C9.  Both streams of [process_json_objects] alternate action line and
    source line and so have an even number of lines; each is the
    concatenation, in the order of the inputs, of what the inputs add to
    it.  For one document the lines are the book pair first, then the
    chunk pairs in (section, paragraph) order; they alternate too. *)
Theorem C9_streams_alternate (ib ic : string)
  (json_iter : list (string * json)) :
  forallb (fun nd => wf (snd nd)) json_iter = true ->
  let st := fst (process_json_objects ib ic json_iter) in
  alternating (books_lines st) = true
  /\ alternating (content_lines st) = true
  /\ Nat.even (length (books_lines st)) = true
  /\ Nat.even (length (content_lines st)) = true
  /\ books_lines st
     = concat (map (fun nd => fst (emitted ib ic (snd nd))) json_iter)
  /\ content_lines st
     = concat (map (fun nd => snd (emitted ib ic (snd nd))) json_iter)
  /\ forall b vs,
       wf (JDict b) = true -> chapters_of (JDict b) = Ok vs ->
       let docs := chunk_docs (get_default "book_id" JNull b) vs 0 0 in
       to_bulk_actions (JDict b) ib ic
       = Ok (book_pair ib b ++ flat_map (chunk_pair ic) docs)
       /\ alternating (book_pair ib b ++ flat_map (chunk_pair ic) docs)
          = true
       /\ emitted ib ic (JDict b)
          = (if String.eqb ib ic
             then (book_pair ib b ++ flat_map (chunk_pair ic) docs, [])
             else (book_pair ib b, flat_map (chunk_pair ic) docs))
       /\ map text_of docs = concat (map snd vs).
Proof.
  intros HW st. subst st. unfold process_json_objects.
  rewrite process_from_streams by assumption.
  cbn [books_lines content_lines app].
  assert (alternating
            (concat (map (fun nd => fst (emitted ib ic (snd nd))) json_iter))
          = true
          /\ alternating
               (concat (map (fun nd => snd (emitted ib ic (snd nd)))
                            json_iter))
             = true) as [A1 A2].
  { split; apply alternating_concat, Forall_map, Forall_forall;
      intros [name data] Hin;
      (assert (wf data = true) as Hd
          by (rewrite forallb_forall in HW; exact (HW _ Hin)));
      now destruct (alternating_emitted ib ic data Hd). }
  repeat split; try assumption; try (now apply alternating_even).
  - now apply to_bulk_actions_document.
  - now apply alternating_document_lines.
  - unfold emitted. rewrite (to_bulk_actions_document ib ic b vs) by assumption.
    unfold document_lines, book_pair. cbn [app firstn skipn].
    reflexivity.
  - apply chunk_docs_texts.
Qed.

Lemma C9_witness :
  forallb (fun nd => wf (snd nd))
    [("a.json", JDict sample_document); ("b.json", JNull)] = true
  /\ alternating
       (content_lines
          (fst (process_json_objects "books" "book_content"
                  [("a.json", JDict sample_document); ("b.json", JNull)])))
     = true.
Proof.
  split; [reflexivity|].
  exact (proj1 (proj2 (C9_streams_alternate "books" "book_content"
                         [("a.json", JDict sample_document);
                          ("b.json", JNull)] eq_refl))).
Defined.

(** C10, as the code has it.  For a JSON object whose chapters can be
    iterated ([chapters] absent, or a list of objects whose [paragraphs]
    is absent or a list), [to_bulk_actions] returns, and its first two
    lines are the book lines.  In the summary an absent [source_uid],
    [author], [publisher], [description], [genres] or [linkToBook] is the
    empty string, an absent [book_id], [title] or [language] is null.  An
    object with no [chapters] key gives the two book lines and no
    other. *)
Theorem C10_defaults_of_absent_fields (b : dict) (ib ic : string)
  (vs : list (json * list json)) :
  chapters_of (JDict b) = Ok vs ->
  (exists rest,
      to_bulk_actions (JDict b) ib ic
      = Ok (dumps true
              (index_action (JStr ib) (Some (get_default "book_id" JNull b)))
              :: dumps false (summary b) :: rest))
  /\ (forall k,
        In k ["source_uid"; "author"; "publisher"; "description"; "genres";
              "linkToBook"] ->
        dict_get k b = None ->
        py_getitem (summary b) k = Ok (JStr EmptyString))
  /\ (forall k,
        In k ["book_id"; "title"; "language"] ->
        dict_get k b = None ->
        py_getitem (summary b) k = Ok JNull)
  /\ (dict_get "chapters" b = None ->
      to_bulk_actions (JDict b) ib ic = Ok (book_pair ib b))
  /\ dumps false JNull = "null".
Proof.
  intros V. repeat split.
  - eexists. rewrite to_bulk_actions_eq, V. reflexivity.
  - intros k Hk E. unfold summary, py_getitem, get_default.
    simpl in Hk.
    repeat (destruct Hk as [<- | Hk]; [cbn; now rewrite ?E|]).
    destruct Hk.
  - intros k Hk E. unfold summary, py_getitem, get_default.
    simpl in Hk.
    repeat (destruct Hk as [<- | Hk]; [cbn; now rewrite ?E|]).
    destruct Hk.
  - intros E. rewrite to_bulk_actions_eq. unfold chapters_of.
    cbn. unfold get_default in *. rewrite E. reflexivity.
Qed.

Lemma C10_witness :
  chapters_of (JDict []) = Ok []
  /\ to_bulk_actions (JDict []) "books" "book_content"
     = Ok [dumps true (index_action (JStr "books") (Some JNull));
           dumps false
             (JDict [("book_id", JNull);
                     ("source_uid", JStr EmptyString);
                     ("title", JNull);
                     ("author", JStr EmptyString);
                     ("publisher", JStr EmptyString);
                     ("description", JStr EmptyString);
                     ("genres", JStr EmptyString);
                     ("linkToBook", JStr EmptyString);
                     ("language", JNull);
                     ("suggest", JDict [("input", JList [])])])].
Proof.
  split; [reflexivity|].
  exact (proj1 (proj2 (proj2 (proj2
           (C10_defaults_of_absent_fields [] "books" "book_content" []
              eq_refl)))) eq_refl).
Defined.

(** C10, as stated, fails: an object whose [chapters] is null makes
    [to_bulk_actions] raise. *)
Lemma C10_counterexample :
  to_bulk_actions (JDict [("chapters", JNull)]) "books" "book_content"
  = Raise TypeError.
Proof. reflexivity. Qed.

End EncoderClaims.


(* ================================================================== *)
(** * The embedding-merge mode: the claim *)

Section EmbeddingMerge.

Import Escli EmbedView RequestsView.

Variable encode : string -> json.
Variable accepts : list string -> string -> bool.
Variables source_field target_field : string.
Variable index_override : option string.

#[local] Abbreviation embed_from_ndjson :=
  (Escli.embed_from_ndjson encode accepts source_field target_field
     index_override).
#[local] Abbreviation merge_input :=
  (EmbedView.merge_input source_field index_override).
#[local] Abbreviation merged :=
  (EmbedView.merged encode source_field target_field index_override).
#[local] Abbreviation index_name := (EmbedView.index_name index_override).

(** C7.  The run of [embed_from_ndjson] over a file, the pairs read from
    it being [pairs], each of them an action/source pair as the
    specification describes it, and the search engine accepting every
    request.  The run ends without an exception and leaves no line
    unsent; the bodies it posts are made of the lines of the pairs, in
    the order of the pairs, each body being its lines joined by line
    feeds with one more at the end; the count of items is half the
    number of these lines.  The lines of a pair are
    - none, when the text under the source field is absent or empty;
    - without an ["_id"] in the action: an index action, and the source
      with the vector stored under the target field;
    - with an ["_id"]: a partial update action for that id, and a
      document that holds the vector under the target field. *)
Theorem C7_embedding_merge (lines : list string)
  (pairs : list (json * json)) :
  _iter_ndjson_docs lines = yields pairs ->
  forallb merge_input pairs = true ->
  (forall sent body, accepts sent body = true) ->
  let run := embed_from_ndjson lines in
  raised run = None
  /\ to_update run = []
  /\ (exists batches,
        posted run = map body_of batches
        /\ concat batches = flat_map merged pairs)
  /\ 2 * total run = length (flat_map merged pairs)
  /\ (forall meta m src,
        dict_get "index" meta = Some (JDict m) ->
        (dict_get source_field src = None
         \/ dict_get source_field src = Some (JStr EmptyString) ->
         merged (JDict meta, JDict src) = [])
        /\ (forall c t,
              dict_get source_field src = Some (JStr (String c t)) ->
              dict_get "_id" m = None ->
              merged (JDict meta, JDict src)
              = [dumps true
                   (JDict [("index", JDict [("_index", index_name m)])]);
                 dumps false
                   (JDict (dict_set target_field (encode (String c t))
                             src))])
        /\ (forall c t id,
              dict_get source_field src = Some (JStr (String c t)) ->
              dict_get "_id" m = Some id ->
              merged (JDict meta, JDict src)
              = [dumps true
                   (JDict [("update",
                            JDict [("_index", index_name m);
                                   ("_id", id)])]);
                 dumps true
                   (JDict [("doc",
                            JDict [(target_field,
                                    encode (String c t))])])])).
Proof.
  intros Hl Hp Ha run. subst run. unfold Escli.embed_from_ndjson.
  rewrite Hl.
  pose proof (embed_loop_returns encode accepts source_field target_field
                index_override pairs Ha Hp (Run [] 0 [] None) eq_refl)
    as Hr.
  destruct (embed_loop_batches encode accepts source_field target_field
              index_override (yields pairs) (Run [] 0 [] None) [])
    as (more & M1 & M2 & _ & _ & M5 & M6);
    cbn [raised posted total to_update concat length]; try reflexivity;
    try assumption; try lia.
  cbn [app to_update] in M1, M2, M5.
  rewrite (produced_merged encode source_field target_field index_override
             pairs Hp) in M2.
  split; [exact Hr|]. split; [exact M6|]. split; [|split].
  - exists more. split; assumption.
  - now rewrite M5, M2.
  - intros meta m src Hm. unfold EmbedView.merged. cbn [fst snd].
    rewrite Hm. split; [|split].
    + now intros [-> | ->].
    + intros c t -> ->. reflexivity.
    + intros c t id -> ->. reflexivity.
Qed.

End EmbeddingMerge.

Section EmbeddingMergeWitness.

Import Escli EscliView EmbedView RequestsView Samples.

(** A run over the text: nothing for the chunk without text, nothing
    for the book summary, which has no such field. *)
Lemma C7_witness :
  _iter_ndjson_docs merge_lines = yields merge_pairs
  /\ forallb (merge_input "text" None) merge_pairs = true
  /\ raised (embed_from_ndjson sample_encode always_accepts "text"
               "text_vector" None merge_lines)
     = None
  /\ exists batches,
       posted (embed_from_ndjson sample_encode always_accepts "text"
                 "text_vector" None merge_lines)
       = map body_of batches
       /\ concat batches
          = flat_map (merged sample_encode "text" "text_vector" None)
              merge_pairs.
Proof.
  assert (H1 : _iter_ndjson_docs merge_lines = yields merge_pairs)
    by (vm_compute; reflexivity).
  assert (H2 : forallb (merge_input "text" None) merge_pairs = true)
    by reflexivity.
  split; [exact H1|]. split; [exact H2|].
  pose proof (C7_embedding_merge sample_encode always_accepts "text"
                "text_vector" None merge_lines merge_pairs H1 H2
                (fun _ _ => eq_refl)) as C.
  cbv zeta in C. destruct C as (C1 & _ & C3 & _).
  split; [exact C1|exact C3].
Defined.

(** The body posted for the file of the three pairs, the text being the
    source field: the chunk that has a text is indexed again with its
    vector. *)
Example embedded_chunk :
  posted (embed_from_ndjson sample_encode always_accepts "text"
            "text_vector" None merge_lines)
  = [("{" ++ quoted "index" ++ ": {" ++ quoted "_index" ++ ": "
          ++ quoted "book_content" ++ "}}" ++ Re.newline_str
          ++ "{" ++ quoted "chunk_id" ++ ": "
          ++ quoted "8f7785b93990c569-000001" ++ ", " ++ quoted "text"
          ++ ": " ++ quoted "one" ++ ", " ++ quoted "text_vector"
          ++ ": [0.3, -1.25e-05]}" ++ Re.newline_str)%string].
Proof. vm_compute. reflexivity. Qed.

(** The same file, the description being the source field: the book
    summary, which has an [_id], gets a partial update. *)
Example embedded_book :
  posted (embed_from_ndjson sample_encode always_accepts "description"
            "description_vector" None merge_lines)
  = [("{" ++ quoted "update" ++ ": {" ++ quoted "_index" ++ ": "
          ++ quoted "books" ++ ", " ++ quoted "_id" ++ ": "
          ++ quoted "8f7785b93990c569" ++ "}}" ++ Re.newline_str
          ++ "{" ++ quoted "doc" ++ ": {" ++ quoted "description_vector"
          ++ ": [0.8, -1.25e-05]}}" ++ Re.newline_str)%string].
Proof. vm_compute. reflexivity. Qed.

(** The skip rule on a whole stream: a file of chunks without text sends
    nothing to the search engine. *)
Example embed_nothing_for_empty_text :
  embed_from_ndjson sample_encode always_accepts "text" "text_vector" None
    [dumps true (JDict chunk_meta); dumps false (JDict empty_chunk);
     dumps true (JDict chunk_meta); dumps false (JDict empty_chunk)]
  = Run [] 0 [] None.
Proof. vm_compute. reflexivity. Qed.

End EmbeddingMergeWitness.


(* ================================================================== *)
(** * Identity derivation: the claims *)

Section IdentityClaims.

Import EpubToJson EpubView ConvertJson BulkView.

(** C1.  Two runs of the pipeline on the same bytes and the same parsed
    container, whatever the names of the files, the links and the index
    names of the two runs: the records have the same [source_uid] and the
    same [book_id], both functions of the container and the bytes alone,
    and the encoder returns, for both, chunk pairs for one and the same
    list of chunk documents, so the same [chunk_id] values in the same
    order. *)
Theorem C1_identity_is_deterministic
  (stem1 stem2 link1 link2 ib1 ic1 ib2 ic2 : string)
  (file : list Byte.byte) (b : book) :
  let r1 := parsed_record stem1 link1 file b in
  let r2 := parsed_record stem2 link2 file b in
  let source_uid := _pick_stable_id b file in
  let book_id := take 16 (Sha1.hexdigest (Sha1.utf8 source_uid)) in
  (dict_get "source_uid" r1 = Some (JStr source_uid)
   /\ dict_get "source_uid" r2 = Some (JStr source_uid))
  /\ (dict_get "book_id" r1 = Some (JStr book_id)
      /\ dict_get "book_id" r2 = Some (JStr book_id))
  /\ exists docs,
       to_bulk_actions (JDict r1) ib1 ic1
       = Ok (book_pair ib1 r1 ++ flat_map (chunk_pair ic1) docs)
       /\ to_bulk_actions (JDict r2) ib2 ic2
          = Ok (book_pair ib2 r2 ++ flat_map (chunk_pair ic2) docs)
       /\ map chunk_id_of docs
          = map (fun seq => JStr (book_id ++ "-" ++ format_06d seq))
                (seq 0 (length docs)).
Proof.
  intros r1 r2 source_uid book_id. subst r1 r2.
  repeat split;
    try (unfold parsed_record;
         rewrite dict_get_set_other by reflexivity;
         first [apply read_epub_source_uid | apply read_epub_book_id]).
  exists (chunk_docs (JStr book_id)
            (map chapter_seen (chapters_of_items (get_items b))) 0 0).
  rewrite !to_bulk_actions_eq, !parsed_record_chapters,
    !parsed_record_book_id.
  repeat split.
  rewrite chunk_docs_length. apply chunk_docs_ids.
Qed.

End IdentityClaims.


(* ================================================================== *)
(** * The content extractor: the claim *)

Section ExtractorClaims.

Import Bs4 EpubToJson EpubView.

Lemma filter_first {A} (f : A -> bool) pre x post :
  forallb (fun y => negb (f y)) pre = true -> f x = true ->
  filter f (pre ++ x :: post) = x :: filter f post.
Proof.
  intros Hpre Hx. induction pre as [|y pre IH]; simpl.
  - now rewrite Hx.
  - simpl in Hpre. apply andb_true_iff in Hpre as [Hy Hpre].
    apply negb_true_iff in Hy. rewrite Hy. auto.
Qed.

Lemma filter_none {A} (f : A -> bool) l :
  forallb (fun y => negb (f y)) l = true -> filter f l = [].
Proof.
  induction l as [|y l IH]; simpl; [reflexivity|]. intros H.
  apply andb_true_iff in H as [Hy H]. apply negb_true_iff in Hy.
  rewrite Hy. auto.
Qed.

(** [find] is the first match in document order. *)
Lemma find_first names nodes pre h post :
  descendants nodes = pre ++ h :: post ->
  forallb (fun t => negb (name_in names t)) pre = true ->
  name_in names h = true ->
  find names nodes = Some h.
Proof.
  intros E Hpre Hh. unfold find, find_all.
  now rewrite E, filter_first.
Qed.

Lemma find_none names nodes :
  forallb (fun t => negb (name_in names t)) (descendants nodes) = true ->
  find names nodes = None.
Proof. intros H. unfold find, find_all. now rewrite filter_none. Qed.

Lemma label_eq it :
  fst (extract_texts_from_item it)
  = match find headings (soup it) with
    | Some h =>
        if nonempty (get_text " " (snd h)) then get_text " " (snd h)
        else get_name it
    | None => get_name it
    end.
Proof.
  unfold extract_texts_from_item. cbv zeta. cbn [fst].
  now destruct (find _ _).
Qed.

(** C8, as the code has it.  The extractor is a total function: it
    returns for every document tree.  Its label is the text of the first
    element, in document order, that is an [h1], [h2], [h3] or [title];
    the name of the item when there is no such element or its text is
    empty.  The label is not empty when the name of the item is not. *)
Theorem C8_label_in_document_order (it : item) :
  let label := fst (extract_texts_from_item it) in
  (get_name it <> EmptyString -> label <> EmptyString)
  /\ (forall pre h post,
        descendants (soup it) = pre ++ h :: post ->
        forallb (fun t => negb (name_in headings t)) pre = true ->
        name_in headings h = true ->
        label = if nonempty (get_text " " (snd h))
                then get_text " " (snd h)
                else get_name it)
  /\ (forallb (fun t => negb (name_in headings t)) (descendants (soup it))
      = true ->
      label = get_name it).
Proof.
  intros label. subst label. rewrite label_eq. repeat split.
  - intros Hn. destruct (find headings (soup it)) as [h|]; [|assumption].
    destruct (get_text " " (snd h)) eqn:E; cbn; [assumption|discriminate].
  - intros pre h post E Hpre Hh.
    now rewrite (find_first headings (soup it) pre h post).
  - intros H. now rewrite find_none.
Qed.

Lemma C8_witness :
  get_name part_chapter <> EmptyString
  /\ fst (extract_texts_from_item part_chapter) <> EmptyString
  /\ fst (extract_texts_from_item part_chapter) = "Part One".
Proof.
  split; [discriminate|]. split.
  - apply (proj1 (C8_label_in_document_order part_chapter)). discriminate.
  - exact (proj1 (proj2 (C8_label_in_document_order part_chapter))
             [("html", [Elem "head" [];
                        Elem "body"
                          [Elem "h2" [Text "Part One"];
                           Elem "h1" [Text "Chapter 1"];
                           Elem "p" [Text "It was a dark night."]]]);
              ("head", []);
              ("body", [Elem "h2" [Text "Part One"];
                        Elem "h1" [Text "Chapter 1"];
                        Elem "p" [Text "It was a dark night."]])]
             ("h2", [Text "Part One"])
             [("h1", [Text "Chapter 1"]);
              ("p", [Text "It was a dark night."])]
             eq_refl eq_refl eq_refl).
Defined.

(** C8, as stated, fails: with the [h2] of a part before the [h1] of the
    chapter, the label is the text of the [h2], not the top-level heading
    the priority order selects. *)
Lemma C8_counterexample :
  fst (extract_texts_from_item part_chapter) = "Part One"
  /\ spec_label part_chapter = "Chapter 1"
  /\ fst (extract_texts_from_item part_chapter)
     <> spec_label part_chapter.
Proof. repeat split. discriminate. Qed.

End ExtractorClaims.


(* ================================================================== *)
(** * Identity and metadata: the claims *)

Section ResolverClaims.

Import Bs4 EpubToJson EpubView.

(** C3.  The code departs from the claim on a container whose identifier
    element has no text: the entry holds [None], the loop turns it into
    the string ["None"] and returns it, where the claim (no identifier
    value, hence the third rule, whatever the preferred-identifier
    marker of the package) gives the SHA-1 of the bytes. *)
Theorem C3_identifier_without_text (marker : string)
  (file : list Byte.byte) :
  _pick_stable_id book_with_empty_identifier file = "None"
  /\ spec_source_uid marker book_with_empty_identifier file
     = Sha1.hexdigest file
  /\ _pick_stable_id book_with_empty_identifier file
     <> spec_source_uid marker book_with_empty_identifier file.
Proof.
  assert (_pick_stable_id book_with_empty_identifier file = "None") as A
      by reflexivity.
  assert (spec_source_uid marker book_with_empty_identifier file
          = Sha1.hexdigest file) as B by reflexivity.
  repeat split; try assumption.
  rewrite A, B. intros E.
  pose proof (hexdigest_length file) as L. rewrite <- E in L. discriminate.
Qed.

(** C4, as the code has it.  [read_epub] is a total function of the
    parsed container.  In its record [book_id], [source_uid], [title],
    [author], [publisher], [genres] and [linkToBook] are always strings;
    every other field but the list of chapters is a string or is absent,
    never null.  The title is the first title of the metadata, the name
    of the file when there is none; the genres are the subjects joined,
    the empty string when there is none.  [language] is present only
    when the metadata has one.  For a book without chapter,
    [description] is present only when the metadata has one, and the
    publisher is the one of the metadata, the empty string when there is
    none. *)
Theorem C4_resolved_fields (stem : string) (file : list Byte.byte)
  (b : book) :
  let data := read_epub stem file b in
  (forall k,
      In k ["book_id"; "source_uid"; "title"; "author"; "publisher";
            "genres"; "linkToBook"] ->
      has_str k data)
  /\ (forall k,
        String.eqb k "authors" = false -> String.eqb k "chapters" = false ->
        str_or_absent k data)
  /\ dict_get "title" data
     = Some (JStr (match _meta_values b "DC" "title" with
                   | t :: _ => t
                   | [] => stem
                   end))
  /\ dict_get "genres" data
     = Some (JStr (match _meta_values b "DC" "subject" with
                   | [] => EmptyString
                   | vals => join ", " vals
                   end))
  /\ dict_get "language" data = first_value b "language"
  /\ (chapters_of_items (get_items b) = [] ->
      dict_get "description" data = first_value b "description"
      /\ dict_get "publisher" data
         = Some (match first_value b "publisher" with
                 | Some v => v
                 | None => JStr EmptyString
                 end)).
Proof.
  intros data. subst data.
  split; [|split; [|split; [|split; [|split; [|intros Hc; split]]]]].
  - intros k Hk. cbn [In] in Hk. unfold has_str.
    repeat (destruct Hk as [<- | Hk]).
    + rewrite read_epub_book_id. eauto.
    + rewrite read_epub_source_uid. eauto.
    + rewrite read_epub_title. eauto.
    + rewrite read_epub_author. eauto.
    + apply read_epub_publisher_str.
    + rewrite read_epub_genres. eauto.
    + rewrite read_epub_link. eauto.
    + destruct Hk.
  - apply read_epub_str_or_absent.
  - apply read_epub_title.
  - apply read_epub_genres.
  - apply read_epub_language.
  - now apply read_epub_description_no_chapter.
  - now apply read_epub_publisher_no_chapter.
Qed.

Lemma C4_witness :
  chapters_of_items (get_items empty_book) = []
  /\ dict_get "title" (read_epub "moby-dick" [] empty_book)
     = Some (JStr "moby-dick")
  /\ dict_get "publisher" (read_epub "moby-dick" [] empty_book)
     = Some (JStr EmptyString).
Proof.
  split; [reflexivity|]. split.
  - exact (proj1 (proj2 (proj2 (C4_resolved_fields "moby-dick" []
                                  empty_book)))).
  - exact (proj2 (proj2 (proj2 (proj2 (proj2 (proj2
             (C4_resolved_fields "moby-dick" [] empty_book))))) eq_refl)).
Defined.

(** C4, as stated, fails: for a container without metadata and without
    content the record has no [language] and no [description] at all,
    where the claim has them default to the empty string. *)
Lemma C4_counterexample :
  dict_get "language" (read_epub "moby-dick" [] empty_book) = None
  /\ dict_get "description" (read_epub "moby-dick" [] empty_book) = None.
Proof.
  split.
  - now rewrite read_epub_language.
  - now rewrite read_epub_description_no_chapter.
Qed.

Lemma jane_is_found rest :
  Re.search_group1 Re.by_author ("By Jane Q. Author," ++ rest)
  = Some "Jane Q. Author".
Proof. reflexivity. Qed.

Lemma join_head sep p l :
  exists tail, join sep (p :: l) = (p ++ tail)%string.
Proof.
  destruct l; simpl.
  - exists EmptyString. now rewrite append_empty_r.
  - eauto.
Qed.

(** C5, as the code has it.  When the structured metadata gives no
    creator, the author is the one a line of the text gives: the first
    match of ["By <name>"] or ["by <name>"] (the [y] in lower case) at
    the start of a word in the first ten paragraphs of the first chapter,
    the name running to the next line break or comma, stripped; when that
    gives nothing, the one the name of the file gives (the part before
    the first underscore, hyphens as spaces, in title case, kept when it
    has at most four words); else the empty string.  The name of the
    file is one whose title case is a Latin-1 string.  So a first paragraph
    that starts with [By] or [by], white space and a name ended by a
    comma or a line break gives that name, stripped; a first paragraph
    ["By Jane Q. Author, a novel"] gives ["Jane Q. Author"]. *)
Theorem C5_author_fallbacks (stem : string) (file : list Byte.byte)
  (b : book) :
  filter nonempty (_meta_values b "DC" "creator") = [] ->
  title_closed (author_slug stem) = true ->
  let chs := chapters_of_items (get_items b) in
  dict_get "author" (read_epub stem file b)
  = Some (JStr (if nonempty (author_of_text chs) then author_of_text chs
                else author_of_stem stem))
  /\ (forall by_ w ws n name t tail label paras more,
        by_ = "B"%char \/ by_ = "b"%char ->
        ReView.all_chars isspace (String w ws) = true ->
        isspace n = false ->
        ReView.all_chars Re.not_newline_or_comma (String n name) = true ->
        t = ","%char \/ t = Re.newline ->
        chs = (label,
               String by_
                 (String "y"
                    (String w ws ++ String n name ++ String t tail))
                 :: paras) :: more ->
        dict_get "author" (read_epub stem file b)
        = Some (JStr (strip (String n name))))
  /\ (forall label paras more,
        chs = (label, "By Jane Q. Author, a novel" :: paras) :: more ->
        dict_get "author" (read_epub stem file b)
        = Some (JStr "Jane Q. Author"))
  /\ (chs = [] ->
      dict_get "author" (read_epub stem file b)
      = Some (JStr (author_of_stem stem))).
Proof.
  intros Hc _ chs. subst chs.
  assert (dict_get "author" (read_epub stem file b)
          = Some (JStr (if nonempty (author_of_text
                                       (chapters_of_items (get_items b)))
                        then author_of_text (chapters_of_items (get_items b))
                        else author_of_stem stem))) as A.
  { rewrite read_epub_author, Hc. reflexivity. }
  split; [exact A|]. split; [|split].
  - intros by_ w ws n name t tail label paras more Hb Hws Hn Hname Ht E.
    rewrite A, E. unfold author_of_text, head_text. cbn [snd].
    match goal with
    | |- context [firstn 10 (?p :: paras)] =>
        change (firstn 10 (p :: paras)) with (p :: firstn 9 paras);
        destruct (join_head Re.newline_str p (firstn 9 paras))
          as (tl & ->)
    end.
    cbn [append]. repeat (rewrite append_assoc; cbn [append]).
    assert (Re.not_newline_or_comma t = false) as Ht'
        by (destruct Ht as [-> | ->]; reflexivity).
    pose proof (by_author_captures_name by_ w ws n name t (tail ++ tl)
                  Hb Hws Hn Hname Ht') as S.
    cbn [append] in S. rewrite S.
    now rewrite strip_keeps_head.
  - intros label paras more E. rewrite A, E.
    unfold author_of_text, head_text. cbn [snd].
    change (firstn 10 ("By Jane Q. Author, a novel" :: paras))
      with ("By Jane Q. Author, a novel" :: firstn 9 paras).
    destruct (join_head Re.newline_str "By Jane Q. Author, a novel"
                (firstn 9 paras)) as (tail & ->).
    change ("By Jane Q. Author, a novel" ++ tail)%string
      with ("By Jane Q. Author," ++ (" a novel" ++ tail))%string.
    now rewrite jane_is_found.
  - intros E. now rewrite A, E.
Qed.

Lemma C5_witness :
  filter nonempty (_meta_values novel "DC" "creator") = []
  /\ title_closed (author_slug "anon_novel") = true
  /\ dict_get "author" (read_epub "anon_novel" [] novel)
     = Some (JStr "Jane Q. Author").
Proof.
  split; [reflexivity|]. split; [reflexivity|].
  exact (proj1 (proj2 (proj2
           (C5_author_fallbacks "anon_novel" [] novel eq_refl eq_refl)))
           "ch1.xhtml" ["It was a dark night."] [] eq_refl).
Defined.

(** C5, as stated, fails: the match is not case-insensitive.  A first
    paragraph ["BY Jane Q. Author, a novel"], which the pattern of the
    specification reads as the author line, is not one for the code: the
    author comes from the name of the file. *)
Lemma C5_counterexample :
  filter nonempty (_meta_values shouting_book "DC" "creator") = []
  /\ Re.search_group1 by_author_any_case "BY Jane Q. Author, a novel"
     = Some "Jane Q. Author"
  /\ dict_get "author" (read_epub "anon_novel" [] shouting_book)
     = Some (JStr "Anon").
Proof.
  split; [reflexivity|]. split; [reflexivity|].
  rewrite read_epub_author. reflexivity.
Qed.

End ResolverClaims.


(* ================================================================== *)
(** * Sending a file of lines: [bulk_file] *)

Section BulkFileProperties.

Import TextFile EscliRequests RequestsView.

Variable server : list string -> string -> response.
Variable chunk_bytes : nat.

#[local] Abbreviation post_buf := (EscliRequests.post_buf server).
#[local] Abbreviation bulk_loop :=
  (EscliRequests.bulk_loop server chunk_bytes).
#[local] Abbreviation bulk_file :=
  (EscliRequests.bulk_file server chunk_bytes).

Lemma join_empty_app (a b : list string) :
  join EmptyString (a ++ b)
  = (join EmptyString a ++ join EmptyString b)%string.
Proof.
  unfold join. induction a as [|x a IH].
  - reflexivity.
  - cbn [app]. rewrite !concat_empty_cons, IH. now rewrite append_assoc.
Qed.

Lemma utf8_app (a b : string) :
  Sha1.utf8 (a ++ b) = Sha1.utf8 a ++ Sha1.utf8 b.
Proof.
  induction a as [|c a IH]; [reflexivity|].
  cbn [append Sha1.utf8]. now rewrite IH, List.app_assoc.
Qed.

Lemma byte_length_app (a b : string) :
  byte_length (a ++ b) = byte_length a + byte_length b.
Proof. unfold byte_length. now rewrite utf8_app, List.length_app. Qed.

Lemma post_buf_batched batches r :
  batched batches r -> buf r <> [] -> failure (post_buf r) = None ->
  batched (batches ++ [buf r]) (post_buf r) /\ buf (post_buf r) = [].
Proof.
  intros (Hq & Hne & Hs & Hz) Hb Hf. unfold EscliRequests.post_buf in *.
  destruct (_bulk_post _); [|discriminate].
  cbn [buf requests sent size failure]. split; [|reflexivity].
  unfold batched. cbn [buf requests sent size].
  rewrite Hq, !map_app, list_sum_app, Hs. cbn [map list_sum].
  repeat split; try reflexivity.
  - apply Forall_app. split; [assumption|]. now constructor.
  - cbn [list_sum fold_right]. lia.
Qed.

(** The loop sends the lines it keeps, in order, each once. *)
Lemma bulk_loop_batched lines :
  forall batches r,
    batched batches r -> failure r = None ->
    failure (bulk_loop lines r) = None ->
    exists more,
      batched (batches ++ more) (bulk_loop lines r)
      /\ buf (bulk_loop lines r) = []
      /\ concat more = buf r ++ nonblank lines.
Proof.
  induction lines as [|line rest IH]; intros batches r Hb Hr Hf.
  - cbn [EscliRequests.bulk_loop] in *. unfold nonblank. cbn [filter].
    destruct (buf r) as [|x b] eqn:E.
    + exists []. rewrite !List.app_nil_r.
      split; [assumption|split; [assumption|reflexivity]].
    + rewrite <- E in *.
      destruct (post_buf_batched batches r Hb) as (H1 & H2);
        [rewrite E; discriminate|assumption|].
      exists [buf r]. split; [assumption|split; [assumption|]].
      cbn [concat]. now rewrite !List.app_nil_r.
  - cbn [EscliRequests.bulk_loop] in *. unfold nonblank. cbn [filter].
    fold (nonblank rest).
    destruct (is_empty (strip line)) eqn:El; cbn [negb].
    + now apply IH.
    + set (r1 := BulkRun (buf r ++ [line])
                         (size r + length (Sha1.utf8 line)) (sent r)
                         (requests r) None) in *.
      assert (B1 : batched batches r1).
      { destruct Hb as (Hq & Hne & Hs & Hz). unfold batched, r1.
        cbn [buf requests sent size]. repeat split; try assumption.
        rewrite join_empty_app, byte_length_app, Hz. unfold join.
        rewrite concat_empty_cons. cbn [String.concat].
        rewrite append_empty_r. reflexivity. }
      destruct (chunk_bytes <=? size r1)%nat eqn:Ec.
      * destruct (failure (post_buf r1)) eqn:Ef; [congruence|].
        destruct (post_buf_batched batches r1 B1) as (H1 & H2);
          [unfold r1; cbn [buf]; now destruct (buf r)|assumption|].
        destruct (IH _ _ H1 Ef Hf) as (more & M1 & M2 & M3).
        exists (buf r1 :: more). rewrite <- List.app_assoc in M1.
        split; [assumption|split; [assumption|]].
        cbn [concat]. rewrite M3, H2. unfold r1. cbn [buf app].
        now rewrite <- List.app_assoc.
      * destruct (IH _ _ B1 eq_refl Hf) as (more & M1 & M2 & M3).
        exists more. split; [assumption|split; [assumption|]].
        rewrite M3. unfold r1. cbn [buf]. now rewrite <- List.app_assoc.
Qed.

(** X1. [bulk_file] loses nothing.  When no request fails, the requests
    are the lines of the file that are not blank, in order and each
    once, cut into batches at line ends; no request is empty, no blank
    line is sent, nothing is left in the buffer, and the count of
    documents is the sum over the requests of half the number of their
    lines, rounded down. *)
Theorem bulk_file_sends_every_line (text : string) :
  failure (bulk_file text) = None ->
  exists batches,
    requests (bulk_file text) = map (join EmptyString) batches
    /\ concat batches = nonblank (readlines text)
    /\ Forall (fun b => b <> []) batches
    /\ buf (bulk_file text) = []
    /\ sent (bulk_file text)
       = list_sum (map (fun b => length b / 2) batches).
Proof.
  intros Hf. unfold EscliRequests.bulk_file in *.
  destruct (bulk_loop_batched (readlines text) [] (BulkRun [] 0 0 [] None))
    as (more & (Hq & Hne & Hs & _) & Hb & Hc); try assumption; try reflexivity.
  - unfold batched. cbn. repeat split. constructor.
  - exists more. cbn [app buf] in *. now repeat split.
Qed.

Lemma bulk_loop_full lines :
  forall r,
    Forall (fun body => chunk_bytes <= byte_length body) (requests r) ->
    size r = byte_length (join EmptyString (buf r)) ->
    Forall (fun body => chunk_bytes <= byte_length body)
           (removelast (requests (bulk_loop lines r))).
Proof.
  assert (RL : forall (P : string -> Prop) l, Forall P l ->
               Forall P (removelast l)).
  { intros P l H. induction H as [|x l Hx Hl IH]; [constructor|].
    cbn [removelast]. destruct l; [constructor|]. now constructor. }
  induction lines as [|line rest IH]; intros r Hq Hz.
  - cbn [EscliRequests.bulk_loop].
    destruct (buf r); [now apply RL|].
    unfold EscliRequests.post_buf.
    destruct (_bulk_post _); cbn [requests]; now rewrite removelast_last.
  - cbn [EscliRequests.bulk_loop].
    destruct (is_empty (strip line)); [now apply IH|].
    set (r1 := BulkRun (buf r ++ [line])
                       (size r + length (Sha1.utf8 line)) (sent r)
                       (requests r) None).
    assert (Z1 : size r1 = byte_length (join EmptyString (buf r1))).
    { unfold r1. cbn [buf size].
      rewrite join_empty_app, byte_length_app, Hz. unfold join.
      rewrite concat_empty_cons. cbn [String.concat].
      now rewrite append_empty_r. }
    destruct (chunk_bytes <=? size r1)%nat eqn:Ec.
    + apply Nat.leb_le in Ec. rewrite Z1 in Ec.
      unfold EscliRequests.post_buf.
      destruct (_bulk_post _); cbn [failure requests].
      * apply IH; cbn [requests buf size]; [|reflexivity].
        apply Forall_app. split; [assumption|]. now repeat constructor.
      * now rewrite removelast_last.
    + now apply IH.
Qed.

(** X2. Every request of [bulk_file] but the last one holds at least
    [chunk_bytes] bytes: the buffer is sent only once the count of bytes
    has reached the bound, or at the end of the file. *)
Theorem bulk_file_requests_reach_bound (text : string) :
  Forall (fun body => chunk_bytes <= byte_length body)
         (removelast (requests (bulk_file text))).
Proof.
  unfold EscliRequests.bulk_file. apply bulk_loop_full; [constructor|].
  reflexivity.
Qed.

Lemma bulk_loop_below pre :
  forall r rest,
    Forall (fun l => is_empty (strip l) = false) pre ->
    size r = byte_length (join EmptyString (buf r)) ->
    byte_length (join EmptyString (buf r ++ pre)) < chunk_bytes ->
    bulk_loop (pre ++ rest) r
    = bulk_loop rest
        (BulkRun (buf r ++ pre)
                 (byte_length (join EmptyString (buf r ++ pre)))
                 (sent r) (requests r)
                 (match pre with [] => failure r | _ => None end)).
Proof.
  induction pre as [|l pre IH]; intros r rest Hn Hz Hlt.
  - cbn [app]. rewrite List.app_nil_r in *. rewrite <- Hz. now destruct r.
  - inversion Hn as [|? ? Hl Hpre]; subst.
    cbn [app EscliRequests.bulk_loop]. rewrite Hl.
    set (r1 := BulkRun (buf r ++ [l]) (size r + length (Sha1.utf8 l))
                       (sent r) (requests r) None).
    assert (Z1 : size r1 = byte_length (join EmptyString (buf r1))).
    { unfold r1. cbn [buf size].
      rewrite join_empty_app, byte_length_app, Hz. unfold join.
      rewrite concat_empty_cons. cbn [String.concat].
      now rewrite append_empty_r. }
    assert (E : (buf r ++ l :: pre) = (buf r1 ++ pre)).
    { unfold r1. cbn [buf]. now rewrite <- List.app_assoc. }
    rewrite E in Hlt.
    assert (Hlt1 : size r1 < chunk_bytes).
    { rewrite Z1. rewrite join_empty_app, byte_length_app in Hlt. lia. }
    apply Nat.leb_gt in Hlt1. rewrite Hlt1.
    rewrite (IH r1 rest Hpre Z1 Hlt). rewrite E.
    unfold r1. cbn [buf sent requests failure]. now destruct pre.
Qed.

(** X3. Where [bulk_file] cuts.  The first request ends with the first
    line at which the count of bytes reaches [chunk_bytes], whatever that
    line is: when [pre] has an even number of lines the request ends with
    an action line, and the source line of that action opens the next
    request.  The documents counted for the request are half its lines,
    rounded down. *)
Theorem bulk_file_cuts_at_the_bound (pre : list string) (a : string)
  (rest : list string) :
  Forall (fun l => is_empty (strip l) = false) (pre ++ [a]) ->
  byte_length (join EmptyString pre) < chunk_bytes ->
  chunk_bytes <= byte_length (join EmptyString (pre ++ [a])) ->
  _bulk_post (server [] (join EmptyString (pre ++ [a]))) = Ok tt ->
  bulk_loop (pre ++ a :: rest) (BulkRun [] 0 0 [] None)
  = bulk_loop rest
      (BulkRun [] 0 (length (pre ++ [a]) / 2)
               [join EmptyString (pre ++ [a])] None).
Proof.
  intros Hn Hlt Hge Hok.
  apply Forall_app in Hn. destruct Hn as (Hpre & Ha).
  inversion Ha as [|? ? Hl _]; subst.
  rewrite bulk_loop_below; try assumption; try reflexivity.
  cbn [app buf sent requests EscliRequests.bulk_loop]. rewrite Hl.
  cbn [buf size sent requests].
  assert (E : byte_length (join EmptyString pre) + length (Sha1.utf8 a)
              = byte_length (join EmptyString (pre ++ [a]))).
  { rewrite join_empty_app, byte_length_app. unfold join.
    rewrite concat_empty_cons. cbn [String.concat].
    now rewrite append_empty_r. }
  rewrite E. apply Nat.leb_le in Hge. rewrite Hge.
  unfold EscliRequests.post_buf. cbn [buf requests sent size app].
  rewrite Hok. reflexivity.
Qed.

End BulkFileProperties.

Lemma bulk_file_sends_every_line_witness :
  EscliRequests.failure
    (EscliRequests.bulk_file RequestsView.obliging 3 RequestsView.sample_text)
  = None
  /\ exists batches,
       EscliRequests.requests
         (EscliRequests.bulk_file RequestsView.obliging 3
            RequestsView.sample_text)
       = map (join EmptyString) batches
       /\ concat batches
          = RequestsView.nonblank
              (TextFile.readlines RequestsView.sample_text)
       /\ Forall (fun b => b <> []) batches
       /\ EscliRequests.buf
            (EscliRequests.bulk_file RequestsView.obliging 3
               RequestsView.sample_text) = []
       /\ EscliRequests.sent
            (EscliRequests.bulk_file RequestsView.obliging 3
               RequestsView.sample_text)
          = list_sum (map (fun b => length b / 2) batches).
Proof.
  split; [reflexivity|].
  exact (bulk_file_sends_every_line RequestsView.obliging 3
           RequestsView.sample_text eq_refl).
Defined.

Lemma bulk_file_cuts_at_the_bound_witness :
  EscliRequests.bulk_loop RequestsView.obliging 3
    (TextFile.readlines RequestsView.sample_text)
    (EscliRequests.BulkRun [] 0 0 [] None)
  = EscliRequests.bulk_loop RequestsView.obliging 3
      (skipn 1 (TextFile.readlines RequestsView.sample_text))
      (EscliRequests.BulkRun [] 0 0
         [hd EmptyString (TextFile.readlines RequestsView.sample_text)]
         None).
Proof.
  refine (bulk_file_cuts_at_the_bound RequestsView.obliging 3 []
            (hd EmptyString (TextFile.readlines RequestsView.sample_text))
            (skipn 1 (TextFile.readlines RequestsView.sample_text))
            _ _ _ _).
  - repeat constructor.
  - vm_compute. lia.
  - vm_compute. lia.
  - reflexivity.
Defined.

(* ================================================================== *)
(** * The answer to a bulk request: [_bulk_post] *)

Section BulkPost.

Import EscliRequests RequestsView.

Lemma check_other_actions items :
  forallb other_action items = true -> check_items items = Ok tt.
Proof.
  induction items as [|item items IH]; [reflexivity|].
  cbn [forallb]. intros H. apply andb_prop in H. destruct H as (Hi & Hr).
  cbn [check_items]. destruct item; try discriminate.
  unfold other_action in Hi. apply andb_prop in Hi.
  destruct Hi as (H1 & H2).
  apply negb_true_iff in H1. apply negb_true_iff in H2.
  unfold any_item_error, item_error. cbn [py_contains bind].
  rewrite H1. cbn [bind]. rewrite H2. cbn [bind]. now apply IH.
Qed.

(** X5. What [_bulk_post] reports.  For a response with a status below
    400 whose body is a JSON object:
    - when the [errors] flag is absent or false, the request passes,
      whatever the items say;
    - when the items are results of actions other than [index] and
      [update] (of [create] or [delete], say), the request passes even
      with the flag set: their errors are never reported;
    - when the flag is set and, after results of other actions, an item
      holds an error under [index] or [update], a [RuntimeError] is
      raised. *)
Theorem bulk_post_reports_index_and_update (r : response) (resp : dict) :
  (status_code r < 400)%Z ->
  json_of r = Ok (JDict resp) ->
  (errors_flag resp = false -> _bulk_post r = Ok tt)
  /\ (forall items,
        dict_get "items" resp = Some (JList items) ->
        forallb other_action items = true ->
        _bulk_post r = Ok tt)
  /\ (forall pre item post k action error,
        errors_flag resp = true ->
        dict_get "items" resp = Some (JList (pre ++ JDict item :: post)) ->
        forallb other_action pre = true ->
        k = "index" \/ (k = "update" /\ dict_get "index" item = None) ->
        dict_get k item = Some (JDict action) ->
        dict_get "error" action = Some error ->
        truthy error = true ->
        _bulk_post r = Raise RuntimeError).
Proof.
  intros Hs Hj.
  assert (E1 : _bulk_post r
               = (errors <- py_get (JDict resp) "errors" JNull ;;
                  if truthy errors then
                    items <- py_get (JDict resp) "items" (JList []) ;;
                    items <- py_iter items ;; check_items items
                  else Ok tt)).
  { unfold _bulk_post, es_request.
    apply Z.leb_gt in Hs. rewrite Hs. cbn [bind]. rewrite Hj.
    reflexivity. }
  rewrite E1. unfold errors_flag. cbn [py_get bind].
  split; [|split].
  - intros Hf. destruct (dict_get "errors" resp);
      [now rewrite Hf|reflexivity].
  - intros items Hi Ho. rewrite Hi. cbn [py_iter bind].
    rewrite (check_other_actions items Ho).
    now destruct (truthy _).
  - intros pre item post k action error Hf Hi Hpre Hk Ha He Ht.
    destruct (dict_get "errors" resp); [|discriminate]. rewrite Hf, Hi.
    cbn [py_iter bind]. clear Hi.
    induction pre as [|p pre IH].
    + cbn [app check_items]. unfold any_item_error, item_error.
      cbn [py_contains py_getitem bind]. rewrite !dict_mem_get.
      destruct Hk as [-> | (-> & Hn)].
      * rewrite Ha. cbn [bind py_get]. rewrite He, Ht. reflexivity.
      * rewrite Hn. cbn [bind]. rewrite Ha. cbn [bind py_get].
        rewrite He, Ht. reflexivity.
    + cbn [forallb] in Hpre. apply andb_prop in Hpre.
      destruct Hpre as (Hp & Hpre).
      cbn [app check_items]. destruct p; try discriminate.
      unfold other_action in Hp. apply andb_prop in Hp.
      destruct Hp as (H1 & H2).
      apply negb_true_iff in H1. apply negb_true_iff in H2.
      unfold any_item_error at 1. unfold item_error.
      cbn [py_contains bind]. rewrite H1. cbn [bind]. rewrite H2.
      cbn [bind]. now apply IH.
Qed.

End BulkPost.

Lemma bulk_post_reports_index_and_update_witness :
  (EscliRequests.status_code RequestsView.failed_delete < 400)%Z
  /\ EscliRequests._bulk_post RequestsView.failed_delete = Ok tt.
Proof.
  split; [reflexivity|].
  refine (proj1 (proj2 (bulk_post_reports_index_and_update
                          RequestsView.failed_delete _ _ eq_refl))
            _ eq_refl eq_refl).
  reflexivity.
Defined.

(* ================================================================== *)
(** * Creating the indices: [init_indices] *)

Section InitIndices.

Import EscliRequests RequestsView.

Variable answer : list request -> request -> response.
Variable mapping_text : string -> string.

#[local] Abbreviation init_indices :=
  (EscliRequests.init_indices answer mapping_text).

(** X6. [init_indices] deletes before it reads.  When the mapping file of
    [books] is not a JSON text, [init_indices] raises and creates no
    index: no [PUT] is sent and nothing is asked about [book_content].
    The existing index is gone all the same: if the search engine
    answers 200 to the [GET], the [DELETE] has been sent before the file
    is read. *)
Theorem init_indices_deletes_before_reading (es : string) (e : exn) :
  loads (mapping_text "books") = Raise e ->
  let s := fst (init_indices es) in
  let get := GET (url_of es "books") in
  let delete := DELETE (url_of es "books") in
  is_ok (snd (init_indices es)) = false
  /\ created s = []
  /\ (forall url body, ~ In (PUT url body) (trace s))
  /\ trace s
     = (if (status_code (answer [] get) =? 200)%Z then [get; delete]
        else [get]).
Proof.
  intros Hm. unfold EscliRequests.init_indices.
  cbn [init_loop]. unfold init_index, index_exists.
  cbn [trace created app].
  destruct (status_code (answer [] (GET (url_of es "books"))) =? 200)%Z.
  - cbn [trace created app]. unfold es_request.
    destruct (400 <=? status_code _)%Z; cbn [bind fst snd is_ok trace created].
    + repeat split. intros url body [H|[H|[]]]; discriminate.
    + rewrite Hm. cbn [fst snd is_ok trace created].
      repeat split. intros url body [H|[H|[]]]; discriminate.
  - rewrite Hm. cbn [fst snd is_ok trace created].
    repeat split. intros url body [H|[]]; discriminate.
Qed.

End InitIndices.

Lemma init_indices_deletes_before_reading_witness :
  loads (RequestsView.cut_mapping "books") = Raise JSONDecodeError
  /\ EscliRequests.trace
       (fst (EscliRequests.init_indices RequestsView.holds_all
               RequestsView.cut_mapping "http://localhost:9200"))
     = [EscliRequests.GET "http://localhost:9200/books";
        EscliRequests.DELETE "http://localhost:9200/books"].
Proof.
  split; [reflexivity|].
  exact (proj2 (proj2 (proj2 (init_indices_deletes_before_reading
                                RequestsView.holds_all
                                RequestsView.cut_mapping
                                "http://localhost:9200" JSONDecodeError
                                eq_refl)))).
Defined.


(* ================================================================== *)
(** * Lines of JSON in a text file *)

Section JsonLines.

Import TextFile RequestsView.

Lemma no_break_app (a b : string) :
  no_break (a ++ b) = no_break a && no_break b.
Proof.
  induction a as [|c a IH]; [reflexivity|].
  cbn [append no_break]. rewrite IH. now rewrite andb_assoc.
Qed.

Lemma no_break_escape_char ea c : no_break (escape_char ea c) = true.
Proof.
  destruct ea; destruct c as [[] [] [] [] [] [] [] []]; reflexivity.
Qed.

Lemma no_break_escape ea s : no_break (escape ea s) = true.
Proof.
  induction s as [|c s IH]; [reflexivity|].
  cbn [escape]. now rewrite no_break_app, no_break_escape_char, IH.
Qed.

Lemma no_break_dumps_str ea s : no_break (dumps_str ea s) = true.
Proof.
  unfold dumps_str. cbn [no_break].
  rewrite no_break_app, no_break_escape. reflexivity.
Qed.

Lemma no_break_uint (d : Decimal.uint) :
  no_break (NilEmpty.string_of_uint d) = true.
Proof. induction d; cbn; assumption || reflexivity. Qed.

Lemma no_break_str_of_Z z : no_break (str_of_Z z) = true.
Proof.
  unfold str_of_Z, str_of_N.
  destruct z; cbn [no_break]; now rewrite no_break_uint.
Qed.

Lemma no_break_join sep (l : list string) :
  no_break sep = true -> Forall (fun s => no_break s = true) l ->
  no_break (join sep l) = true.
Proof.
  intros Hsep H. induction H as [|x l Hx Hl IH]; [reflexivity|].
  destruct l as [|y l]; [exact Hx|].
  rewrite join_cons, !no_break_app, Hx, Hsep. exact IH.
Qed.

Lemma no_break_str_of_N n : no_break (str_of_N n) = true.
Proof. unfold str_of_N. apply no_break_uint. Qed.

Lemma no_break_take k s : no_break s = true -> no_break (take k s) = true.
Proof.
  revert s. induction k as [|k IH]; intros [|c s] H; try reflexivity.
  cbn [take no_break] in *. apply andb_prop in H. destruct H as (-> & H).
  now rewrite (IH s H).
Qed.

Lemma no_break_drop k s : no_break s = true -> no_break (drop k s) = true.
Proof.
  revert s. induction k as [|k IH]; intros [|c s] H; try assumption.
  cbn [drop no_break] in *. apply andb_prop in H. destruct H as (_ & H).
  now apply IH.
Qed.

Lemma no_break_zeros n : no_break (Float.zeros n) = true.
Proof. induction n; [reflexivity|exact IHn]. Qed.

Lemma no_break_exponent z : no_break (Float.exponent z) = true.
Proof.
  unfold Float.exponent. rewrite !no_break_app, no_break_str_of_N.
  destruct (z <? 0)%Z, (String.length _ <? 2)%nat; reflexivity.
Qed.

Lemma no_break_point k r :
  no_break r = true -> no_break (Float.point k r) = true.
Proof.
  intros H. unfold Float.point. destruct (k <? String.length r)%nat.
  - rewrite !no_break_app, no_break_take, no_break_drop by assumption.
    reflexivity.
  - rewrite !no_break_app, H, no_break_zeros. reflexivity.
Qed.

Lemma no_break_notation digits decpt :
  no_break digits = true -> no_break (Float.notation digits decpt) = true.
Proof.
  intros H. unfold Float.notation. destruct digits as [|c r]; [reflexivity|].
  cbn [no_break] in H. apply andb_prop in H. destruct H as (Hc & Hr).
  destruct ((decpt <=? -4)%Z || (16 <? decpt)%Z).
  - cbn [no_break]. rewrite Hc, !no_break_app, no_break_exponent.
    destruct (is_empty r); cbn [no_break]; [reflexivity|].
    now rewrite Hr.
  - destruct (decpt <=? 0)%Z.
    + rewrite !no_break_app, no_break_zeros. cbn [no_break].
      now rewrite Hc, Hr.
    + cbn [no_break]. now rewrite Hc, no_break_point.
Qed.

Lemma no_break_repr x : no_break (Float.repr x) = true.
Proof.
  destruct x as [s|s| |s m e]; try (destruct s; reflexivity);
    try reflexivity.
  cbn [Float.repr]. unfold Float.repr_finite, Float.shortest.
  destruct (Float.exact_decimal m e) as (d0, q0).
  destruct (Float.shortest_from _ _ _ _ _ _ _) as (d1, q1).
  destruct (Float.strip_zeros _ _ _) as (d, q).
  rewrite no_break_app, no_break_notation by apply no_break_str_of_N.
  now destruct s.
Qed.

Lemma no_break_dumps_float x : no_break (dumps_float x) = true.
Proof.
  destruct x as [s|s| |s m e]; try (destruct s; reflexivity);
    try reflexivity.
  apply (no_break_repr (S754_finite s m e)).
Qed.

(** A line written by [json.dumps] holds no line break: the characters
    that end a line are escaped inside strings, and nothing else of the
    text has them. *)
Lemma no_break_dumps ea v : no_break (dumps ea v) = true.
Proof.
  induction v using json_induction.
  - reflexivity.
  - now destruct b.
  - apply no_break_str_of_Z.
  - apply no_break_dumps_float.
  - apply no_break_dumps_str.
  - cbn [dumps]. cbn [append no_break]. rewrite no_break_app.
    rewrite no_break_join; [reflexivity|reflexivity|].
    apply Forall_map. exact H.
  - cbn [dumps]. cbn [append no_break]. rewrite no_break_app.
    rewrite no_break_join; [reflexivity|reflexivity|].
    apply Forall_map. eapply Forall_impl; [|exact H].
    intros [k x] Hx. cbn beta iota delta [fst snd] in *.
    rewrite no_break_app, no_break_dumps_str. cbn [no_break].
    rewrite Hx. reflexivity.
Qed.

Lemma readlines_line (l rest : string) :
  no_break l = true ->
  readlines (l ++ String Re.newline rest)
  = (l ++ Re.newline_str)%string :: readlines rest.
Proof.
  induction l as [|c l IH]; intros H; [reflexivity|].
  cbn [no_break] in H. apply andb_prop in H. destruct H as (Hc & Hl).
  apply andb_prop in Hc. destruct Hc as (H1 & H2).
  apply negb_true_iff in H1. apply negb_true_iff in H2.
  cbn [append readlines]. rewrite H1, H2, (IH Hl). reflexivity.
Qed.

(** The lines of the text written for a list of lines are these lines,
    each with its line feed. *)
Lemma readlines_ndjson_text (l : string) (lines : list string) :
  Forall (fun s => no_break s = true) (l :: lines) ->
  readlines (ndjson_text (l :: lines))
  = map (fun s => (s ++ Re.newline_str)%string) (l :: lines).
Proof.
  revert l. induction lines as [|l2 lines IH]; intros l H.
  - inversion H; subst. unfold ndjson_text, join. cbn [String.concat map].
    unfold Re.newline_str. now rewrite readlines_line.
  - inversion H; subst. unfold ndjson_text. rewrite join_cons.
    rewrite !append_assoc. unfold Re.newline_str at 1. cbn [append].
    rewrite readlines_line by assumption.
    cbn [map]. f_equal. now apply IH.
Qed.

Lemma rstrip_keep (a : string) z b :
  isspace z = false ->
  rstrip (a ++ String z b) = (a ++ String z (rstrip b))%string.
Proof.
  intros Hz. induction a as [|c a IH].
  - cbn [append rstrip]. now rewrite Hz.
  - cbn [append rstrip]. rewrite IH.
    destruct a; cbn [append is_empty]; now rewrite andb_false_r.
Qed.

(** A line of a JSON object read from a file, once stripped, is the text
    of the object. *)
Lemma strip_object_line ea d :
  strip (dumps ea (JDict d) ++ Re.newline_str) = dumps ea (JDict d).
Proof.
  cbn [dumps]. unfold strip. rewrite !append_assoc.
  cbn [append].
  change (String "{" ?x) with (("{" ++ x)%string).
  rewrite <- append_assoc.
  rewrite (rstrip_keep _ "}"%char) by reflexivity.
  reflexivity.
Qed.

End JsonLines.

(* ================================================================== *)
(** * Reading pairs back: [_iter_ndjson_docs] *)

Section ReadingPairs.

Import TextFile Escli RequestsView BulkView.

Lemma iter_lines_invariant lines :
  forall expect_src meta,
    (expect_src = true -> py_contains "index" meta = Ok true) ->
    let ps := yielded (iter_lines lines expect_src meta) in
    Forall (fun p => py_contains "index" (fst p) = Ok true
                     /\ py_contains "index" (snd p) = Ok false) ps
    /\ 2 * length ps + (if expect_src then 0 else 1)
       <= length (nonblank lines) + 1.
Proof.
  induction lines as [|line rest IH]; intros e meta Hm.
  - cbn. split; [constructor|]. destruct e; lia.
  - cbn [iter_lines]. unfold nonblank. cbn [filter]. fold (nonblank rest).
    destruct (is_empty (strip line)); cbn [negb].
    + now apply IH.
    + cbn [length]. destruct (loads (strip line)) as [obj|];
        [|cbn; split; [constructor|destruct e; lia]].
      destruct (py_contains "index" obj) as [[|]|] eqn:Ec;
        [| |cbn; split; [constructor|destruct e; lia]].
      * destruct (IH true obj (fun _ => Ec)) as (H1 & H2).
        split; [exact H1|]. cbv zeta in *. destruct e; lia.
      * destruct e; cbn [negb].
        -- cbn [yielded]. destruct (IH false meta) as (H1 & H2);
             [discriminate|].
           split; [constructor; [split; [now apply Hm|exact Ec]|exact H1]|].
           cbv zeta in *. cbn [length]. lia.
        -- destruct (IH false meta) as (H1 & H2); [discriminate|].
           split; [exact H1|]. cbv zeta in *. lia.
Qed.

(** X7. The pairs of [_iter_ndjson_docs].  Whatever the lines of the
    file, every pair the reader yields has an action object (one that
    holds ["index"]) read from an earlier line, and a source that does
    not hold ["index"]: no source is given without its action, none with
    the action of a pair already given.  Each pair uses up two lines
    that are not blank. *)
Theorem iter_ndjson_docs_pairs (lines : list string) :
  let ps := yielded (_iter_ndjson_docs lines) in
  Forall (fun p => py_contains "index" (fst p) = Ok true
                   /\ py_contains "index" (snd p) = Ok false) ps
  /\ 2 * length ps <= length (nonblank lines).
Proof.
  unfold _iter_ndjson_docs.
  destruct (iter_lines_invariant lines false JNull) as (H1 & H2);
    [discriminate|].
  split; [exact H1|]. cbv zeta in *. lia.
Qed.

Lemma iter_lines_pair ea1 ea2 m s rest expect_src meta :
  wf (JDict m) = true -> wf (JDict s) = true ->
  dict_mem "index" m = true -> dict_mem "index" s = false ->
  iter_lines ((dumps ea1 (JDict m) ++ Re.newline_str)%string
                :: (dumps ea2 (JDict s) ++ Re.newline_str)%string :: rest)
             expect_src meta
  = Yield (JDict m) (JDict s) (iter_lines rest false (JDict m)).
Proof.
  intros Wm Ws Hm Hs. cbn [iter_lines].
  rewrite !strip_object_line.
  destruct (dumps_head ea1 (JDict m)) as (c1 & r1 & E1 & _).
  destruct (dumps_head ea2 (JDict s)) as (c2 & r2 & E2 & _).
  rewrite E1 at 1. rewrite E2 at 1. cbn [is_empty].
  rewrite !loads_dumps by assumption.
  cbn [py_contains]. rewrite Hm, Hs. reflexivity.
Qed.

Lemma iter_lines_pairs pairs :
  forallb bulk_pair pairs = true ->
  forall expect_src meta,
    iter_lines (map (fun s => (s ++ Re.newline_str)%string)
                    (flat_map pair_lines pairs)) expect_src meta
    = yields pairs.
Proof.
  induction pairs as [|[m s] pairs IH]; intros H e meta; [reflexivity|].
  cbn [forallb] in H. apply andb_prop in H. destruct H as (Hp & Hr).
  unfold bulk_pair in Hp. cbn [fst snd] in Hp.
  destruct m as [| | | | | |m]; try discriminate.
  destruct s as [| | | | | |s]; try discriminate.
  apply andb_prop in Hp. destruct Hp as (Hp & Ws).
  apply andb_prop in Hp. destruct Hp as (Hp & Wm).
  apply andb_prop in Hp. destruct Hp as (Hm & Hs).
  apply negb_true_iff in Hs.
  cbn [flat_map pair_lines fst snd app map yields].
  rewrite iter_lines_pair by assumption. now rewrite IH.
Qed.

Lemma iter_written_pairs (pairs : list (json * json)) :
  forallb bulk_pair pairs = true ->
  _iter_ndjson_docs (readlines (ndjson_text (flat_map pair_lines pairs)))
  = yields pairs.
Proof.
  intros H. unfold _iter_ndjson_docs.
  destruct pairs as [|p pairs]; [reflexivity|].
  change (flat_map pair_lines (p :: pairs))
    with (dumps true (fst p)
            :: (dumps false (snd p) :: flat_map pair_lines pairs)).
  rewrite readlines_ndjson_text.
  - now apply (iter_lines_pairs (p :: pairs)).
  - constructor; [apply no_break_dumps|].
    constructor; [apply no_break_dumps|].
    apply Forall_forall. intros l Hl. apply in_flat_map in Hl.
    destruct Hl as (q & _ & [<- | [<- | []]]); apply no_break_dumps.
Qed.

(** X8. The reader inverts the writer.  For pairs of an action object and
    a source object of the bulk format, written the way the programs
    write them (one [json.dumps] per line, the lines joined by line
    feeds, one more at the end) and read as a text file,
    [_iter_ndjson_docs] yields exactly these pairs, in order, and
    stops; the text of no pair at all, a single line feed, yields
    nothing. *)
Theorem iter_ndjson_docs_reads_what_was_written
  (pairs : list (json * json)) :
  forallb bulk_pair pairs = true ->
  _iter_ndjson_docs (readlines (ndjson_text (flat_map pair_lines pairs)))
  = yields pairs
  /\ _iter_ndjson_docs (readlines (ndjson_text [])) = Stop.
Proof. intros H. split; [now apply iter_written_pairs|reflexivity]. Qed.

Lemma bulk_pair_paragraph_docs ic bid ch ci paras :
  forall pi seq,
    forallb wf (paragraph_docs bid ch ci paras pi seq) = true ->
    forallb bulk_pair
      (map (fun doc => (ConvertJson.index_action (JStr ic) None, doc))
           (paragraph_docs bid ch ci paras pi seq)) = true.
Proof.
  induction paras as [|p paras IH]; intros pi seq H; [reflexivity|].
  cbn [paragraph_docs map forallb] in *.
  apply andb_prop in H. destruct H as (W & H).
  rewrite (IH _ _ H), andb_true_r.
  unfold bulk_pair. cbn [fst snd ConvertJson.index_action].
  unfold ConvertJson.chunk_doc in *. rewrite W. reflexivity.
Qed.

Lemma bulk_pair_chunk_docs ic bid vs :
  forall ci seq,
    forallb wf (chunk_docs bid vs ci seq) = true ->
    forallb bulk_pair
      (map (fun doc => (ConvertJson.index_action (JStr ic) None, doc))
           (chunk_docs bid vs ci seq)) = true.
Proof.
  induction vs as [|[ch paras] vs IH]; intros ci seq H; [reflexivity|].
  cbn [chunk_docs] in *. rewrite forallb_app in H.
  apply andb_prop in H. destruct H as (H1 & H2).
  rewrite map_app, forallb_app, bulk_pair_paragraph_docs, IH; auto.
Qed.

Lemma flat_map_pair_lines ic docs :
  flat_map pair_lines
    (map (fun doc => (ConvertJson.index_action (JStr ic) None, doc)) docs)
  = flat_map (chunk_pair ic) docs.
Proof. induction docs as [|d docs IH]; [reflexivity|]. cbn. now rewrite IH. Qed.

(** What an input adds to the two streams, as pairs. *)
Lemma emitted_pairs ib ic data :
  String.eqb ib ic = false -> wf data = true ->
  emitted ib ic data
  = (flat_map pair_lines (book_pairs_of ib data),
     flat_map pair_lines (chunk_pairs_of ic data))
  /\ forallb bulk_pair (book_pairs_of ib data) = true
  /\ forallb bulk_pair (chunk_pairs_of ic data) = true.
Proof.
  intros Hne W. unfold emitted, book_pairs_of, chunk_pairs_of.
  destruct data as [| | | | | |b]; try (now repeat split).
  rewrite to_bulk_actions_eq, Hne.
  destruct (chapters_of (JDict b)) as [vs|] eqn:V; [|now repeat split].
  cbn [app firstn skipn book_pair].
  rewrite flat_map_pair_lines.
  split; [reflexivity|]. split.
  - cbn [forallb]. rewrite andb_true_r. unfold bulk_pair.
    cbn [fst snd ConvertJson.index_action].
    pose proof (wf_summary b W) as Ws.
    assert (Wa : wf (ConvertJson.index_action (JStr ib)
                       (Some (get_default "book_id" JNull b))) = true).
    { apply wf_index_action; [reflexivity|].
      now apply wf_get_default. }
    rewrite Wa, Ws. reflexivity.
  - apply bulk_pair_chunk_docs, wf_chunk_docs.
    + now apply wf_get_default.
    + eapply wf_chapters_of; eauto.
Qed.

Lemma flat_map_concat {A B} (f : A -> list B) (l : list (list A)) :
  flat_map f (concat l) = concat (map (flat_map f) l).
Proof.
  induction l as [|x l IH]; [reflexivity|].
  cbn [concat map]. now rewrite flat_map_app, IH.
Qed.

(** X9. From the converter to the reader.  With two different index
    names, the text the converter writes for the content stream, read
    as a file by [_iter_ndjson_docs], yields one pair for every paragraph
    of every input the encoder accepts, in the order of the inputs and of
    the paragraphs: an index action without [_id] and the chunk
    document.  The text of the books stream yields one pair for every
    accepted input: the index action with the [book_id] and the book
    summary.  Nothing is lost and nothing is read twice. *)
Theorem reader_yields_the_pairs_of_the_converter (ib ic : string)
  (json_iter : list (string * json)) :
  String.eqb ib ic = false ->
  forallb (fun nd => wf (snd nd)) json_iter = true ->
  let st := fst (ConvertJson.process_json_objects ib ic json_iter) in
  _iter_ndjson_docs (readlines (ndjson_text (ConvertJson.content_lines st)))
  = yields (flat_map (fun nd => chunk_pairs_of ic (snd nd)) json_iter)
  /\ _iter_ndjson_docs
       (readlines (ndjson_text (ConvertJson.books_lines st)))
     = yields (flat_map (fun nd => book_pairs_of ib (snd nd)) json_iter).
Proof.
  intros Hne HW st. subst st. unfold ConvertJson.process_json_objects.
  rewrite process_from_streams by assumption.
  cbn [ConvertJson.books_lines ConvertJson.content_lines app].
  assert (E : forall (sel : list string * list string -> list string)
                     (pairs_of : json -> list (json * json)),
             (forall data, wf data = true ->
                           sel (emitted ib ic data)
                           = flat_map pair_lines (pairs_of data)
                           /\ forallb bulk_pair (pairs_of data) = true) ->
             concat (map (fun nd => sel (emitted ib ic (snd nd))) json_iter)
             = flat_map pair_lines
                 (flat_map (fun nd => pairs_of (snd nd)) json_iter)
             /\ forallb bulk_pair
                  (flat_map (fun nd => pairs_of (snd nd)) json_iter)
                = true).
  { intros sel pairs_of Hs. clear Hne.
    induction json_iter as [|[n d] l IH]; [now split|].
    cbn [forallb snd] in HW. apply andb_prop in HW.
    destruct HW as (Wd & Wl). destruct (IH Wl) as (I1 & I2).
    destruct (Hs d Wd) as (S1 & S2).
    cbn [map concat flat_map snd].
    rewrite flat_map_app, forallb_app, I1, I2, S1, S2. now split. }
  split.
  - destruct (E snd (chunk_pairs_of ic)) as (E1 & E2).
    { intros data W. destruct (emitted_pairs ib ic data Hne W)
        as (-> & _ & H). now split. }
    rewrite E1. now apply iter_written_pairs.
  - destruct (E fst (book_pairs_of ib)) as (E1 & E2).
    { intros data W. destruct (emitted_pairs ib ic data Hne W)
        as (-> & H & _). now split. }
    rewrite E1. now apply iter_written_pairs.
Qed.

End ReadingPairs.

Lemma iter_ndjson_docs_reads_what_was_written_witness :
  forallb RequestsView.bulk_pair RequestsView.sample_pairs = true
  /\ Escli._iter_ndjson_docs
       (TextFile.readlines
          (TextFile.ndjson_text
             (flat_map RequestsView.pair_lines RequestsView.sample_pairs)))
     = RequestsView.yields RequestsView.sample_pairs.
Proof.
  split; [reflexivity|].
  exact (proj1 (iter_ndjson_docs_reads_what_was_written
                  RequestsView.sample_pairs eq_refl)).
Defined.

Lemma reader_yields_the_pairs_of_the_converter_witness :
  forallb (fun nd => wf (snd nd)) RequestsView.sample_inputs = true
  /\ Escli._iter_ndjson_docs
       (TextFile.readlines
          (TextFile.ndjson_text
             (ConvertJson.content_lines
                (fst (ConvertJson.process_json_objects "books" "book_content"
                        RequestsView.sample_inputs)))))
     = RequestsView.yields
         (flat_map (fun nd => RequestsView.chunk_pairs_of "book_content"
                                (snd nd))
                   RequestsView.sample_inputs).
Proof.
  split; [reflexivity|].
  exact (proj1 (reader_yields_the_pairs_of_the_converter "books"
                  "book_content" RequestsView.sample_inputs eq_refl eq_refl)).
Defined.


(* ================================================================== *)
(** * The requests of the embedding run *)

Section EmbeddingBatches.

Import Escli EmbedView.

Variable encode : string -> json.
Variable accepts : list string -> string -> bool.
Variables source_field target_field : string.
Variable index_override : option string.

#[local] Abbreviation embed_pair :=
  (Escli.embed_pair encode source_field target_field index_override).
#[local] Abbreviation embed_loop :=
  (Escli.embed_loop encode accepts source_field target_field index_override).
#[local] Abbreviation flush := (Escli.flush accepts).
#[local] Abbreviation produced :=
  (EmbedView.produced encode source_field target_field index_override).

(** X10. The requests of [embed_from_ndjson].  When the run ends without
    an exception, the bodies sent are the lines the pairs produced, in
    order and each once, cut into requests of 1000 lines (500 pairs), the
    last one of at most 1000; nothing is left unsent, and twice the
    count of items is the number of lines sent. *)
Theorem embed_sends_batches_of_500_pairs (lines : list string) :
  let run := Escli.embed_from_ndjson encode accepts source_field
               target_field index_override lines in
  raised run = None ->
  exists batches,
    posted run = map body_of batches
    /\ concat batches = produced (_iter_ndjson_docs lines)
    /\ Forall (fun b => length b = 1000) (removelast batches)
    /\ Forall (fun b => 0 < length b <= 1000) batches
    /\ 2 * total run = length (produced (_iter_ndjson_docs lines))
    /\ to_update run = [].
Proof.
  intros run Hf. subst run. unfold Escli.embed_from_ndjson in *.
  destruct (embed_loop_batches encode accepts source_field target_field
              index_override (_iter_ndjson_docs lines)
              (Run [] 0 [] None) [])
    as (more & M1 & M2 & M3 & M4 & M5 & M6);
    cbn [raised posted total to_update concat length]; try reflexivity;
    try assumption; try lia.
  exists more. cbn [app to_update] in *. rewrite <- M2.
  repeat split; assumption.
Qed.

End EmbeddingBatches.

Lemma embed_sends_batches_of_500_pairs_witness :
  Escli.raised EmbedView.sample_run = None
  /\ exists batches,
       Escli.posted EmbedView.sample_run = map Escli.body_of batches
       /\ concat batches
          = EmbedView.produced EscliView.sample_encode "text" "text_vector"
              None (Escli._iter_ndjson_docs EmbedView.sample_lines)
       /\ Forall (fun b => length b = 1000) (removelast batches)
       /\ Forall (fun b => 0 < length b <= 1000) batches
       /\ 2 * Escli.total EmbedView.sample_run
          = length
              (EmbedView.produced EscliView.sample_encode "text"
                 "text_vector" None
                 (Escli._iter_ndjson_docs EmbedView.sample_lines))
       /\ Escli.to_update EmbedView.sample_run = [].
Proof.
  split; [reflexivity|].
  exact (embed_sends_batches_of_500_pairs EscliView.sample_encode
           EscliView.always_accepts "text" "text_vector" None
           EmbedView.sample_lines eq_refl).
Defined.


(* ================================================================== *)
(** * The two modes of the converter *)

Section ConverterModes.

Import TextFile ConvertJson ConvertMain MainView.

Variables index_books index_content : string.

#[local] Abbreviation main_s3 :=
  (ConvertMain.main_s3 index_books index_content).
#[local] Abbreviation main_local :=
  (ConvertMain.main_local index_books index_content).

Lemma iter_json_from_s3_usable listing :
  fst (iter_json_from_s3 listing)
  = fst (iter_json_from_s3 (filter usable listing)).
Proof.
  induction listing as [|obj rest IH]; [reflexivity|].
  cbn [iter_json_from_s3 filter].
  destruct (iter_json_from_s3 rest) as [items errors] eqn:E1.
  destruct (iter_json_from_s3 (filter usable rest))
    as [items' errors'] eqn:E2.
  cbn [fst] in IH. subst items'.
  unfold usable at 1. unfold named_json.
  destruct (endswith ".json" (lower (name obj))) eqn:En; cbn [negb andb].
  - destruct (load obj) as [data|e] eqn:El; cbn [is_ok fst].
    + cbn [iter_json_from_s3]. now rewrite E2, En, El.
    + now rewrite E2.
  - now rewrite E2.
Qed.

(** X12. The storage mode skips what it cannot use.  An object whose name
    does not end in [.json] (whatever the case of the letters), whose
    bytes are not UTF-8 or whose text is not JSON has no effect on the
    two texts written: they are the texts of the run over the other
    objects.  The texts of the objects are narrow ones. *)
Theorem main_s3_skips_unusable_objects (listing : list source) :
  forallb narrow_text listing = true ->
  main_s3 listing = main_s3 (filter usable listing).
Proof.
  intros _. unfold ConvertMain.main_s3.
  now rewrite (iter_json_from_s3_usable listing).
Qed.

(** *** The order of the files *)

Lemma compare_lt_le_trans (a : string) :
  forall b c,
    String.compare a b = Lt -> String.compare b c <> Gt ->
    String.compare a c = Lt.
Proof.
  induction a as [|x a IH]; intros [|y b] [|z c] H1 H2;
    cbn [String.compare] in *; try congruence.
  unfold Ascii.compare in *.
  destruct (N.compare_spec (N_of_ascii x) (N_of_ascii y)) as [E1|L1|G1];
    try discriminate;
    destruct (N.compare_spec (N_of_ascii y) (N_of_ascii z)) as [E2|L2|G2];
    try congruence;
    destruct (N.compare_spec (N_of_ascii x) (N_of_ascii z)) as [E3|L3|G3];
    try reflexivity; try lia.
  now apply (IH b c).
Qed.

Lemma not_ltb_leb a b : String.ltb a b = false -> String.leb b a = true.
Proof.
  unfold String.ltb, String.leb. rewrite (String.compare_antisym a b).
  now destruct (String.compare b a).
Qed.

Lemma ltb_leb_trans a b c :
  String.ltb a b = true -> String.leb b c = true -> String.leb a c = true.
Proof.
  unfold String.ltb, String.leb. intros H1 H2.
  rewrite (compare_lt_le_trans a b c); [reflexivity| |].
  - now destruct (String.compare a b).
  - now destruct (String.compare b c).
Qed.

Lemma ltb_leb a b : String.ltb a b = true -> String.leb a b = true.
Proof. unfold String.ltb, String.leb. now destruct (String.compare a b). Qed.

Lemma insert_permutation f l : Permutation (insert f l) (f :: l).
Proof.
  induction l as [|g r IH]; [reflexivity|]. cbn [insert].
  destruct (String.ltb (name f) (name g)); [reflexivity|].
  rewrite IH. apply perm_swap.
Qed.

Lemma insert_sorted f l :
  StronglySorted name_le l -> StronglySorted name_le (insert f l).
Proof.
  induction 1 as [|g r Hr IH Hg]; cbn [insert].
  - repeat constructor.
  - destruct (String.ltb (name f) (name g)) eqn:E.
    + constructor; [now constructor|]. constructor; [now apply ltb_leb|].
      eapply Forall_impl; [|exact Hg]. intros h Hh.
      unfold name_le in *. eapply ltb_leb_trans; eauto.
    + constructor; [exact IH|].
      rewrite insert_permutation. constructor; [|exact Hg].
      now apply not_ltb_leb.
Qed.

Lemma sorted_from acc l :
  StronglySorted name_le acc ->
  StronglySorted name_le (fold_left (fun acc f => insert f acc) l acc)
  /\ Permutation (fold_left (fun acc f => insert f acc) l acc) (acc ++ l).
Proof.
  revert acc. induction l as [|f l IH]; intros acc H.
  - cbn [fold_left]. rewrite List.app_nil_r. now split.
  - cbn [fold_left]. destruct (IH (insert f acc)) as (H1 & H2);
      [now apply insert_sorted|].
    split; [exact H1|]. rewrite H2, insert_permutation.
    now rewrite <- Permutation_middle.
Qed.

Lemma sorted_permutation l : Permutation (sorted l) l.
Proof. apply (sorted_from [] l). constructor. Qed.

Lemma sorted_sorted l : StronglySorted name_le (sorted l).
Proof. apply (sorted_from [] l). constructor. Qed.

Lemma same_name_same_file (l : list source) f g :
  NoDup (map name l) -> In f l -> In g l -> name f = name g -> f = g.
Proof.
  induction l as [|h l IH]; intros Hn Hf Hg E; [destruct Hf|].
  cbn [map] in Hn. inversion Hn as [|? ? Hh Hl]; subst.
  destruct Hf as [<- | Hf], Hg as [<- | Hg]; try reflexivity.
  - destruct Hh. rewrite E. now apply in_map.
  - destruct Hh. rewrite <- E. now apply in_map.
  - now apply IH.
Qed.

Lemma sorted_unique (l1 : list source) :
  forall l2,
    StronglySorted name_le l1 -> StronglySorted name_le l2 ->
    Permutation l1 l2 -> NoDup (map name l1) -> l1 = l2.
Proof.
  induction l1 as [|a l1 IH]; intros l2 S1 S2 P N.
  - now apply Permutation_nil in P.
  - destruct l2 as [|b l2];
      [now apply Permutation_sym, Permutation_nil in P|].
    assert (E : a = b).
    { assert (Ia : In a (b :: l2))
        by (eapply Permutation_in; [exact P|now left]).
      assert (Ib : In b (a :: l1))
        by (eapply Permutation_in;
            [apply Permutation_sym, P|now left]).
      destruct Ia as [->|Ia]; [reflexivity|].
      destruct Ib as [->|Ib]; [reflexivity|].
      inversion S1 as [|? ? _ F1]; inversion S2 as [|? ? _ F2]; subst.
      rewrite Forall_forall in F1, F2.
      apply (same_name_same_file (a :: l1)); auto;
        [now left|now right|].
      apply String.leb_antisym; [now apply F1|now apply F2]. }
    subst b. f_equal.
    inversion S1; inversion S2; subst. inversion N; subst.
    apply IH; auto. now apply Permutation_cons_inv in P.
Qed.

Lemma sorted_of_permutation l l' :
  Permutation l l' -> NoDup (map name l) -> sorted l = sorted l'.
Proof.
  intros P N. apply sorted_unique; try apply sorted_sorted.
  - now rewrite !sorted_permutation.
  - eapply Permutation_NoDup; [|exact N].
    apply Permutation_map, Permutation_sym, sorted_permutation.
Qed.

(** X13. The local mode does not depend on the order in which the folder
    lists its files: the names of the files of a folder being different,
    two listings of the same files give the same two texts (or the same
    exception). *)
Theorem main_local_order_of_the_folder (files files' : list source) :
  Permutation files files' -> NoDup (map name files) ->
  main_local files = main_local files'.
Proof.
  intros P N. unfold ConvertMain.main_local.
  now rewrite (sorted_of_permutation files files' P N).
Qed.

(** *** A file that is not JSON *)

Lemma iter_json_local_ends l :
  snd (iter_json_local l) = None
  <-> forallb (fun f => is_ok (load f)) l = true.
Proof.
  induction l as [|f l IH]; [now split|].
  cbn [iter_json_local forallb].
  destruct (load f); cbn [is_ok andb snd]; [|now split].
  now destruct (iter_json_local l).
Qed.

Lemma iter_json_local_items l :
  forallb (fun f => is_ok (load f)) l = true ->
  forallb named_json l = true ->
  fst (iter_json_local l) = fst (iter_json_from_s3 l).
Proof.
  induction l as [|f l IH]; [reflexivity|].
  cbn [iter_json_local iter_json_from_s3 forallb].
  intros H1 H2. apply andb_prop in H1, H2.
  destruct H1 as (L & H1), H2 as (J & H2). unfold named_json in J.
  rewrite J. cbn [negb]. specialize (IH H1 H2).
  destruct (load f); [|discriminate].
  destruct (iter_json_local l), (iter_json_from_s3 l). cbn [fst] in *.
  congruence.
Qed.

Lemma forallb_permutation {A} (p : A -> bool) l l' :
  Permutation l l' -> forallb p l = forallb p l'.
Proof.
  induction 1; cbn [forallb]; try congruence.
  now rewrite !andb_assoc, (andb_comm (p y)).
Qed.

Lemma main_local_is_ok (files : list source) :
  is_ok (main_local files) = forallb (fun f => is_ok (load f)) files.
Proof.
  unfold ConvertMain.main_local.
  pose proof (iter_json_local_ends (sorted files)) as E.
  rewrite (forallb_permutation _ _ _ (sorted_permutation files)) in E.
  destruct (iter_json_local (sorted files)) as [items [e|]];
    cbn [snd is_ok] in *.
  - destruct (forallb _ files); [|reflexivity].
    discriminate (proj2 E eq_refl).
  - symmetry. now apply E.
Qed.

(** X14. One bad file stops the local mode.  For files whose texts are
    narrow ones, the local mode returns, and writes its two texts,
    exactly when every file of the folder holds the text of a JSON
    value: a single file that does not makes [main] raise before
    anything is written, whatever the other files hold.  When it
    returns, the texts are those the storage mode writes for the same
    documents listed in the order of their names. *)
Theorem main_local_needs_every_file (files : list source) :
  forallb narrow_text files = true ->
  is_ok (main_local files) = forallb (fun f => is_ok (load f)) files
  /\ (forallb (fun f => is_ok (load f)) files = true ->
      forallb named_json files = true ->
      main_local files = Ok (main_s3 (sorted files))).
Proof.
  intros _. split; [apply main_local_is_ok|].
  unfold ConvertMain.main_local, ConvertMain.main_s3.
  pose proof (iter_json_local_ends (sorted files)) as E.
  rewrite (forallb_permutation _ _ _ (sorted_permutation files)) in E.
  intros H J.
  pose proof (iter_json_local_items (sorted files)) as I.
  rewrite !(forallb_permutation _ _ _ (sorted_permutation files)) in I.
  specialize (I H J).
  destruct (iter_json_local (sorted files)) as [items [e|]];
    cbn [snd fst] in *.
  - discriminate (proj2 E H).
  - now rewrite I.
Qed.

End ConverterModes.

Lemma main_local_order_of_the_folder_witness :
  NoDup (map ConvertMain.name MainView.sample_folder)
  /\ ConvertMain.main_local "books" "book_content" MainView.sample_folder
     = ConvertMain.main_local "books" "book_content"
         (rev MainView.sample_folder).
Proof.
  assert (N : NoDup (map ConvertMain.name MainView.sample_folder)).
  { repeat constructor; cbn; intuition discriminate. }
  split; [exact N|].
  exact (main_local_order_of_the_folder "books" "book_content"
           MainView.sample_folder (rev MainView.sample_folder)
           (Permutation_rev MainView.sample_folder) N).
Defined.

Lemma main_s3_skips_unusable_objects_witness :
  forallb MainView.narrow_text MainView.sample_listing = true
  /\ filter MainView.usable MainView.sample_listing
     = [ConvertMain.Source "A.JSON" (Ok MainView.rated)]
  /\ ConvertMain.main_s3 "books" "book_content" MainView.sample_listing
     = ConvertMain.main_s3 "books" "book_content"
         [ConvertMain.Source "A.JSON" (Ok MainView.rated)].
Proof.
  split; [reflexivity|]. split; [vm_compute; reflexivity|].
  exact (main_s3_skips_unusable_objects "books" "book_content"
           MainView.sample_listing eq_refl).
Defined.

Lemma main_local_needs_every_file_witness :
  forallb MainView.narrow_text MainView.rated_folder = true
  /\ forallb (fun f => is_ok (ConvertMain.load f)) MainView.rated_folder
     = true
  /\ is_ok (ConvertMain.main_local "books" "book_content"
              MainView.rated_folder)
     = true.
Proof.
  split; [reflexivity|]. split; [vm_compute; reflexivity|].
  exact (proj1 (main_local_needs_every_file "books" "book_content"
                  MainView.rated_folder eq_refl)).
Defined.


(* ================================================================== *)
(** * The ISBN among the identifiers: [_pick_isbn] *)

Section PickIsbn.

Import EpubIsbn RecordView.

Lemma all_of_spec n :
  forall s, all_of n s = all_digits s && (String.length s =? n)%nat.
Proof.
  unfold all_of. induction n as [|n IH]; intros [|c r];
    cbn [digits all_digits String.length Nat.eqb is_empty andb];
    try reflexivity.
  - now rewrite andb_false_r.
  - destruct (isdigit c); cbn [andb]; [apply IH|reflexivity].
Qed.

Lemma fullmatch_isbn_spec s : fullmatch_isbn s = isbn_like s.
Proof.
  unfold fullmatch_isbn, isbn_like. rewrite !all_of_spec.
  now destruct (all_digits s).
Qed.

(** X18. What [_pick_isbn] returns.  The result is the first value that,
    once its spaces and hyphens are taken out, is made of ten or of
    thirteen decimal digits, in that form; there is no result (the
    function returns [None]) when no value is, so for no value at all.
    Nothing but the number of digits is looked at: a value with a letter,
    as the check character [X] of an ISBN-10, is never returned, and no
    check digit is verified. *)
Theorem pick_isbn_first_ten_or_thirteen_digits (values : list string) :
  match _pick_isbn values with
  | Some r =>
      exists pre v post,
        values = pre ++ v :: post
        /\ r = cleaned v
        /\ all_digits r = true
        /\ (String.length r = 10 \/ String.length r = 13)
        /\ Forall (fun u => isbn_like (cleaned u) = false) pre
  | None => Forall (fun u => isbn_like (cleaned u) = false) values
  end.
Proof.
  induction values as [|v values IH]; [constructor|].
  cbn [_pick_isbn]. fold (cleaned v). rewrite fullmatch_isbn_spec.
  destruct (isbn_like (cleaned v)) eqn:E.
  - exists [], v, values. unfold isbn_like in E.
    apply andb_prop in E. destruct E as (D & L).
    apply orb_prop in L.
    split; [reflexivity|]. split; [reflexivity|]. split; [exact D|].
    split; [|constructor].
    destruct L as [L|L]; apply Nat.eqb_eq in L; auto.
  - destruct (_pick_isbn values) as [r|].
    + destruct IH as (pre & u & post & -> & Hr & D & L & F).
      exists (v :: pre), u, post.
      split; [reflexivity|]. split; [exact Hr|]. split; [exact D|].
      split; [exact L|]. now constructor.
    + now constructor.
Qed.

End PickIsbn.

(* ================================================================== *)
(** * The values of the structured metadata: [_meta_values] *)

Section MetaValues.

Import EpubToJson EpubView.

Lemma rstrip_idempotent s : rstrip (rstrip s) = rstrip s.
Proof.
  induction s as [|c s IH]; [reflexivity|]. cbn [rstrip].
  destruct (isspace c && is_empty (rstrip s)) eqn:E; [reflexivity|].
  cbn [rstrip]. now rewrite IH, E.
Qed.

Lemma rstrip_lstrip s : rstrip s = s -> rstrip (lstrip s) = lstrip s.
Proof.
  induction s as [|c s IH]; [reflexivity|]. intros H.
  cbn [lstrip]. destruct (isspace c) eqn:Ec; [|exact H].
  apply IH. cbn [rstrip] in H. rewrite Ec in H. cbn [andb] in H.
  destruct (is_empty (rstrip s)); [discriminate|]. congruence.
Qed.

Lemma lstrip_idempotent s : lstrip (lstrip s) = lstrip s.
Proof.
  induction s as [|c s IH]; [reflexivity|]. cbn [lstrip].
  destruct (isspace c) eqn:Ec; [exact IH|]. cbn [lstrip]. now rewrite Ec.
Qed.

(** [s.strip().strip()] is [s.strip()]. *)
Lemma strip_idempotent s : strip (strip s) = strip s.
Proof.
  unfold strip. rewrite rstrip_lstrip by apply rstrip_idempotent.
  apply lstrip_idempotent.
Qed.

(** X19. [_meta_values] never raises and returns stripped strings.  For
    any container, namespace and key, every value returned is a string
    without white space at its ends; there are no more values than
    entries, an entry whose value is not a string (an element without
    text, say) giving none; a namespace the container does not have
    gives the empty list, the [KeyError] of [get_metadata] being
    caught. *)
Theorem meta_values_are_stripped_strings (b : book) (ns key : string) :
  Forall (fun v => strip v = v) (_meta_values b ns key)
  /\ length (_meta_values b ns key)
     <= length (try_except (get_metadata b ns key) [])
  /\ (forall attrs,
        _meta_values (Book (uid b)
                           [(ns, [(key, [[JNull; JDict attrs]])])]
                           (get_items b)) ns key = [])
  /\ (assoc ns (metadata b) = None -> _meta_values b ns key = []).
Proof.
  unfold _meta_values. split; [|split; [|split]].
  - induction (try_except (get_metadata b ns key) []) as [|p l IH];
      [constructor|].
    cbn [flat_map]. apply Forall_app. split; [|exact IH].
    destruct p as [|[] ?]; repeat constructor. apply strip_idempotent.
  - induction (try_except (get_metadata b ns key) []) as [|p l IH];
      [constructor|].
    cbn [flat_map length]. rewrite List.length_app.
    destruct p as [|[] ?]; cbn [length]; lia.
  - intros attrs. unfold get_metadata. cbn [metadata assoc].
    rewrite String.eqb_refl. cbn [assoc]. rewrite String.eqb_refl.
    reflexivity.
  - intros H. unfold get_metadata. now rewrite H.
Qed.

End MetaValues.

(* ================================================================== *)
(** * The chapters of the record *)

Section ChaptersOfTheRecord.

Import Bs4 EpubToJson EpubView RecordView.

Lemma filter_nonempty_all l :
  Forall (fun p => nonempty p = true) (filter nonempty l).
Proof.
  apply Forall_forall. intros p Hp. now apply filter_In in Hp.
Qed.

(** No paragraph of an item is empty. *)
Lemma texts_nonempty it :
  Forall (fun p => nonempty p = true) (snd (extract_texts_from_item it)).
Proof.
  unfold extract_texts_from_item. cbn [snd].
  destruct (filter nonempty
              (map (fun t : tag => get_text Re.newline_str (snd t))
                   (find_all ["p"; "li"; "pre"] (soup it)))) eqn:E.
  - cbn [app]. apply filter_nonempty_all.
  - rewrite <- E. apply filter_nonempty_all.
Qed.

Lemma chapter_of_item_at_most_one it :
  length (chapter_of_item it)
  <= (if (get_type it =? ITEM_DOCUMENT)%N then 1 else 0).
Proof.
  unfold chapter_of_item. destruct (get_type it =? ITEM_DOCUMENT)%N;
    [|constructor].
  destruct (snd (extract_texts_from_item it)); cbn [length]; lia.
Qed.

Lemma chapters_of_items_hold_text items :
  Forall (fun ch =>
            snd ch <> []
            /\ Forall (fun p => nonempty p = true) (snd ch))
         (chapters_of_items items).
Proof.
  unfold chapters_of_items.
  apply Forall_forall. intros ch Hch. apply in_flat_map in Hch.
  destruct Hch as (it & _ & Hit). unfold chapter_of_item in Hit.
  destruct (get_type it =? ITEM_DOCUMENT)%N; [|destruct Hit].
  pose proof (texts_nonempty it) as T.
  destruct (snd (extract_texts_from_item it)) as [|p ps] eqn:E;
    [destruct Hit|].
  destruct Hit as [<- | []]. cbn [snd]. split; [discriminate|exact T].
Qed.

(** X20. The chapters of the record.  [read_epub] stores one chapter for
    every document item of the container that has text, in the order of
    the items, and none for the other items (images, style sheets,
    documents without text).  Every chapter stored has at least one
    paragraph, and no paragraph is the empty string. *)
Theorem read_epub_chapters_hold_text (stem : string)
  (file : list Byte.byte) (b : book) :
  let chs := chapters_of_items (get_items b) in
  dict_get "chapters" (read_epub stem file b)
  = Some (JList (map chapter_json chs))
  /\ Forall (fun ch =>
               snd ch <> []
               /\ Forall (fun p => nonempty p = true) (snd ch)) chs
  /\ length chs
     <= length (filter (fun it => (get_type it =? ITEM_DOCUMENT)%N)
                       (get_items b)).
Proof.
  intros chs. subst chs. split; [apply read_epub_chapters|].
  split; [apply chapters_of_items_hold_text|].
  unfold chapters_of_items.
  induction (get_items b) as [|it items IH]; [constructor|].
  cbn [flat_map filter]. rewrite List.length_app.
  pose proof (chapter_of_item_at_most_one it) as H.
  destruct (get_type it =? ITEM_DOCUMENT)%N; cbn [length]; lia.
Qed.

(** X21. Nested paragraphs are stored twice.  [find_all] gives an element
    and the elements inside it alike: for a paragraph element that lies
    inside another one (a [p] in a [li], say) the text is taken once for
    the outer element and once for the inner one, so the item has the
    same paragraph twice, and the book two chunks of the same text. *)
Theorem nested_paragraph_is_stored_twice (name outer inner t : string) :
  name_in EpubMainView.paragraph_tags (outer, []) = true ->
  name_in EpubMainView.paragraph_tags (inner, []) = true ->
  nonempty (strip t) = true ->
  snd (extract_texts_from_item
         (Item ITEM_DOCUMENT name [Elem outer [Elem inner [Text t]]]))
  = [strip t; strip t].
Proof.
  intros Ho Hi Ht. unfold extract_texts_from_item. cbn [snd soup].
  assert (F : find_all ["p"; "li"; "pre"]
                       [Elem outer [Elem inner [Text t]]]
              = [(outer, [Elem inner [Text t]]); (inner, [Text t])]).
  { unfold find_all, descendants.
    cbn [flat_map elements_of app filter].
    unfold name_in in *. cbn [fst] in *.
    unfold EpubMainView.paragraph_tags in *. now rewrite Ho, Hi. }
  rewrite F. cbn [map snd]. unfold get_text.
  cbn [flat_map strings_of app map filter].
  unfold nonempty in Ht. rewrite Ht.
  unfold join. cbn [String.concat filter]. unfold nonempty.
  rewrite Ht. reflexivity.
Qed.

End ChaptersOfTheRecord.

Lemma nested_paragraph_is_stored_twice_witness :
  EpubToJson.nonempty (strip "One point.") = true
  /\ snd (EpubToJson.extract_texts_from_item EpubMainView.nested_item)
     = [strip "One point."; strip "One point."].
Proof.
  split; [reflexivity|].
  exact (nested_paragraph_is_stored_twice "ch1.xhtml" "li" "p" "One point."
           eq_refl eq_refl eq_refl).
Defined.

(* ================================================================== *)
(** * The description and the publisher of the record *)

Section DescriptionAndPublisher.

Import EpubToJson EpubView RecordView.

Variable stem : string.
Variable file : list Byte.byte.
Variable b : book.

#[local] Abbreviation with_chapters := (EpubView.with_chapters stem file b).
#[local] Abbreviation chs := (chapters_of_items (get_items b)).

Lemma take_le n : forall s, String.length (take n s) <= n.
Proof.
  induction n as [|n IH]; intros [|c s]; cbn [take String.length]; try lia.
  specialize (IH s). lia.
Qed.

Lemma get_chapters_before_description :
  dict_get "chapters" with_chapters = Some (JList (map chapter_json chs)).
Proof.
  pose proof (get_chapters_with_chapters stem file b) as C.
  now rewrite get_set_description_other in C by reflexivity.
Qed.

Lemma paragraphs_of_chapters n m (l : list (string * list string)) :
  flat_map (fun ch => firstn n (paragraphs_of ch))
           (firstn m (map chapter_json l))
  = flat_map (fun ch => firstn n (snd ch)) (firstn m l).
Proof.
  rewrite firstn_map. induction (firstn m l) as [|ch r IH]; [reflexivity|].
  cbn [map flat_map]. rewrite IH. f_equal.
  unfold chapter_json, paragraphs_of, get_list.
  cbn [dict_get String.eqb Ascii.eqb Bool.eqb].
  now rewrite strs_map_JStr.
Qed.

Lemma get_description_before :
  dict_get "description" with_chapters = first_value b "description".
Proof.
  unfold EpubView.with_chapters, EpubView.before_title.
  rewrite get_add_items_other, get_drop_authors_other,
    get_set_title_other, get_set_defaults_other, get_set_identity_other,
    get_join_authors_other by reflexivity.
  apply get_first_after_loop. cbn; auto.
Qed.

(** X22. The description of the record.  The description is the first
    description of the structured metadata when that one is not empty.
    Otherwise it is taken from the text: the first three paragraphs of
    each of the first three chapters, joined by empty lines, stripped and
    cut to 2000 characters; when the text gives nothing, the key is left
    as the metadata left it (empty or absent).  So a description that
    does not come from the metadata has at most 2000 characters. *)
Theorem read_epub_description :
  let meta := first_or_empty b "description" in
  dict_get "description" (read_epub stem file b)
  = (if nonempty meta then Some (JStr meta)
     else if nonempty (description_of_text chs)
          then Some (JStr (take 2000 (description_of_text chs)))
          else first_value b "description")
  /\ (forall d,
        nonempty meta = false ->
        dict_get "description" (read_epub stem file b) = Some (JStr d) ->
        String.length d <= 2000).
Proof.
  intros meta.
  assert (E : dict_get "description" (read_epub stem file b)
              = (if nonempty meta then Some (JStr meta)
                 else if nonempty (description_of_text chs)
                      then Some (JStr (take 2000 (description_of_text chs)))
                      else first_value b "description")).
  { rewrite read_epub_stages.
    rewrite get_publisher_from_mark_other, get_author_from_stem_other,
      get_publisher_from_text_other, get_author_from_text_other
      by reflexivity.
    pose proof get_description_before as G. unfold first_value in G.
    unfold set_description, falsy, get_or_none.
    rewrite G. unfold get_list.
    rewrite get_chapters_before_description, paragraphs_of_chapters.
    fold (description_of_text chs).
    subst meta. unfold first_value, first_or_empty.
    destruct (_meta_values b "DC" "description") as [|v vs].
    - cbn [truthy negb nonempty is_empty].
      destruct (nonempty (description_of_text chs));
        [now rewrite dict_get_set|exact G].
    - cbn [truthy]. rewrite negb_involutive. unfold nonempty at 2.
      destruct (is_empty v) eqn:Ev; cbn [negb]; [|exact G].
      destruct (nonempty (description_of_text chs));
        [now rewrite dict_get_set|exact G]. }
  split; [exact E|].
  intros d Hm Hd. rewrite E, Hm in Hd.
  destruct (nonempty (description_of_text chs)).
  - assert (d = take 2000 (description_of_text chs)) as -> by congruence.
    apply take_le.
  - subst meta. unfold first_value, first_or_empty in *.
    destruct (_meta_values b "DC" "description") as [|v vs];
      [discriminate|].
    injection Hd as <-. unfold nonempty in Hm.
    destruct v; [cbn; lia|discriminate].
Qed.

Lemma chapters_truthy d (l : list (string * list string)) :
  dict_get "chapters" d = Some (JList (map chapter_json l)) ->
  truthy (get_or_none "chapters" d)
  = match l with [] => false | _ => true end.
Proof. intros H. unfold get_or_none. rewrite H. now destruct l. Qed.

Lemma publisher_from_text_get d p (l : list (string * list string)) :
  dict_get "publisher" d = Some (JStr p) ->
  dict_get "chapters" d = Some (JList (map chapter_json l)) ->
  dict_get "publisher" (publisher_from_text d)
  = Some (JStr (if nonempty p then p else publisher_of_text l)).
Proof.
  intros Hp Hc. unfold publisher_from_text, falsy.
  rewrite (chapters_truthy d l Hc). unfold get_or_none. rewrite Hp.
  cbn [truthy]. rewrite negb_involutive. unfold nonempty.
  destruct p as [|c p]; cbn [is_empty negb andb]; [|exact Hp].
  destruct l as [|ch l]; [exact Hp|].
  rewrite (first_paragraphs_chapters d ch l Hc).
  unfold publisher_of_text, head_text. cbn [snd].
  destruct (Re.search_group1 Re.publisher_line _);
    [now rewrite dict_get_set|exact Hp].
Qed.

Lemma publisher_from_mark_get d p (l : list (string * list string)) :
  dict_get "publisher" d = Some (JStr p) ->
  dict_get "chapters" d = Some (JList (map chapter_json l)) ->
  dict_get "publisher" (publisher_from_mark d)
  = Some (JStr (if nonempty p then p else publisher_of_mark l)).
Proof.
  intros Hp Hc. unfold publisher_from_mark, falsy.
  rewrite (chapters_truthy d l Hc). unfold get_or_none. rewrite Hp.
  cbn [truthy]. rewrite negb_involutive. unfold nonempty.
  destruct p as [|c p]; cbn [is_empty negb andb]; [|exact Hp].
  unfold get_list. rewrite Hc, paragraphs_of_chapters.
  unfold publisher_of_mark.
  destruct l as [|ch l]; [exact Hp|].
  destruct (contains "Standard Ebooks" _);
    [now rewrite dict_get_set|exact Hp].
Qed.

Lemma get_publisher_before :
  dict_get "publisher" with_chapters
  = Some (JStr (first_or_empty b "publisher")).
Proof.
  unfold EpubView.with_chapters, EpubView.before_title.
  rewrite get_add_items_other, get_drop_authors_other, get_set_title_other
    by reflexivity.
  unfold set_defaults. cbv zeta.
  rewrite !dict_get_setdefault. cbn [String.eqb Ascii.eqb Bool.eqb].
  rewrite get_set_identity_other, get_join_authors_other by reflexivity.
  rewrite (get_first_after_loop stem b "publisher" "publisher")
    by (cbn; auto).
  unfold first_value, first_or_empty.
  now destruct (_meta_values b "DC" "publisher").
Qed.

(** X23. The publisher of the record.  The publisher is the first
    publisher of the structured metadata when that one is not empty;
    else what follows the word "Publisher" (or "publisher", with or
    without a colon) on a line of the first twenty paragraphs of the
    first chapter; else, when the first fifty paragraphs of the first
    five chapters hold the words "Standard Ebooks", these words; else
    the empty string.  It is never absent. *)
Theorem read_epub_publisher :
  dict_get "publisher" (read_epub stem file b)
  = Some (JStr
            (let meta := first_or_empty b "publisher" in
             let from_text :=
               if nonempty meta then meta else publisher_of_text chs in
             if nonempty from_text then from_text
             else publisher_of_mark chs)).
Proof.
  rewrite read_epub_stages.
  apply publisher_from_mark_get.
  - rewrite get_author_from_stem_other by reflexivity.
    apply publisher_from_text_get.
    + rewrite get_author_from_text_other, get_set_description_other
        by reflexivity.
      apply get_publisher_before.
    + rewrite get_author_from_text_other by reflexivity.
      apply get_chapters_with_chapters.
  - rewrite get_author_from_stem_other, get_publisher_from_text_other,
      get_author_from_text_other by reflexivity.
    apply get_chapters_with_chapters.
Qed.

End DescriptionAndPublisher.


(* ================================================================== *)
(** * The form of the identifiers *)

Section FormOfIdentifiers.

Import EpubToJson EpubView RecordView BulkView.

Lemma all_hex_app a b : all_hex (a ++ b) = all_hex a && all_hex b.
Proof.
  induction a as [|c a IH]; [reflexivity|].
  cbn [append all_hex]. rewrite IH. now rewrite andb_assoc.
Qed.

Lemma all_hex_bytes bs : all_hex (Sha1.hex_of_bytes bs) = true.
Proof.
  unfold Sha1.hex_of_bytes. induction bs as [|x bs IH]; [reflexivity|].
  cbn [map]. rewrite concat_empty_cons, all_hex_app, IH, andb_true_r.
  destruct x; reflexivity.
Qed.

Lemma all_hex_take n : forall s, all_hex s = true -> all_hex (take n s) = true.
Proof.
  induction n as [|n IH]; intros [|c s] H; try reflexivity.
  cbn [take all_hex] in *. apply andb_prop in H. destruct H as (Hc & Hs).
  now rewrite Hc, IH.
Qed.

Lemma nonempty_of_length s : 0 < String.length s -> nonempty s = true.
Proof. destruct s; cbn; [lia|reflexivity]. Qed.

Lemma scan_identifiers_nonempty u pairs :
  forall first_val,
    match first_val with Some v => nonempty v = true | None => True end ->
    match scan_identifiers u pairs first_val with
    | inl v | inr (Some v) => nonempty v = true
    | inr None => True
    end.
Proof.
  induction pairs as [|p pairs IH]; intros fv Hfv; [exact Hfv|].
  cbn [scan_identifiers]. destruct p as [|p0 tl]; [now apply IH|].
  cbv zeta.
  set (val := strip (py_str p0)).
  set (fv' := match fv with
              | Some _ => fv
              | None => if nonempty val then Some val else None
              end).
  assert (Hfv' : match fv' with
                 | Some v => nonempty v = true
                 | None => True
                 end).
  { subst fv'. destruct fv; [exact Hfv|].
    destruct (nonempty val) eqn:E; [exact E|exact I]. }
  destruct u as [u|]; [|now apply IH].
  destruct (nonempty u && id_is _ u && nonempty val) eqn:E; [|now apply IH].
  apply andb_prop in E. now destruct E.
Qed.

(** X24. The form of the two identifiers.  For every container and every
    file, the [source_uid] of the record is a string that is not empty,
    and the [book_id] is a string of exactly sixteen characters, each a
    decimal digit or a letter from [a] to [f]; the name of the file, the
    first value of [book_id], never stays. *)
Theorem read_epub_identifiers_form (stem : string) (file : list Byte.byte)
  (b : book) :
  exists source_uid book_id,
    dict_get "source_uid" (read_epub stem file b) = Some (JStr source_uid)
    /\ dict_get "book_id" (read_epub stem file b) = Some (JStr book_id)
    /\ nonempty source_uid = true
    /\ String.length book_id = 16
    /\ all_hex book_id = true.
Proof.
  exists (_pick_stable_id b file),
    (take 16 (Sha1.hexdigest (Sha1.utf8 (_pick_stable_id b file)))).
  split; [apply read_epub_source_uid|].
  split; [apply read_epub_book_id|]. split; [|split].
  - unfold _pick_stable_id.
    pose proof (scan_identifiers_nonempty (uid b)
                  (try_except (get_metadata b "DC" "identifier") [])
                  None I) as H.
    destruct (scan_identifiers _ _ None) as [v|[v|]]; try exact H.
    apply nonempty_of_length. rewrite hexdigest_length. lia.
  - apply book_id_length.
  - apply all_hex_take, all_hex_bytes.
Qed.

(** *** The identifiers of the chunks *)

Lemma append_cancel_l (a b c : string) :
  (a ++ b)%string = (a ++ c)%string -> b = c.
Proof. induction a as [|x a IH]; cbn [append]; [auto|]. intros [= H]. auto. Qed.

Lemma zeros_value k s :
  NilEmpty.uint_of_string
    (String.concat EmptyString (repeat "0" k) ++ s)
  = option_map (fun d => Nat.iter k Decimal.D0 d)
               (NilEmpty.uint_of_string s).
Proof.
  induction k as [|k IH].
  - cbn. now destruct (NilEmpty.uint_of_string s).
  - cbn [repeat]. rewrite concat_empty_cons, append_assoc.
    cbn [append NilEmpty.uint_of_string]. rewrite IH.
    now destruct (NilEmpty.uint_of_string s).
Qed.

Lemma of_uint_zeros k d :
  N.of_uint (Nat.iter k Decimal.D0 d) = N.of_uint d.
Proof. induction k as [|k IH]; [reflexivity|exact IH]. Qed.

(** The number printed by [f"{n:06d}"] is read back as [n]. *)
Lemma format_06d_value n :
  option_map N.of_uint (NilEmpty.uint_of_string (format_06d n))
  = Some (N.of_nat n).
Proof.
  unfold format_06d, str_of_N. rewrite zeros_value, NilEmpty.usu.
  cbn [option_map]. now rewrite of_uint_zeros, DecimalN.Unsigned.of_to.
Qed.

Lemma format_06d_injective n m : format_06d n = format_06d m -> n = m.
Proof.
  intros H. pose proof (format_06d_value n) as Hn.
  rewrite H, format_06d_value in Hn. injection Hn as Hn. lia.
Qed.

Lemma NoDup_map_injective {A B} (f : A -> B) (l : list A) :
  (forall x y, f x = f y -> x = y) -> NoDup l -> NoDup (map f l).
Proof.
  intros Hf H. induction H as [|x l Hx Hl IH]; [constructor|].
  cbn [map]. constructor; [|exact IH].
  intros Hi. apply in_map_iff in Hi. destruct Hi as (y & E & Hy).
  apply Hf in E. now subst y.
Qed.

(** X17. The chunks of a document have different identifiers.  Whatever
    the [book_id] and however many paragraphs there are (more than a
    million, too, where the number takes more than six digits), no two
    chunk documents of one call of [to_bulk_actions] have the same
    [chunk_id]. *)
Theorem chunk_ids_are_distinct (b : dict) (ib ic : string)
  (vs : list (json * list json)) :
  chapters_of (JDict b) = Ok vs ->
  let docs := chunk_docs (get_default "book_id" JNull b) vs 0 0 in
  ConvertJson.to_bulk_actions (JDict b) ib ic
  = Ok (book_pair ib b ++ flat_map (chunk_pair ic) docs)
  /\ NoDup (map chunk_id_of docs).
Proof.
  intros V docs. subst docs. split.
  - now rewrite to_bulk_actions_eq, V.
  - rewrite chunk_docs_ids. apply NoDup_map_injective; [|apply seq_NoDup].
    intros x y E. unfold chunk_id in E. injection E as E.
    apply append_cancel_l in E. cbn [append] in E. injection E as E.
    now apply format_06d_injective.
Qed.

End FormOfIdentifiers.

Lemma chunk_ids_are_distinct_witness :
  BulkView.chapters_of (JDict BulkView.sample_document)
  = Ok BulkView.sample_chapters
  /\ NoDup
       (map BulkView.chunk_id_of
          (BulkView.chunk_docs
             (BulkView.get_default "book_id" JNull BulkView.sample_document)
             BulkView.sample_chapters 0 0)).
Proof.
  split; [reflexivity|].
  exact (proj2 (chunk_ids_are_distinct BulkView.sample_document "books"
                  "book_content" BulkView.sample_chapters eq_refl)).
Defined.


(* ================================================================== *)
(** * The lines and the reports of the converter *)

Section LinesAndReports.

Import TextFile ConvertJson BulkView RequestsView.

Variables index_books index_content : string.

#[local] Abbreviation to_bulk_actions data :=
  (ConvertJson.to_bulk_actions data index_books index_content).
#[local] Abbreviation process_from :=
  (ConvertJson.process_from index_books index_content).
#[local] Abbreviation process_json_objects :=
  (ConvertJson.process_json_objects index_books index_content).
#[local] Abbreviation report := (RequestsView.report index_books index_content).
#[local] Abbreviation emitted := (BulkView.emitted index_books index_content).

(** X15. One line of text for each line returned.  Whatever the strings
    of the document hold (line feeds, carriage returns, quotes), no line
    [to_bulk_actions] returns holds a line break, and there are at least
    the two lines of the book; so the text written for them, read as a
    file, has exactly these lines, each followed by its line feed. *)
Theorem to_bulk_actions_lines_are_lines (data : json)
  (actions : list string) :
  to_bulk_actions data = Ok actions ->
  Forall (fun line => no_break line = true) actions
  /\ 2 <= length actions
  /\ readlines (ndjson_text actions)
     = map (fun line => (line ++ Re.newline_str)%string) actions.
Proof.
  intros E. apply to_bulk_actions_ok_inv in E.
  destruct E as (b & vs & -> & V & ->).
  assert (F : Forall (fun line => no_break line = true)
                     (document_lines index_books index_content b vs)).
  { unfold document_lines, book_pair. apply Forall_app. split.
    - repeat constructor; apply no_break_dumps.
    - apply Forall_forall. intros l Hl. apply in_flat_map in Hl.
      destruct Hl as (doc & _ & [<- | [<- | []]]); apply no_break_dumps. }
  split; [exact F|]. split.
  - unfold document_lines, book_pair. cbn [app length]. lia.
  - revert F. unfold document_lines, book_pair. cbn [app]. intros F.
    now apply readlines_ndjson_text.
Qed.

Lemma process_from_reports json_iter :
  forallb (fun nd => wf (snd nd)) json_iter = true ->
  forall st out,
    snd (process_from json_iter st out) = out ++ map report json_iter.
Proof.
  induction json_iter as [|[name data] it IH]; intros HW st out.
  - cbn. now rewrite List.app_nil_r.
  - cbn [forallb snd] in HW. apply andb_prop in HW.
    destruct HW as (Hd & HW).
    cbn [ConvertJson.process_from map].
    destruct (to_bulk_actions data) as [actions|e] eqn:E.
    + assert (R : report (name, data) = PrintOK name)
        by (unfold RequestsView.report; cbn [fst snd]; now rewrite E).
      destruct data; try discriminate.
      rewrite (route_to_bulk_actions index_books index_content d actions
                 st Hd E).
      rewrite IH by assumption. rewrite R.
      now rewrite <- List.app_assoc.
    + assert (R : report (name, data) = PrintERROR name e)
        by (unfold RequestsView.report; cbn [fst snd]; now rewrite E).
      rewrite IH by assumption. rewrite R.
      now rewrite <- List.app_assoc.
Qed.

(** X16. One report for each input.  For inputs that are JSON values,
    [process_json_objects] prints one line for each input, in the order
    of the inputs: [OK] when [to_bulk_actions] returns, [ERROR] with the
    exception when it raises, and no line of the input is then in
    either stream.  A value that is not an object is reported with an
    [AttributeError]. *)
Theorem process_json_objects_reports (json_iter : list (string * json)) :
  forallb (fun nd => wf (snd nd)) json_iter = true ->
  snd (process_json_objects json_iter) = map report json_iter
  /\ (forall nd e,
        In nd json_iter -> report nd = PrintERROR (fst nd) e ->
        emitted (snd nd) = ([], []))
  /\ (forall nd,
        In nd json_iter -> (forall d, snd nd <> JDict d) ->
        report nd = PrintERROR (fst nd) AttributeError).
Proof.
  intros HW. split; [|split].
  - unfold ConvertJson.process_json_objects.
    now rewrite process_from_reports.
  - intros nd e _ H. unfold RequestsView.report in H.
    unfold BulkView.emitted.
    destruct (to_bulk_actions (snd nd)); [discriminate|reflexivity].
  - intros nd _ H. unfold RequestsView.report.
    now rewrite to_bulk_actions_not_dict.
Qed.

End LinesAndReports.

Lemma to_bulk_actions_lines_are_lines_witness :
  ConvertJson.to_bulk_actions (JDict BulkView.sample_document) "books"
    "book_content"
  = Ok (BulkView.document_lines "books" "book_content"
          BulkView.sample_document BulkView.sample_chapters)
  /\ TextFile.readlines
       (TextFile.ndjson_text
          (BulkView.document_lines "books" "book_content"
             BulkView.sample_document BulkView.sample_chapters))
     = map (fun line => (line ++ Re.newline_str)%string)
           (BulkView.document_lines "books" "book_content"
              BulkView.sample_document BulkView.sample_chapters).
Proof.
  split; [reflexivity|].
  exact (proj2 (proj2 (to_bulk_actions_lines_are_lines "books"
                         "book_content" (JDict BulkView.sample_document)
                         (BulkView.document_lines "books" "book_content"
                            BulkView.sample_document
                            BulkView.sample_chapters)
                         eq_refl))).
Defined.

Lemma process_json_objects_reports_witness :
  forallb (fun nd => wf (snd nd)) RequestsView.sample_inputs = true
  /\ snd (ConvertJson.process_json_objects "books" "book_content"
            RequestsView.sample_inputs)
     = [ConvertJson.PrintOK "a.json";
        ConvertJson.PrintERROR "b.json" AttributeError].
Proof.
  split; [reflexivity|].
  exact (proj1 (process_json_objects_reports "books" "book_content"
                  RequestsView.sample_inputs eq_refl)).
Defined.


(* ================================================================== *)
(** * From the container to the vectors *)

Section FromContainerToVectors.

Import EpubToJson EpubView BulkView Escli RequestsView EmbedView.

Variable encode : string -> json.
Variable target_field : string.
Variable index_override : option string.

#[local] Abbreviation embed_pair :=
  (Escli.embed_pair encode "text" target_field index_override).
#[local] Abbreviation produced :=
  (EmbedView.produced encode "text" target_field index_override).

(** A chunk with a text that is not empty gets its two lines. *)
Lemma embed_pair_chunk ic bid ch ci pi seq p :
  nonempty p = true ->
  exists lines,
    embed_pair (ConvertJson.index_action (JStr ic) None)
               (ConvertJson.chunk_doc bid ch ci pi seq (JStr p))
    = Ok (Some lines).
Proof.
  intros Hp. unfold Escli.embed_pair, ConvertJson.index_action.
  assert (Hi : exists idx,
             index_of index_override
               (JDict [("index", JDict [("_index", JStr ic)])]) = Ok idx).
  { unfold index_of. destruct index_override as [o|]; [|now eexists].
    destruct (negb (is_empty o)); now eexists. }
  destruct Hi as (idx & ->). cbn [bind py_getitem dict_get String.eqb
    Ascii.eqb Bool.eqb py_contains dict_mem negb].
  unfold ConvertJson.chunk_doc.
  cbn [py_get dict_get String.eqb Ascii.eqb Bool.eqb bind truthy].
  unfold nonempty in Hp. rewrite Hp.
  cbn [negb encode_text bind py_setitem]. now eexists.
Qed.

Lemma paragraph_docs_embedded ic bid ch ci paras :
  Forall (fun p => nonempty p = true) paras ->
  forall pi seq,
    Forall (fun pr => exists lines,
                embed_pair (fst pr) (snd pr) = Ok (Some lines))
      (map (fun doc => (ConvertJson.index_action (JStr ic) None, doc))
           (paragraph_docs bid ch ci (map JStr paras) pi seq)).
Proof.
  induction 1 as [|p paras Hp _ IH]; intros pi seq; [constructor|].
  cbn [map paragraph_docs]. constructor; [|apply IH].
  cbn [fst snd]. now apply embed_pair_chunk.
Qed.

Lemma chunk_docs_embedded ic bid (chs : list (string * list string)) :
  Forall (fun ch => Forall (fun p => nonempty p = true) (snd ch)) chs ->
  forall ci seq,
    Forall (fun pr => exists lines,
                embed_pair (fst pr) (snd pr) = Ok (Some lines))
      (map (fun doc => (ConvertJson.index_action (JStr ic) None, doc))
           (chunk_docs bid (map chapter_seen chs) ci seq)).
Proof.
  induction 1 as [|ch chs Hch _ IH]; intros ci seq; [constructor|].
  cbn [map chapter_seen chunk_docs]. rewrite map_app.
  apply Forall_app. split; [now apply paragraph_docs_embedded|apply IH].
Qed.

Lemma produced_all pairs :
  Forall (fun pr => exists lines,
              embed_pair (fst pr) (snd pr) = Ok (Some lines)) pairs ->
  length (produced (yields pairs)) = 2 * length pairs.
Proof.
  induction 1 as [|[m s] pairs (lines & E) _ IH]; [reflexivity|].
  cbn [yields EmbedView.produced fst snd length] in *. rewrite E.
  rewrite List.length_app, IH.
  rewrite (embed_pair_two_lines encode "text" target_field index_override
             m s lines E).
  lia.
Qed.

Lemma paragraph_count_seen (chs : list (string * list string)) :
  paragraph_count (map chapter_seen chs)
  = list_sum (map (fun ch => length (snd ch)) chs).
Proof.
  unfold paragraph_count. rewrite map_map. f_equal.
  apply map_ext. intros ch. cbn [chapter_seen snd]. apply List.length_map.
Qed.

(** X11. Every paragraph gets a vector.  For the record of any container
    (with the link its caller adds), the content stream has one pair for
    each paragraph of each chapter stored, and the embedding run over
    the field [text] skips none of them: each pair adds its two lines,
    an index action and the chunk with its vector, since no paragraph
    stored is empty. *)
Theorem every_paragraph_is_embedded (stem link ic : string)
  (file : list Byte.byte) (b : book) :
  let pairs :=
    chunk_pairs_of ic (JDict (parsed_record stem link file b)) in
  length pairs
  = list_sum (map (fun ch => length (snd ch))
                  (chapters_of_items (get_items b)))
  /\ Forall (fun pr => exists lines,
                 embed_pair (fst pr) (snd pr) = Ok (Some lines)) pairs
  /\ length (produced (yields pairs)) = 2 * length pairs.
Proof.
  intros pairs.
  assert (E : pairs
              = map (fun doc =>
                       (ConvertJson.index_action (JStr ic) None, doc))
                  (chunk_docs
                     (get_default "book_id" JNull
                        (parsed_record stem link file b))
                     (map chapter_seen (chapters_of_items (get_items b)))
                     0 0)).
  { subst pairs. unfold chunk_pairs_of.
    now rewrite parsed_record_chapters. }
  assert (F : Forall (fun pr => exists lines,
                        embed_pair (fst pr) (snd pr) = Ok (Some lines))
                     pairs).
  { rewrite E. apply chunk_docs_embedded.
    eapply Forall_impl; [|apply chapters_of_items_hold_text].
    now intros ch (_ & Hch). }
  split; [|split; [exact F|now apply produced_all]].
  rewrite E, List.length_map, chunk_docs_length.
  apply paragraph_count_seen.
Qed.

End FromContainerToVectors.


(* ================================================================== *)
(** * Reading back the indented text of a record *)

Section IndentedText.

Import JsonView JsonIndent JsonIndentView.

Lemma follows_indented_ends_number rest :
  follows_indented rest = true -> ends_number rest = true.
Proof.
  destruct rest as [|c r]; [reflexivity|]. simpl.
  destruct c as [[] [] [] [] [] [] [] []]; simpl; try discriminate;
    reflexivity.
Qed.

Lemma skip_ws_spaces n x : skip_ws (spaces n ++ x) = skip_ws x.
Proof. induction n as [|n IH]; [reflexivity|exact IH]. Qed.

Lemma skip_ws_newline_indent level x :
  skip_ws (newline_indent level ++ x) = skip_ws x.
Proof. unfold newline_indent. cbn [append]. apply skip_ws_spaces. Qed.

Lemma dumps_indent_head ea level v :
  exists c r, dumps_indent ea level v = String c r /\ value_start c = true.
Proof.
  destruct v as [|b|z|x|s|l|d]; try apply (dumps_head ea).
  - destruct l; cbn; eexists; eexists; split; reflexivity.
  - destruct d; cbn; eexists; eexists; split; reflexivity.
Qed.

Lemma skip_ws_dumps_indent ea level v rest :
  skip_ws (dumps_indent ea level v ++ rest)
  = (dumps_indent ea level v ++ rest)%string.
Proof.
  destruct (dumps_indent_head ea level v) as (c & r & E & S).
  rewrite E. simpl. now destruct (value_start_facts c S) as (-> & _).
Qed.

Lemma first_is_dumps_indent ea level v rest c :
  c = "]"%char \/ c = "}"%char \/ c = ","%char ->
  first_is c (dumps_indent ea level v ++ rest) = false.
Proof.
  destruct (dumps_indent_head ea level v) as (c' & r & E & S).
  rewrite E. simpl.
  destruct (value_start_facts c' S) as (_ & A & B & C & _).
  intros [-> | [-> | ->]]; assumption.
Qed.

(** What follows the last item, and what follows another one. *)
Lemma after_last level close rest :
  is_json_ws close = false ->
  follows_indented (newline_indent level ++ String close rest) = true
  /\ skip_ws (newline_indent level ++ String close rest)
     = String close rest.
Proof.
  intros H. split; [reflexivity|].
  rewrite skip_ws_newline_indent. cbn [skip_ws]. now rewrite H.
Qed.

Lemma after_item level x :
  follows_indented (separator level ++ x) = true
  /\ skip_ws (separator level ++ x) = (separator level ++ x)%string
  /\ first_is "," (separator level ++ x) = true
  /\ skip_ws (drop 1 (separator level ++ x)) = skip_ws x.
Proof.
  unfold separator. cbn [append drop]. repeat split.
  apply skip_ws_newline_indent.
Qed.

Lemma parse_elems_indent ea v l :
  Forall (reads_back_indent ea) (v :: l) ->
  forallb wf (v :: l) = true ->
  forall level fuel rest,
    elems_size (v :: l) <= fuel ->
    parse_elems fuel
      (join (separator level) (map (dumps_indent ea level) (v :: l))
         ++ newline_indent (pred level) ++ String "]" rest)
    = Some (v :: l, rest).
Proof.
  revert v. induction l as [|v' l IH]; intros v HF HW level fuel rest Hfuel.
  - inversion_clear HF as [|? ? Hv _]. simpl in HW.
    rewrite andb_true_r in HW. unfold elems_size in Hfuel; simpl in Hfuel.
    destruct fuel as [|f]; [lia|].
    cbn [map join String.concat parse_elems].
    destruct (after_last (pred level) "]" rest eq_refl) as (A & B).
    rewrite (Hv HW level f _) by (assumption || lia).
    rewrite B. reflexivity.
  - inversion_clear HF as [|? ? Hv HF'].
    simpl in HW. apply andb_true_iff in HW as [HWv HW].
    unfold elems_size in Hfuel. simpl in Hfuel.
    destruct fuel as [|f]; [lia|].
    simpl map. rewrite join_cons, !append_assoc.
    cbn [parse_elems].
    match goal with
    | |- context [(separator level ++ ?x)%string] =>
        destruct (after_item level x) as (A & B & C & D)
    end.
    rewrite (Hv HWv level f _) by (assumption || lia).
    rewrite B, C, D.
    change (dumps_indent ea level v' :: map (dumps_indent ea level) l)
      with (map (dumps_indent ea level) (v' :: l)).
    destruct (join_map_head (dumps_indent ea level) (separator level) v' l)
      as (tail & E).
    rewrite E at 1. rewrite append_assoc, skip_ws_dumps_indent.
    rewrite <- append_assoc, <- E.
    rewrite IH; try assumption; try reflexivity.
    unfold elems_size; simpl; lia.
Qed.

Lemma parse_members_indent_step ea level f k v tail :
  reads_back_indent ea v -> wf v = true -> jsize v <= f ->
  follows_indented tail = true ->
  parse_members (S f) (member_indent ea level (k, v) ++ tail)
  = if first_is "," (skip_ws tail) then
      match parse_members f (skip_ws (drop 1 (skip_ws tail))) with
      | Some (l, rest) => Some ((k, v) :: l, rest)
      | None => None
      end
    else if first_is "}" (skip_ws tail)
         then Some ([(k, v)], drop 1 (skip_ws tail))
         else None.
Proof.
  intros Hv HW Hf Ht.
  unfold member_indent, dumps_str. simpl fst. simpl snd.
  rewrite !append_assoc.
  cbn [parse_members first_is append].
  change (Ascii.eqb dquote dquote) with true. cbv iota.
  change (drop 1 (String dquote ?x)) with x.
  rewrite !append_assoc. cbn [append]. rewrite parse_str_escape.
  match goal with
  | |- context [skip_ws (String ":" (String " " ?x))] =>
      destruct (after_colon x) as (A & B & C);
      cbn [append] in A, B, C; rewrite A, B, C
  end.
  rewrite skip_ws_dumps_indent, (Hv HW level f tail) by assumption.
  reflexivity.
Qed.

Lemma skip_ws_members_indent ea level kv d rest :
  skip_ws (join (separator level) (map (member_indent ea level) (kv :: d))
             ++ rest)
  = (join (separator level) (map (member_indent ea level) (kv :: d))
       ++ rest)%string.
Proof.
  destruct (join_map_head (member_indent ea level) (separator level) kv d)
    as (tail & ->).
  reflexivity.
Qed.

Lemma first_is_members_indent ea level kv d rest :
  first_is "}"
    (join (separator level) (map (member_indent ea level) (kv :: d))
       ++ rest) = false.
Proof.
  destruct (join_map_head (member_indent ea level) (separator level) kv d)
    as (tail & ->).
  reflexivity.
Qed.

Lemma skip_ws_elems_indent ea level v l rest :
  skip_ws (join (separator level) (map (dumps_indent ea level) (v :: l))
             ++ rest)
  = (join (separator level) (map (dumps_indent ea level) (v :: l))
       ++ rest)%string.
Proof.
  destruct (join_map_head (dumps_indent ea level) (separator level) v l)
    as (tail & ->).
  rewrite append_assoc. apply skip_ws_dumps_indent.
Qed.

Lemma first_is_elems_indent ea level v l rest :
  first_is "]"
    (join (separator level) (map (dumps_indent ea level) (v :: l))
       ++ rest) = false.
Proof.
  destruct (join_map_head (dumps_indent ea level) (separator level) v l)
    as (tail & ->).
  rewrite append_assoc. apply first_is_dumps_indent. auto.
Qed.

Lemma parse_members_indent ea kv d :
  Forall (fun kv => reads_back_indent ea (snd kv)) (kv :: d) ->
  forallb (fun kv => wf (snd kv)) (kv :: d) = true ->
  forall level fuel rest,
    members_size (kv :: d) <= fuel ->
    parse_members fuel
      (join (separator level) (map (member_indent ea level) (kv :: d))
         ++ newline_indent (pred level) ++ String "}" rest)
    = Some (kv :: d, rest).
Proof.
  revert kv. induction d as [|kv' d IH];
    intros [k v] HF HW level fuel rest Hfuel.
  - inversion_clear HF as [|? ? Hv _]. simpl in HW, Hv.
    rewrite andb_true_r in HW. unfold members_size in Hfuel;
      simpl in Hfuel.
    destruct fuel as [|f]; [lia|].
    cbn [map join String.concat].
    destruct (after_last (pred level) "}" rest eq_refl) as (A & B).
    rewrite parse_members_indent_step by (assumption || lia).
    rewrite B. reflexivity.
  - inversion_clear HF as [|? ? Hv HF']. simpl in Hv.
    simpl in HW. apply andb_true_iff in HW as [HWv HW].
    unfold members_size in Hfuel. simpl in Hfuel.
    destruct fuel as [|f]; [lia|].
    simpl map. rewrite join_cons, !append_assoc.
    match goal with
    | |- context [(separator level ++ ?x)%string] =>
        destruct (after_item level x) as (A & B & C & D)
    end.
    rewrite parse_members_indent_step by (assumption || lia).
    rewrite B, C, D.
    change (member_indent ea level kv' :: map (member_indent ea level) d)
      with (map (member_indent ea level) (kv' :: d)).
    rewrite skip_ws_members_indent.
    rewrite IH; try assumption; try reflexivity.
    unfold members_size; simpl; lia.
Qed.

Theorem parse_value_dumps_indent ea v : reads_back_indent ea v.
Proof.
  induction v using json_induction; intros HW level fuel rest Hfuel Hrest;
    (destruct fuel as [|f]; [simpl in Hfuel; lia|]).
  - reflexivity.
  - destruct b; reflexivity.
  - destruct (str_of_Z_head z) as (c & r & E & D).
    cbn [dumps_indent dumps].
    pose proof (parse_literal_str_of_Z z rest
                  (follows_indented_ends_number rest Hrest)) as PI.
    rewrite E in *. cbn [append] in *.
    now rewrite parse_value_literal.
  - destruct (dumps_float_head x) as (c & r & E & D).
    cbn [dumps_indent dumps wf] in *.
    pose proof (parse_literal_float x rest HW
                  (follows_indented_ends_number rest Hrest)) as PF.
    rewrite E in *. cbn [append] in *.
    now rewrite parse_value_literal.
  - cbn [dumps_indent dumps]. unfold dumps_str.
    cbn [parse_value first_is append].
    change (Ascii.eqb dquote dquote) with true. cbv iota.
    change (drop 1 (String dquote ?x)) with x.
    rewrite append_assoc. cbn [append].
    now rewrite parse_str_escape.
  - destruct l as [|v l]; [reflexivity|].
    simpl in HW, Hfuel.
    cbn [dumps_indent].
    cbn [parse_value first_is append].
    change (Ascii.eqb dquote "[") with false.
    change (Ascii.eqb "{" "[") with false.
    change (Ascii.eqb "[" "[") with true. cbv iota.
    change (drop 1 (String "[" ?x)) with x.
    rewrite !append_assoc. rewrite skip_ws_newline_indent.
    rewrite skip_ws_elems_indent, first_is_elems_indent.
    change (String "]" EmptyString ++ rest)%string with (String "]" rest).
    change level with (pred (S level)) at 3.
    rewrite parse_elems_indent;
      try assumption; try reflexivity.
    unfold elems_size. simpl. lia.
  - destruct d as [|kv d]; [reflexivity|].
    simpl in Hfuel. cbn [wf] in HW. apply andb_true_iff in HW as [HD HW].
    cbn [dumps_indent].
    cbn [parse_value first_is append].
    change (Ascii.eqb dquote "{") with false.
    change (Ascii.eqb "{" "{") with true. cbv iota.
    change (drop 1 (String "{" ?x)) with x.
    rewrite !append_assoc. rewrite skip_ws_newline_indent.
    change (map _ (kv :: d))
      with (map (member_indent ea (S level)) (kv :: d)).
    rewrite skip_ws_members_indent, first_is_members_indent.
    change (String "}" EmptyString ++ rest)%string with (String "}" rest).
    change level with (pred (S level)) at 3.
    rewrite parse_members_indent;
      try assumption; try reflexivity.
    + now rewrite dict_of_pairs_distinct.
    + unfold members_size. simpl. lia.
Qed.

Lemma length_spaces n : String.length (spaces n) = n.
Proof. induction n as [|n IH]; [reflexivity|]. cbn. now rewrite IH. Qed.

Lemma join_length_bound_sep {A} sep (f : A -> string) (g : A -> nat)
  (l : list A) :
  1 <= String.length sep ->
  Forall (fun x => g x <= String.length (f x) + 1) l ->
  list_sum (map g l) <= String.length (join sep (map f l)) + 1.
Proof.
  intros Hsep. induction 1 as [|x l Hx Hl IH]; [cbn; lia|].
  destruct l as [|y l].
  - unfold join. cbn [map String.concat list_sum fold_right]. lia.
  - cbn [map] in *. rewrite join_cons, !length_append.
    cbn [list_sum fold_right] in *. lia.
Qed.

Lemma separator_length level : 1 <= String.length (separator level).
Proof. unfold separator. cbn [String.length]. lia. Qed.

Lemma jsize_length_indent ea v :
  forall level, jsize v <= String.length (dumps_indent ea level v).
Proof.
  induction v using json_induction; intros level;
    try apply (jsize_length ea).
  - destruct l as [|v l]; [cbn; lia|].
    cbn [jsize dumps_indent]. fold (elems_size (v :: l)).
    assert (B : elems_size (v :: l)
                <= String.length
                     (join (separator (S level))
                        (map (dumps_indent ea (S level)) (v :: l))) + 1).
    { apply join_length_bound_sep; [apply separator_length|].
      eapply Forall_impl; [|exact H]. intros x Hx. cbv beta.
      specialize (Hx (S level)). lia. }
    rewrite !length_append. cbn [String.length append]. lia.
  - destruct d as [|kv d]; [cbn; lia|].
    cbn [jsize dumps_indent]. fold (members_size (kv :: d)).
    assert (B : members_size (kv :: d)
                <= String.length
                     (join (separator (S level))
                        (map (member_indent ea (S level)) (kv :: d))) + 1).
    { apply join_length_bound_sep; [apply separator_length|].
      eapply Forall_impl; [|exact H]. intros x Hx. cbv beta.
      specialize (Hx (S level)). unfold member_indent.
      rewrite !length_append. cbn [String.length]. lia. }
    change (map _ (kv :: d))
      with (map (member_indent ea (S level)) (kv :: d)).
    rewrite !length_append. cbn [String.length append]. lia.
Qed.

(** [json.loads] reads the indented text of a value back as the
    value. *)
Lemma loads_dumps_indent ea v :
  wf v = true -> loads (dumps_indent ea 0 v) = Ok v.
Proof.
  intros HW. unfold loads.
  rewrite <- (append_empty_r (dumps_indent ea 0 v)) at 2.
  rewrite skip_ws_dumps_indent.
  rewrite (parse_value_dumps_indent ea v HW); [reflexivity| |reflexivity].
  apply jsize_length_indent.
Qed.

End IndentedText.


(* ================================================================== *)
(** * The record is a JSON value *)

Section RecordIsJson.

Import EpubToJson EpubView.

Lemma keys_dict_set x k v d :
  existsb (String.eqb x) (map fst (dict_set k v d))
  = existsb (String.eqb x) (map fst d) || String.eqb x k.
Proof.
  induction d as [|[k1 v1] d IH]; cbn [dict_set map fst existsb].
  - now rewrite orb_false_r.
  - destruct (String.eqb k k1) eqn:E; cbn [map fst existsb].
    + apply String.eqb_eq in E. subst k1.
      destruct (String.eqb x k); cbn; now rewrite ?orb_true_r, ?orb_false_r.
    + rewrite IH. now rewrite orb_assoc.
Qed.

Lemma distinct_dict_set k v d :
  distinct (map fst d) = true -> distinct (map fst (dict_set k v d)) = true.
Proof.
  induction d as [|[k1 v1] d IH]; cbn [dict_set map fst distinct];
    [reflexivity|].
  intros H. apply andb_prop in H. destruct H as (H1 & H2).
  destruct (String.eqb k k1) eqn:E; cbn [map fst distinct].
  - now rewrite H1, H2.
  - rewrite keys_dict_set, IH by assumption.
    apply negb_true_iff in H1. rewrite H1, String.eqb_sym, E. reflexivity.
Qed.

Lemma wf_dict_set k v d :
  wf (JDict d) = true -> wf v = true -> wf (JDict (dict_set k v d)) = true.
Proof.
  cbn [wf]. intros H Hv. apply andb_prop in H. destruct H as (H1 & H2).
  rewrite distinct_dict_set by assumption. cbn [andb].
  clear H1. induction d as [|[k1 v1] d IH]; cbn [dict_set forallb snd].
  - now rewrite Hv.
  - cbn [forallb snd] in H2. apply andb_prop in H2.
    destruct H2 as (Hv1 & Hd).
    destruct (String.eqb k k1); cbn [forallb snd].
    + now rewrite Hv, Hd.
    + now rewrite Hv1, IH.
Qed.

Lemma wf_dict_setdefault k v d :
  wf (JDict d) = true -> wf v = true ->
  wf (JDict (dict_setdefault k v d)) = true.
Proof.
  intros H Hv. unfold dict_setdefault.
  destruct (dict_mem k d); [exact H|now apply wf_dict_set].
Qed.

Lemma keys_dict_del x k d :
  existsb (String.eqb x) (map fst (dict_del k d)) = true ->
  existsb (String.eqb x) (map fst d) = true.
Proof.
  induction d as [|[k1 v1] d IH]; cbn [dict_del map fst existsb]; [auto|].
  destruct (String.eqb k k1); cbn [map fst existsb]; intros H.
  - now rewrite H, orb_true_r.
  - apply orb_prop in H. destruct H as [->|H]; [reflexivity|].
    now rewrite IH, orb_true_r.
Qed.

Lemma wf_dict_del k d :
  wf (JDict d) = true -> wf (JDict (dict_del k d)) = true.
Proof.
  cbn [wf]. induction d as [|[k1 v1] d IH]; [reflexivity|].
  cbn [dict_del map fst snd distinct forallb]. intros H.
  apply andb_prop in H. destruct H as (H1 & H2).
  apply andb_prop in H1. destruct H1 as (N & D).
  apply andb_prop in H2. destruct H2 as (Hv & Hd).
  destruct (String.eqb k k1); cbn [map fst snd distinct forallb].
  - now rewrite D, Hd.
  - specialize (IH (proj2 (andb_true_iff _ _) (conj D Hd))).
    apply andb_prop in IH. destruct IH as (I1 & I2).
    rewrite I1, I2, Hv, !andb_true_r.
    apply negb_true_iff. apply negb_true_iff in N.
    destruct (existsb (String.eqb k1) (map fst (dict_del k d))) eqn:E;
      [|reflexivity].
    apply keys_dict_del in E. congruence.
Qed.

Lemma wf_strings (l : list string) : wf (JList (map JStr l)) = true.
Proof. cbn [wf]. now induction l. Qed.

Lemma wf_set_meta b d m :
  wf (JDict d) = true -> wf (JDict (set_meta b d m)) = true.
Proof.
  intros H. destruct m as [[ns k] field]. unfold set_meta.
  destruct (String.eqb field "authors");
    [apply wf_dict_set; [exact H|apply wf_strings]|].
  destruct (String.eqb field "genres"); [now apply wf_dict_set|].
  destruct (_meta_values b ns k); [exact H|now apply wf_dict_set].
Qed.

Lemma wf_fold {A} (f : dict -> A -> dict) (l : list A) :
  (forall d a, wf (JDict d) = true -> wf (JDict (f d a)) = true) ->
  forall d, wf (JDict d) = true -> wf (JDict (fold_left f l d)) = true.
Proof.
  intros Hf. induction l as [|a l IH]; intros d H; [exact H|].
  cbn [fold_left]. now apply IH, Hf.
Qed.

Lemma wf_add_item d it :
  wf (JDict d) = true -> wf (JDict (add_item d it)) = true.
Proof.
  intros H. unfold add_item.
  destruct (get_type it =? ITEM_DOCUMENT)%N; [|exact H].
  destruct (extract_texts_from_item it) as [chapter texts].
  destruct texts as [|t texts]; [exact H|].
  unfold append_chapter. apply wf_dict_set; [exact H|].
  assert (W : forallb wf (get_list "chapters" d) = true).
  { unfold get_list. destruct (dict_get "chapters" d) as [v|] eqn:E;
      [|reflexivity].
    pose proof (wf_dict_get _ _ _ H E) as Wv.
    now destruct v. }
  pose proof (wf_strings (t :: texts)) as Ws.
  change (wf (JList (get_list "chapters" d
                       ++ [JDict [("chapter", JStr chapter);
                                  ("paragraphs",
                                   JList (map JStr (t :: texts)))]])))
    with (forallb wf
            (get_list "chapters" d
               ++ [JDict [("chapter", JStr chapter);
                          ("paragraphs", JList (map JStr (t :: texts)))]])).
  rewrite forallb_app, W.
  change (forallb wf [JDict [("chapter", JStr chapter);
                             ("paragraphs", JList (map JStr (t :: texts)))]])
    with (true && (wf (JList (map JStr (t :: texts))) && true) && true).
  now rewrite Ws.
Qed.

(** The record [read_epub] returns can be written as JSON: its keys are
    distinct, and so are those of its chapters. *)
Lemma wf_read_epub stem file b : wf (JDict (read_epub stem file b)) = true.
Proof.
  unfold read_epub. cbv zeta.
  assert (P : forall (f : dict -> dict) d,
             (forall d, wf (JDict d) = true -> wf (JDict (f d)) = true) ->
             wf (JDict d) = true -> wf (JDict (f d)) = true)
    by (intros f d Hf; apply Hf).
  apply (P publisher_from_mark).
  { intros d H. unfold publisher_from_mark.
    destruct (falsy _ _ && _); [|exact H].
    destruct (contains _ _); [now apply wf_dict_set|exact H]. }
  apply (P (author_from_stem stem)).
  { intros d H. unfold author_from_stem.
    destruct (falsy _ _); [|exact H].
    destruct (nonempty _ && _); [now apply wf_dict_set|exact H]. }
  apply (P publisher_from_text).
  { intros d H. unfold publisher_from_text.
    destruct (falsy _ _ && _); [|exact H].
    destruct (Re.search_group1 _ _); [now apply wf_dict_set|exact H]. }
  apply (P author_from_text).
  { intros d H. unfold author_from_text.
    destruct (falsy _ _ && _); [|exact H].
    destruct (Re.search_group1 _ _); [now apply wf_dict_set|exact H]. }
  apply (P set_description).
  { intros d H. unfold set_description.
    destruct (falsy _ _); [|exact H].
    destruct (nonempty _); [now apply wf_dict_set|exact H]. }
  apply wf_fold; [intros; now apply wf_add_item|].
  apply (P drop_authors).
  { intros d H. unfold drop_authors.
    destruct (dict_mem _ _); [now apply wf_dict_del|exact H]. }
  apply (P (set_title stem b)).
  { intros d H. unfold set_title.
    destruct (falsy _ _); [|exact H].
    destruct (_meta_values _ _ _); now apply wf_dict_set. }
  apply (P set_defaults).
  { intros d H. unfold set_defaults. cbv zeta.
    repeat apply wf_dict_setdefault; auto. }
  apply (P (set_identity b file)).
  { intros d H. unfold set_identity. cbv zeta.
    repeat apply wf_dict_set; auto. }
  apply (P join_authors).
  { intros d H. unfold join_authors.
    destruct (dict_get "authors" d) as [[]|];
      try (now apply wf_dict_setdefault); now apply wf_dict_set. }
  apply wf_fold; [intros; now apply wf_set_meta|].
  reflexivity.
Qed.

End RecordIsJson.


(* ================================================================== *)
(** * From the extractor to the converter *)

Section ExtractorToConverter.

Import EpubToJson EpubView JsonIndent EpubMain MainView.

Lemma wf_record_of ep b : wf (JDict (record_of ep b)) = true.
Proof.
  unfold record_of. cbv zeta. apply wf_dict_set; [|reflexivity].
  apply wf_read_epub.
Qed.

Lemma write_file_forall (P : string * string -> Prop) name text folder :
  P (name, text) -> Forall P folder ->
  Forall P (write_file name text folder).
Proof.
  intros Hn. induction 1 as [|[n t] folder Hp Hf IH]; cbn [write_file].
  - now repeat constructor.
  - destruct (String.eqb n name) eqn:E.
    + apply String.eqb_eq in E. subst n. now constructor.
    + now constructor.
Qed.

Lemma main_loop_forall (P : string * string -> Prop) inputs :
  (forall ep b,
      In ep inputs -> container ep = Ok b ->
      P ((stem ep ++ ".json")%string,
         dumps_indent false 0 (JDict (record_of ep b)))) ->
  forall folder out,
    Forall P folder -> Forall P (fst (main_loop inputs folder out)).
Proof.
  induction inputs as [|ep rest IH]; intros HP folder out Hf; [exact Hf|].
  cbn [main_loop]. destruct (container ep) as [b|e] eqn:E.
  - apply IH; [intros; apply HP; auto; now right|].
    apply write_file_forall; [|exact Hf]. apply HP; [now left|exact E].
  - apply IH; [intros; apply HP; auto; now right|exact Hf].
Qed.

(** X25. What the extractor writes, the converter reads.  Every file the
    local mode of the extractor leaves in an empty output folder is the
    record of one of its inputs, named after the stem of that input, and
    [json.loads] reads its indented text back as that very record: the
    keys of the record are distinct, and so are those of its chapters.
    So the local mode of the converter, run on that folder, never stops
    on a file that is not JSON. *)
Theorem converter_reads_what_the_extractor_writes
  (inputs : list epub_file) (index_books index_content : string) :
  let folder := fst (EpubMain.main_local inputs []) in
  Forall (fun file =>
            exists ep b,
              In ep inputs /\ container ep = Ok b
              /\ fst file = (stem ep ++ ".json")%string
              /\ ConvertMain.load
                   (ConvertMain.Source (fst file) (Ok (snd file)))
                 = Ok (JDict (record_of ep b))) folder
  /\ is_ok (ConvertMain.main_local index_books index_content
              (map (fun file => ConvertMain.Source (fst file)
                                  (Ok (snd file))) folder))
     = true.
Proof.
  intros folder.
  assert (F : Forall (fun file =>
            exists ep b,
              In ep inputs /\ container ep = Ok b
              /\ fst file = (stem ep ++ ".json")%string
              /\ ConvertMain.load
                   (ConvertMain.Source (fst file) (Ok (snd file)))
                 = Ok (JDict (record_of ep b))) folder).
  { subst folder. unfold EpubMain.main_local.
    apply main_loop_forall; [|constructor].
    intros ep b Hin Hc. exists ep, b. cbn [fst snd].
    repeat split; try assumption.
    unfold ConvertMain.load. cbn [ConvertMain.text bind].
    apply loads_dumps_indent, wf_record_of. }
  split; [exact F|].
  rewrite main_local_is_ok. rewrite forallb_forall.
  intros f Hf. apply in_map_iff in Hf. destruct Hf as (file & <- & Hfile).
  rewrite Forall_forall in F.
  destruct (F file Hfile) as (ep & b & _ & _ & _ & ->). reflexivity.
Qed.

(** *** Two inputs with one stem *)

Lemma read_write_file name name' text folder :
  read_file name (write_file name' text folder)
  = if String.eqb name' name then Some text else read_file name folder.
Proof.
  induction folder as [|[n t] folder IH]; cbn [write_file read_file].
  - reflexivity.
  - destruct (String.eqb n name') eqn:E; cbn [read_file].
    + apply String.eqb_eq in E. subst n.
      now destruct (String.eqb name' name).
    + rewrite IH. destruct (String.eqb n name) eqn:E2; [|reflexivity].
      apply String.eqb_eq in E2. subst n. now rewrite String.eqb_sym, E.
Qed.

Lemma append_length_cancel (a s : string) :
  (a ++ s)%string = s -> a = EmptyString.
Proof.
  intros H. apply (f_equal String.length) in H.
  rewrite length_append in H. destruct a; [reflexivity|cbn in H; lia].
Qed.

Lemma append_cancel_r (a : string) :
  forall b s, (a ++ s)%string = (b ++ s)%string -> a = b.
Proof.
  induction a as [|x a IH]; intros b s H.
  - symmetry. cbn [append] in H. symmetry in H.
    now apply append_length_cancel in H.
  - destruct b as [|y b].
    + cbn [append] in H. change (String x (a ++ s))
        with ((String x a) ++ s)%string in H.
      now apply append_length_cancel in H.
    + cbn [append] in H. injection H as -> H. f_equal. eapply IH; eauto.
Qed.

Lemma main_loop_keeps name post :
  Forall (fun e => stem e <> name \/ is_ok (container e) = false) post ->
  forall folder out,
    read_file (name ++ ".json") (fst (main_loop post folder out))
    = read_file (name ++ ".json") folder.
Proof.
  induction 1 as [|e post He _ IH]; intros folder out; [reflexivity|].
  cbn [main_loop]. destruct (container e) as [b|x] eqn:E.
  - rewrite IH, read_write_file.
    destruct (String.eqb (stem e ++ ".json") (name ++ ".json")) eqn:S;
      [|reflexivity].
    apply String.eqb_eq, append_cancel_r in S.
    destruct He as [He|He]; [contradiction|discriminate].
  - apply IH.
Qed.

Lemma main_loop_app pre : 
  forall post folder out,
    main_loop (pre ++ post) folder out
    = main_loop post (fst (main_loop pre folder out))
        (snd (main_loop pre folder out)).
Proof.
  induction pre as [|e pre IH]; intros post folder out; [reflexivity|].
  cbn [app main_loop]. destruct (container e); apply IH.
Qed.

(** X26. One file for each stem.  The output file is named after the stem
    of the input alone, so inputs of different folders that have the
    same stem share one file: after the run, the file of a stem holds
    the record of the last input of that stem whose container could be
    opened, whatever came before it, and the earlier records are
    gone. *)
Theorem last_input_of_a_stem_is_kept (pre post : list epub_file)
  (ep : epub_file) (b : book) (folder : list (string * string)) :
  container ep = Ok b ->
  Forall (fun e => stem e <> stem ep \/ is_ok (container e) = false) post ->
  read_file (stem ep ++ ".json")
    (fst (EpubMain.main_local (pre ++ ep :: post) folder))
  = Some (dumps_indent false 0 (JDict (record_of ep b))).
Proof.
  intros Hc Hpost. unfold EpubMain.main_local.
  rewrite main_loop_app. cbn [main_loop]. rewrite Hc.
  rewrite main_loop_keeps by assumption.
  now rewrite read_write_file, String.eqb_refl.
Qed.

End ExtractorToConverter.

Lemma last_input_of_a_stem_is_kept_witness :
  EpubMain.container EpubMainView.second_novel = Ok EpubView.novel
  /\ EpubMain.read_file "novel.json"
       (fst (EpubMain.main_local
               [EpubMainView.first_novel; EpubMainView.second_novel] []))
     = Some (JsonIndent.dumps_indent false 0
               (JDict (EpubMain.record_of EpubMainView.second_novel
                         EpubView.novel))).
Proof.
  split; [reflexivity|].
  exact (last_input_of_a_stem_is_kept [EpubMainView.first_novel] []
           EpubMainView.second_novel EpubView.novel [] eq_refl
           (Forall_nil _)).
Defined.


(* ================================================================== *)
(** * Sending a stream the converter wrote *)

Section SendingAStream.

Import TextFile EscliRequests RequestsView.

Variable server : list string -> string -> response.
Variable chunk_bytes : nat.

Lemma join_lines (l : string) (lines : list string) :
  join EmptyString
    (map (fun s => (s ++ Re.newline_str)%string) (l :: lines))
  = ndjson_text (l :: lines).
Proof.
  revert l. induction lines as [|l2 lines IH]; intros l.
  - unfold ndjson_text, join. cbn [map String.concat]. reflexivity.
  - change (map ?f (l :: l2 :: lines)) with (f l :: map f (l2 :: lines)).
    unfold join in *. rewrite concat_empty_cons, IH.
    unfold ndjson_text. rewrite join_cons. unfold join.
    now rewrite !append_assoc.
Qed.

Lemma pair_lines_not_blank pairs :
  forallb bulk_pair pairs = true ->
  Forall (fun l => is_empty (strip l) = false)
         (map (fun s => (s ++ Re.newline_str)%string)
              (flat_map pair_lines pairs)).
Proof.
  induction pairs as [|[m s] pairs IH]; intros H; [constructor|].
  cbn [forallb] in H. apply andb_prop in H. destruct H as (Hp & Hr).
  unfold bulk_pair in Hp. cbn [fst snd] in Hp.
  destruct m as [| | | | | |m]; try discriminate.
  destruct s as [| | | | | |s]; try discriminate.
  cbn [flat_map pair_lines fst snd app map].
  constructor; [|constructor; [|now apply IH]].
  - rewrite strip_object_line.
    now destruct (dumps_head true (JDict m)) as (c & r & -> & _).
  - rewrite strip_object_line.
    now destruct (dumps_head false (JDict s)) as (c & r & -> & _).
Qed.

Lemma pair_lines_length pairs :
  length (flat_map pair_lines pairs) = 2 * length pairs.
Proof.
  induction pairs as [|p pairs IH]; [reflexivity|].
  cbn [flat_map pair_lines app length]. rewrite IH. lia.
Qed.

(** X4. A small stream goes in one request.  For pairs of the bulk
    format written as the converter writes them, when the text has
    fewer bytes than [chunk_bytes] and the search engine accepts it,
    [bulk_file] sends one request, whose body is the text of the file
    as it is, and counts one document for each pair. *)
Theorem bulk_file_sends_a_small_stream_whole
  (p : json * json) (pairs : list (json * json)) :
  let text := ndjson_text (flat_map pair_lines (p :: pairs)) in
  forallb bulk_pair (p :: pairs) = true ->
  byte_length text < chunk_bytes ->
  _bulk_post (server [] text) = Ok tt ->
  bulk_file server chunk_bytes text
  = BulkRun [] 0 (length (p :: pairs)) [text] None.
Proof.
  intros text Hp Hlt Hok. subst text. unfold bulk_file.
  assert (N : Forall (fun l => no_break l = true)
                     (flat_map pair_lines (p :: pairs))).
  { apply Forall_forall. intros l Hl. apply in_flat_map in Hl.
    destruct Hl as (q & _ & [<- | [<- | []]]); apply no_break_dumps. }
  revert N Hlt Hok.
  pose proof (pair_lines_not_blank (p :: pairs) Hp) as B.
  pose proof (pair_lines_length (p :: pairs)) as L.
  revert B L.
  change (flat_map pair_lines (p :: pairs))
    with (dumps true (fst p)
            :: (dumps false (snd p) :: flat_map pair_lines pairs)).
  set (l0 := dumps true (fst p)).
  set (ls := dumps false (snd p) :: flat_map pair_lines pairs).
  intros B L N Hlt Hok.
  rewrite (readlines_ndjson_text l0 ls N).
  rewrite <- (List.app_nil_r (map _ (l0 :: ls))).
  rewrite (bulk_loop_below server chunk_bytes _ (BulkRun [] 0 0 [] None) []);
    try assumption; try reflexivity;
    cbn [buf app]; rewrite ?join_lines; try assumption.
  cbn [bulk_loop buf map]. unfold post_buf.
  cbn [buf requests sent size app].
  change (?a :: map ?f ls) with (map f (l0 :: ls)) at 1.
  rewrite join_lines, Hok. cbn [app]. f_equal.
  - change (?a :: map ?f ls) with (map f (l0 :: ls)).
    rewrite List.length_map, L, Nat.mul_comm, Nat.div_mul by discriminate.
    reflexivity.
  - change (?a :: map ?f ls) with (map f (l0 :: ls)).
    now rewrite join_lines.
Qed.

End SendingAStream.

Lemma bulk_file_sends_a_small_stream_whole_witness :
  forallb RequestsView.bulk_pair RequestsView.sample_pairs = true
  /\ EscliRequests.bulk_file RequestsView.obliging 1000
       (TextFile.ndjson_text
          (flat_map RequestsView.pair_lines RequestsView.sample_pairs))
     = EscliRequests.BulkRun [] 0 2
         [TextFile.ndjson_text
            (flat_map RequestsView.pair_lines RequestsView.sample_pairs)]
         None.
Proof.
  split; [reflexivity|].
  refine (bulk_file_sends_a_small_stream_whole RequestsView.obliging 1000
            (JDict EscliView.book_meta, JDict EscliView.book_summary)
            [(JDict EscliView.chunk_meta, JDict EscliView.filled_chunk)]
            eq_refl _ eq_refl).
  vm_compute. lia.
Defined.


(* ================================================================== *)
(** * The model at work *)

Section Examples.

Import Bs4 EpubToJson EpubView ConvertJson BulkView Samples.

(** The test vectors of SHA-1. *)
Example sha1_of_nothing :
  Sha1.hexdigest [] = "da39a3ee5e6b4b0d3255bfef95601890afd80709".
Proof. vm_compute. reflexivity. Qed.

Example sha1_of_abc :
  Sha1.hexdigest (Sha1.utf8 "abc")
  = "a9993e364706816aba3e25717850c26c9cd0d89d".
Proof. vm_compute. reflexivity. Qed.

Example sha1_of_two_blocks :
  Sha1.hexdigest
    (Sha1.utf8 "abcdbcdecdefdefgefghfghighijhijkijkljklmklmnlmnomnopnopq")
  = "84983e441c3bd26ebaae4aa1f95129e5e54670f1".
Proof. vm_compute. reflexivity. Qed.

Example strip_both_ends : strip "  by Jane  " = "by Jane".
Proof. reflexivity. Qed.

Example title_case : title "jane o'neil" = "Jane O'Neil".
Proof. reflexivity. Qed.

(** Title case beyond the letters of English: the characters are those
    of code points 233 and 201, 223, 255. *)
Example title_case_of_an_accented_letter :
  title (String "233" "lan vital") = String "201" "lan Vital".
Proof. reflexivity. Qed.

Example title_case_of_a_sharp_s : title (String "223" "en") = "Ssen".
Proof. reflexivity. Qed.

Example title_case_leaving_the_range :
  title_closed (String "255" "ves") = false.
Proof. reflexivity. Qed.

Example accented_letter_is_a_word_character :
  Re.is_word "233" = true /\ Re.is_word "215" = false.
Proof. split; reflexivity. Qed.

Example author_of_a_file_name :
  author_of_stem "jane-doe_some-book" = "Jane Doe".
Proof. reflexivity. Qed.

Example author_of_an_accented_file_name :
  author_of_stem (String "233" "lan-vital_x") = String "201" "lan Vital".
Proof. reflexivity. Qed.

Example no_author_of_a_long_name :
  author_of_stem "the-life-and-times-of-nobody" = EmptyString.
Proof. reflexivity. Qed.

Example padded : format_06d 12 = "000012".
Proof. reflexivity. Qed.

Example str_of_none : py_str JNull = "None".
Proof. reflexivity. Qed.

(** Numbers of JSON texts, read and printed again. *)
Example numbers_read_and_printed :
  map (fun s => bind (loads s) (fun v => Ok (dumps true v)))
    ["0.1"; "4.50"; "1e16"; "1E+2"; "-0.0"; "5e-324"; "1e400";
     "0.30000000000000004"; "123456789012345678901"; "1.5e-7";
     "NaN"; "-Infinity"; "9007199254740993.0"; "2.5E-5"; "01"; "1."; ".5"]
  = [Ok "0.1"; Ok "4.5"; Ok "1e+16"; Ok "100.0"; Ok "-0.0"; Ok "5e-324";
     Ok "Infinity"; Ok "0.30000000000000004"; Ok "123456789012345678901";
     Ok "1.5e-07"; Ok "NaN"; Ok "-Infinity"; Ok "9007199254740992.0";
     Ok "2.5e-05"; Raise JSONDecodeError; Raise JSONDecodeError;
     Raise JSONDecodeError].
Proof. vm_compute. reflexivity. Qed.

Example float_is_no_integer :
  loads "1.0" = Ok (JFloat (Float.of_decimal false 10 (-1)))
  /\ loads "1" = Ok (JInt 1)
  /\ truthy (JFloat (Float.of_decimal false 0 0)) = false.
Proof. vm_compute. repeat split. Qed.

(** An action line, character by character. *)
Example book_action_line :
  dumps true (index_action (JStr "books") (Some (JStr "8f7785b93990c569")))
  = ("{" ++ quoted "index" ++ ": {" ++ quoted "_index" ++ ": "
         ++ quoted "books" ++ ", " ++ quoted "_id" ++ ": "
         ++ quoted "8f7785b93990c569" ++ "}}")%string.
Proof. reflexivity. Qed.

Example chunk_action_line :
  dumps true (index_action (JStr "book_content") None)
  = ("{" ++ quoted "index" ++ ": {" ++ quoted "_index" ++ ": "
         ++ quoted "book_content" ++ "}}")%string.
Proof. reflexivity. Qed.

(** The end-to-end scenario of the specification. *)
Example scenario_record :
  read_epub "some-file" [] scenario
  = [("book_id", JStr "8f7785b93990c569");
     ("chapters",
      JList [JDict [("chapter", JStr "Chapter 1");
                    ("paragraphs",
                     JList [JStr "First."; JStr "Second.";
                            JStr "Third."])]]);
     ("title", JStr "T");
     ("genres", JStr EmptyString);
     ("author", JStr "A");
     ("source_uid", JStr "urn:uuid:abc");
     ("publisher", JStr EmptyString);
     ("linkToBook", JStr EmptyString);
     ("description",
      JStr ("First." ++ two_newlines ++ "Second." ++ two_newlines
              ++ "Third."))].
Proof. vm_compute. reflexivity. Qed.

Example scenario_chunk_ids :
  match to_bulk_actions (JDict (read_epub "some-file" [] scenario))
          "books" "book_content" with
  | Ok actions => chunk_ids_of actions
  | Raise _ => []
  end
  = [JStr "8f7785b93990c569-000000"; JStr "8f7785b93990c569-000001";
     JStr "8f7785b93990c569-000002"].
Proof. vm_compute. reflexivity. Qed.

(** A refused input is reported and skipped; the others go through. *)
Example refused_input_is_skipped :
  snd (process_json_objects "books" "book_content"
         [("a.json", JDict sample_document);
          ("b.json", JDict [("chapters", JNull)]);
          ("c.json", JDict [])])
  = [PrintOK "a.json"; PrintERROR "b.json" TypeError; PrintOK "c.json"].
Proof. vm_compute. reflexivity. Qed.

End Examples.
